(** * GitHub Actions integration for the PR agent

    A shallow embedding of [webhook_server.py] (the webhook receiver that
    records events in [github_events.json]) and of [server.py] (the tools
    that read the event log, reduce it to one status per workflow, drive
    [git] under a timeout and pick a PR template).

    Part I holds the definitions, module by module in the order of the
    sources; Part II holds the theorems. *)

From Stdlib Require Import ZArith String Ascii List DecimalString Decimal.
From Stdlib Require Import Permutation Lia.
From stdpp Require Import base option list strings gmap.

Local Open Scope string_scope.
Local Open Scope Z_scope.
Local Open Scope list_scope.

(* ===================================================================== *)
(** * Part I: definitions *)
(* ===================================================================== *)

(** ** Python primitives the sources rely on *)

Module Py.

(** Exceptions that can reach one of the functions modelled here. *)
Inductive exn : Type :=
| JSONDecodeError
| TimeoutExpired (cmd : list string) (timeout : Z)
| CalledProcessError (returncode : Z) (cmd : list string) (stdout stderr : string)
| FileNotFoundError
| PermissionError (filename : option string)
| OtherError (type_name msg : string).

(** A Python call either returns a value or raises. *)
Inductive result (A : Type) : Type :=
| Return (a : A)
| Raise (e : exn).
Arguments Return {A} a.
Arguments Raise {A} e.

(** [l[start:]] for an integer [start]: a negative index counts from the
    end, and both ends are clamped to the list. *)
Definition slice_from {A : Type} (start : Z) (l : list A) : list A :=
  let n := Z.of_nat (length l) in
  let s := if start <? 0 then Z.max (start + n) 0 else Z.min start n in
  drop (Z.to_nat s) l.

(** [l[:stop]]. *)
Definition slice_to {A : Type} (stop : Z) (l : list A) : list A :=
  let n := Z.of_nat (length l) in
  let e := if stop <? 0 then Z.max (stop + n) 0 else Z.min stop n in
  take (Z.to_nat e) l.

Definition LF : ascii := ascii_of_nat 10.
Definition CR : ascii := ascii_of_nat 13.
Definition nl : string := String LF EmptyString.

(** [s.split(sep)] for a one-character separator: never empty, and a
    text that ends with the separator yields a last empty piece. *)
Fixpoint split (sep : ascii) (s : string) : list string :=
  match s with
  | EmptyString => [EmptyString]
  | String c s' =>
      if Ascii.eqb c sep then EmptyString :: split sep s'
      else match split sep s' with
           | [] => [String c EmptyString]
           | w :: ws => String c w :: ws
           end
  end.

(** [sep.join(pieces)]. *)
Definition join (sep : string) (pieces : list string) : string :=
  String.concat sep pieces.

(** Line boundaries of [str.splitlines] within ASCII. *)
Definition is_linebreak (c : ascii) : bool :=
  let n := nat_of_ascii c in
  ((10 <=? n) && (n <=? 13) || (28 <=? n) && (n <=? 30))%nat.

(** [s.splitlines()]: no piece for a final line end, and a carriage
    return followed by a line feed is one boundary. [skip_lf] says that
    the previous character was a carriage return. *)
Fixpoint splitlines_from (skip_lf : bool) (s : string) : list string :=
  match s with
  | EmptyString => []
  | String c s' =>
      if skip_lf && Ascii.eqb c LF then splitlines_from false s'
      else if is_linebreak c then EmptyString :: splitlines_from (Ascii.eqb c CR) s'
      else match splitlines_from false s' with
           | [] => [String c EmptyString]
           | w :: ws => String c w :: ws
           end
  end.

Definition splitlines (s : string) : list string := splitlines_from false s.

(** White space of [str.strip] within ASCII. *)
Definition is_space (c : ascii) : bool :=
  let n := nat_of_ascii c in
  ((9 <=? n) && (n <=? 13) || (28 <=? n) && (n <=? 32))%nat.

Fixpoint lstrip (s : string) : string :=
  match s with
  | EmptyString => EmptyString
  | String c s' => if is_space c then lstrip s' else s
  end.

Fixpoint rstrip (s : string) : string :=
  match s with
  | EmptyString => EmptyString
  | String c s' =>
      match rstrip s' with
      | EmptyString => if is_space c then EmptyString else String c EmptyString
      | r => String c r
      end
  end.

Definition strip (s : string) : string := rstrip (lstrip s).

(** Truth value of a string: only the empty string is false. *)
Definition truthy (s : string) : bool := negb (String.eqb s EmptyString).

(** [s.lower()]. The strings of this model are byte strings; a byte
    outside [A-Z] is left alone. *)
Definition lower_ascii (c : ascii) : ascii :=
  let n := nat_of_ascii c in
  if ((65 <=? n) && (n <=? 90))%nat then ascii_of_nat (n + 32) else c.

Fixpoint lower (s : string) : string :=
  match s with
  | EmptyString => EmptyString
  | String c s' => String (lower_ascii c) (lower s')
  end.

(** [a > b] on strings: lexicographic, character by character. *)
Definition str_gt (a b : string) : bool :=
  match String.compare a b with Gt => true | _ => false end.

(** [str(n)] for an integer, as an f-string prints it. *)
Definition str_of_int (n : Z) : string := NilZero.string_of_int (Z.to_int n).

(** A [dict] with string keys, in insertion order: assigning to a key
    that is present replaces its value where it stands, a new key goes
    to the end. *)
Section Dict.
Context {V : Type}.

Fixpoint dict_get (k : string) (d : list (string * V)) : option V :=
  match d with
  | [] => None
  | (k', v) :: d' => if String.eqb k k' then Some v else dict_get k d'
  end.

Fixpoint dict_set (k : string) (v : V) (d : list (string * V)) : list (string * V) :=
  match d with
  | [] => [(k, v)]
  | (k', v') :: d' =>
      if String.eqb k k' then (k, v) :: d' else (k', v') :: dict_set k v d'
  end.

Definition dict_values (d : list (string * V)) : list V := map snd d.
End Dict.

End Py.

Import Py.

(** ** The event log: data model and backing file *)

Module Log.

(** Payload parts that are stored and handed back untouched. *)
#[warnings="-register-all"]
Inductive json : Type :=
| JNull
| JBool (b : bool)
| JNum (n : Z)
| JStr (s : string)
| JArr (items : list json)
| JObj (members : list (string * json)).

(** The part of GitHub's [workflow_run] object that the tools read. *)
Record run : Type := mk_run {
  name : string;
  status : string;
  conclusion : option string;
  run_number : Z;
  updated_at : string;
  html_url : string
}.

(** The record [handle_webhook] builds for each request. [None] stands
    for Python's [None], which is also what an absent key gives. *)
Record event : Type := mk_event {
  timestamp : string;
  event_type : string;
  action : option string;
  workflow_run : option run;
  check_run : option json;
  repository : option string;
  sender : option string
}.

(** What a file holds, as [json.load] sees it: text that does not parse
    (an empty or cut-off file among others), or an array of events. The
    receiver is the only writer of the events file and writes nothing
    else. *)
Inductive content : Type :=
| Unparsable
| Stored (events : list event).

(** The files of the script directory, by path. *)
Abbreviation fs := (gmap string content).

Definition EVENTS_FILE : string := "github_events.json".

(** File-system operations, each atomic for an observer.
    [OpenW p] is [open(p, 'w')]: the file is created or cut to length
    zero. [Dump p events] is [json.dump] followed by the close that
    flushes it. [Rename] is [os.replace]. *)
Inductive fs_op : Type :=
| OpenW (p : string)
| Dump (p : string) (events : list event)
| Rename (src dst : string).

Definition exec (op : fs_op) (files : fs) : fs :=
  match op with
  | OpenW p => <[p := Unparsable]> files
  | Dump p events => <[p := Stored events]> files
  | Rename src dst =>
      match files !! src with
      | Some c => <[dst := c]> (delete src files)
      | None => files
      end
  end.

Definition exec_all (ops : list fs_op) (files : fs) : fs :=
  fold_left (fun acc op => exec op acc) ops files.

(** The states another process can find the files in while [ops] run:
    before the first operation and after each one. *)
Fixpoint visible (ops : list fs_op) (files : fs) : list fs :=
  match ops with
  | [] => [files]
  | op :: ops' => files :: visible ops' (exec op files)
  end.

End Log.

Import Log.

(** ** webhook_server.py *)

Module Webhook.

Record repository_info : Type := { full_name : option string }.
Record sender_info : Type := { login : option string }.

(** The JSON object of a webhook delivery, as far as it is read. *)
Record payload : Type := {
  p_action : option string;
  p_workflow_run : option run;
  p_check_run : option json;
  p_repository : option repository_info;
  p_sender : option sender_info
}.

(** What [await request.json()] does: it raises [JSONDecodeError] (the
    body is text that is not JSON); it raises something else (the body
    cannot be read, is over the size limit of the server, or is not text
    in the encoding it declares); it returns a value that is not an
    object; or it returns an object. *)
Inductive body : Type :=
| InvalidJson
| ReadError
| NotAnObject
| Object (data : payload).

Record request : Type := {
  json_body : body;
  x_github_event : option string
}.

Record response : Type := {
  http_status : Z;
  status_field : string;
  message_field : option string
}.

(** How the disk answers the save. *)
Inductive disk : Type :=
| WriteOk
| OpenFails
| WriteFails.

(** Lines 23-31. [now] is [datetime.utcnow().isoformat()]. *)
Definition make_event (now : string) (req : request) (data : payload) : event :=
  {| timestamp := now;
     event_type := default "unknown" (x_github_event req);
     action := p_action data;
     workflow_run := p_workflow_run data;
     check_run := p_check_run data;
     repository := r ← p_repository data; full_name r;
     sender := s ← p_sender data; login s |}.

(** Lines 34-42: the existing events, or none when the file is absent
    or does not parse. *)
Definition read_existing (files : fs) : list event :=
  match files !! EVENTS_FILE with
  | Some (Stored events) => events
  | Some Unparsable => []
  | None => []
  end.

(** Lines 45-46: [events.append(event); events = events[-100:]]. *)
Definition add_event (ev : event) (events : list event) : list event :=
  slice_from (-100) (events ++ [ev]).

(** Lines 50-51: [with open(EVENTS_FILE, 'w') as f: json.dump(events, f)]. *)
Definition save_ops (events : list event) : list fs_op :=
  [OpenW EVENTS_FILE; Dump EVENTS_FILE events].

Definition handle_webhook (now : string) (req : request) (d : disk) (files : fs)
  : response * fs :=
  match json_body req with
  | InvalidJson =>
      ({| http_status := 400; status_field := "error";
          message_field := Some "Invalid JSON" |}, files)
  | ReadError | NotAnObject =>
      ({| http_status := 500; status_field := "error";
          message_field := Some "Internal server error" |}, files)
  | Object data =>
      let event := make_event now req data in
      let events := add_event event (read_existing files) in
      let failed := {| http_status := 500; status_field := "error";
                       message_field := Some "Failed to save event" |} in
      match d with
      | WriteOk =>
          ({| http_status := 200; status_field := "success";
              message_field := None |}, exec_all (save_ops events) files)
      | OpenFails => (failed, files)
      | WriteFails => (failed, exec_all (take 1 (save_ops events)) files)
      end
  end.

(** One successful delivery of an event that is already built: the
    read-modify-write of lines 34-51. *)
Definition append (ev : event) (files : fs) : fs :=
  exec_all (save_ops (add_event ev (read_existing files))) files.

Definition append_all (evs : list event) (files : fs) : fs :=
  fold_left (fun acc ev => append ev acc) evs files.

(** The event a request gives rise to, if any, [now] being the time of
    its arrival. *)
Definition event_of (arrival : string * request) : option event :=
  match json_body arrival.2 with
  | Object data => Some (make_event arrival.1 arrival.2 data)
  | InvalidJson | ReadError | NotAnObject => None
  end.

(** The requests handled one after the other, the disk accepting every
    save. *)
Definition deliveries (arrivals : list (string * request)) (files : fs) : fs :=
  fold_left (fun acc arrival => (handle_webhook arrival.1 arrival.2 WriteOk acc).2)
    arrivals files.

End Webhook.

Import Webhook.

(** ** server.py: the event tools *)

Module Tools.

(** Lines 378-392. The value is what [json.dumps] is applied to. *)
Definition get_recent_actions_events (limit : Z) (files : fs) : result (list event) :=
  match files !! EVENTS_FILE with
  | None => Return []
  | Some Unparsable => Raise JSONDecodeError
  | Some (Stored events) => Return (slice_from (- limit) events)
  end.

(** One entry of the [workflows] dict of lines 427-434. *)
Record workflow_status : Type := mk_status {
  ws_name : string;
  ws_status : string;
  ws_conclusion : option string;
  ws_run_number : Z;
  ws_updated_at : string;
  ws_html_url : string
}.

Definition status_of_run (r : run) : workflow_status :=
  {| ws_name := name r;
     ws_status := status r;
     ws_conclusion := conclusion r;
     ws_run_number := run_number r;
     ws_updated_at := updated_at r;
     ws_html_url := html_url r |}.

Inductive status_reply : Type :=
| Message (text : string)
| Statuses (workflows : list workflow_status).

Definition NO_EVENTS : string := "No GitHub Actions events received yet".

(** Lines 411-420: the runs of the events that carry one, narrowed to
    [workflow_name] when that is given and not empty. *)
Definition workflow_events (workflow_name : option string) (events : list event)
  : list run :=
  let runs := omap workflow_run events in
  match workflow_name with
  | Some wanted =>
      if truthy wanted then filter (fun r => name r = wanted) runs else runs
  | None => runs
  end.

(** Lines 423-434: the body of the loop. *)
Definition record_run (workflows : list (string * workflow_status)) (r : run)
  : list (string * workflow_status) :=
  match dict_get (name r) workflows with
  | None => dict_set (name r) (status_of_run r) workflows
  | Some current =>
      if str_gt (updated_at r) (ws_updated_at current)
      then dict_set (name r) (status_of_run r) workflows
      else workflows
  end.

Definition reduce (runs : list run) : list (string * workflow_status) :=
  fold_left record_run runs [].

(** Lines 396-436. *)
Definition get_workflow_status (workflow_name : option string) (files : fs)
  : result status_reply :=
  match files !! EVENTS_FILE with
  | None => Return (Message NO_EVENTS)
  | Some Unparsable => Raise JSONDecodeError
  | Some (Stored []) => Return (Message NO_EVENTS)
  | Some (Stored events) =>
      Return (Statuses (dict_values (reduce (workflow_events workflow_name events))))
  end.

End Tools.

Import Tools.

(** ** server.py: change analysis *)

Module Git.

(** Why a program could not be started. *)
Inductive spawn_error : Type :=
| NotFound
| Denied (filename : option string)
| Failed (type_name msg : string).

(** What a command does when nobody interrupts it: it cannot be
    started, or it runs for [runtime] seconds and exits. *)
Inductive behaviour : Type :=
| CannotStart (e : spawn_error)
| Runs (runtime : Z) (returncode : Z) (stdout stderr : string).

(** Everything outside the function: what each command line does in
    each directory, the first root the MCP session lists (if the lookup
    succeeds) and the current directory of the process. *)
Record world : Type := {
  git : list string -> string -> behaviour;
  mcp_root : option string;
  getcwd : string
}.

(** One [subprocess.run] as it was issued. *)
Record call : Type := {
  args : list string;
  cwd : string;
  check : bool;
  timeout : option Z
}.

(** [CompletedProcess] with captured text. *)
Record completed : Type := {
  returncode : Z;
  stdout : string;
  stderr : string
}.

(** Computations that may raise and that log the commands they run. *)
Definition M (A : Type) : Type := list call -> result A * list call.

Definition ret {A : Type} (a : A) : M A := fun log => (Return a, log).

Definition raise {A : Type} (e : exn) : M A := fun log => (Raise e, log).

Definition bind {A B : Type} (m : M A) (k : A -> M B) : M B :=
  fun log =>
    match m log with
    | (Return a, log') => k a log'
    | (Raise e, log') => (Raise e, log')
    end.

(** [try: m  except Exception as e: handler e]. *)
Definition catch {A : Type} (m : M A) (handler : exn -> M A) : M A :=
  fun log =>
    match m log with
    | (Return a, log') => (Return a, log')
    | (Raise e, log') => handler e log'
    end.

Notation "x <-- m ;; k" := (bind m (fun x => k))
  (at level 100, m at next level, right associativity).

Definition exn_of_spawn_error (e : spawn_error) : exn :=
  match e with
  | NotFound => FileNotFoundError
  | Denied filename => PermissionError filename
  | Failed type_name msg => OtherError type_name msg
  end.

(** [subprocess.run(cmd, capture_output=True, text=True, check=check,
    cwd=dir, timeout=limit)]. A command still running when the limit is
    reached is killed and [TimeoutExpired] raised; without a limit the
    call waits for the exit. *)
Definition subprocess_run (w : world) (cmd : list string) (chk : bool)
    (dir : string) (limit : option Z) : M completed :=
  fun log =>
    let log' := (log ++ [{| args := cmd; cwd := dir; check := chk; timeout := limit |}])%list in
    match git w cmd dir with
    | CannotStart e => (Raise (exn_of_spawn_error e), log')
    | Runs runtime rc out err =>
        match limit with
        | Some t =>
            if t <? runtime then (Raise (TimeoutExpired cmd t), log')
            else if chk && negb (rc =? 0) then (Raise (CalledProcessError rc cmd out err), log')
            else (Return {| returncode := rc; stdout := out; stderr := err |}, log')
        | None =>
            if chk && negb (rc =? 0) then (Raise (CalledProcessError rc cmd out err), log')
            else (Return {| returncode := rc; stdout := out; stderr := err |}, log')
        end
    end.

(** The dictionary of lines 186-194. *)
Record analysis : Type := {
  base_branch : string;
  files_changed : string;
  statistics : string;
  commits : string;
  diff : string;
  truncated : bool;
  total_diff_lines : Z
}.

(** The third entry of an error dictionary. *)
Inductive hint : Type :=
| NoHint
| Solution (text : string)
| Command (line : string)
| Context (branch directory : string) (with_diff : bool) (max_lines : Z).

Record failure : Type := {
  error : string;
  details : string;
  extra : hint
}.

(** What the tool hands to [json.dumps]. *)
Inductive report : Type :=
| Analysis (a : analysis)
| Failure (f : failure).

Definition NOT_INCLUDED : string :=
  "Diff not included (set include_diff=true to see full diff)".

Definition name_only_cmd (base : string) : list string :=
  ["git"; "diff"; "--name-only"; base +:+ "..HEAD"].

Definition name_status_cmd (base : string) (changed_files : list string) : list string :=
  (["git"; "diff"; "--name-status"; "--no-renames"; base +:+ "..HEAD"; "--"]
     ++ slice_to 100 changed_files)%list.

Definition stat_cmd (base : string) : list string :=
  ["git"; "diff"; "--stat"; base +:+ "...HEAD"].

Definition diff_cmd (base : string) : list string :=
  ["git"; "diff"; base +:+ "...HEAD"].

Definition log_cmd (base : string) : list string :=
  ["git"; "log"; "--oneline"; base +:+ "..HEAD"].

(** Lines 82-95. *)
Definition resolve_directory (w : world) (working_directory : option string)
  : option string :=
  match working_directory with
  | Some d => Some d
  | None => mcp_root w
  end.

Definition or_getcwd (w : world) (working_directory : option string) : string :=
  match working_directory with
  | Some d => if truthy d then d else getcwd w
  | None => getcwd w
  end.

(** Line 112: [[f.strip() for f in text.splitlines() if f.strip()]]. *)
Definition changed_files_of (text : string) : list string :=
  filter (fun f => truthy f = true) (map strip (splitlines text)).

(** Lines 102-135: the text of [files_result.stdout] after the step.
    Both handlers of the inner [try] put the empty string there. *)
Definition list_changed_files (w : world) (base dir : string) (command_timeout : Z)
  : M string :=
  catch
    (files_result <-- subprocess_run w (name_only_cmd base) true dir (Some command_timeout) ;;
     let changed_files := changed_files_of (stdout files_result) in
     match changed_files with
     | _ :: _ =>
         status_result <-- subprocess_run w (name_status_cmd base changed_files) true dir
                            (Some command_timeout) ;;
         ret (stdout status_result)
     | [] => ret EmptyString
     end)
    (fun _ => ret EmptyString).

(** Lines 164-171: the diff text, the flag and the number of pieces. *)
Definition cut_diff (max_diff_lines : Z) (text : string) : string * bool * Z :=
  let diff_lines := split LF text in
  let count := Z.of_nat (length diff_lines) in
  if max_diff_lines <? count then
    (join nl (slice_to max_diff_lines diff_lines)
       +:+ nl +:+ nl +:+ "... Output truncated. Showing " +:+ str_of_int max_diff_lines
       +:+ " of " +:+ str_of_int count +:+ " lines ..."
       +:+ nl +:+ "... Use max_diff_lines parameter to see more ...",
     true, count)
  else (text, false, count).

(** Lines 95-197: the body of the outer [try]. *)
Definition analyze (w : world) (base : string) (include_diff : bool)
    (max_diff_lines : Z) (dir : string) (command_timeout : Z) : M analysis :=
  files_stdout <-- list_changed_files w base dir command_timeout ;;
  stat_result <-- subprocess_run w (stat_cmd base) false dir (Some command_timeout) ;;
  shown <-- (if include_diff then
              diff_result <-- subprocess_run w (diff_cmd base) false dir
                               (Some command_timeout) ;;
              ret (cut_diff max_diff_lines (stdout diff_result))
            else ret (EmptyString, false, 0)) ;;
  commits_result <-- subprocess_run w (log_cmd base) false dir None ;;
  ret {| base_branch := base;
         files_changed := files_stdout;
         statistics := stdout stat_result;
         commits := stdout commits_result;
         diff := if include_diff then shown.1.1 else NOT_INCLUDED;
         truncated := shown.1.2;
         total_diff_lines := if include_diff then shown.2 else 0 |}.

(** [a or b] on strings. *)
Definition str_or (a b : string) : string := if truthy a then a else b.

(** Lines 199-256: the handlers of the outer [try], in their order. The
    text of a [JSONDecodeError] is not modelled; nothing in the body
    raises one. *)
Definition report_failure (w : world) (base : string) (include_diff : bool)
    (max_diff_lines : Z) (working_directory : option string) (e : exn) : failure :=
  match e with
  | TimeoutExpired _ t =>
      {| error := "Git command timeout";
         details := "Git command timed out after " +:+ str_of_int t
           +:+ " seconds. The repository might be too large or the diff too complex.";
         extra := Solution
           "Try with a higher timeout value using the 'command_timeout' parameter" |}
  | CalledProcessError rc cmd out err =>
      {| error := "Git command execution failed";
         details := "Git command failed with exit code " +:+ str_of_int rc +:+ ": "
           +:+ str_or err (str_or out "No output");
         extra := Command (join " " cmd) |}
  | FileNotFoundError =>
      {| error := "Git not found";
         details := "Git command not found. Make sure Git is installed and in your PATH.";
         extra := Solution
           "Please install Git and ensure it's available in your system PATH" |}
  | JSONDecodeError =>
      {| error := "Serialization error";
         details := "Failed to serialize the response: ";
         extra := NoHint |}
  | PermissionError filename =>
      {| error := "Permission denied";
         details := "Permission denied when accessing " +:+ default "None" filename;
         extra := Solution
           "Check file permissions and ensure the application has the necessary access rights" |}
  | OtherError type_name msg =>
      {| error := "Unexpected " +:+ type_name;
         details := msg;
         extra := Context base (or_getcwd w working_directory) include_diff max_diff_lines |}
  end.

(** Lines 64-256, with the commands it ran. *)
Definition analyze_file_changes (w : world) (base : string) (include_diff : bool)
    (max_diff_lines : Z) (working_directory : option string) (command_timeout : Z)
  : report * list call :=
  let working_directory := resolve_directory w working_directory in
  let dir := or_getcwd w working_directory in
  match analyze w base include_diff max_diff_lines dir command_timeout [] with
  | (Return a, log) => (Analysis a, log)
  | (Raise e, log) =>
      (Failure (report_failure w base include_diff max_diff_lines working_directory e), log)
  end.

End Git.

Import Git.

(** ** server.py: template selection *)

Module Templates.

(** The file names in the order the catalog is listed in. *)
Definition DEFAULT_TEMPLATES : list (string * string) :=
  [("bug.md", "Bug Fix"); ("feature.md", "Feature"); ("docs.md", "Documentation");
   ("refactor.md", "Refactor"); ("test.md", "Test"); ("performance.md", "Performance");
   ("security.md", "Security")].

Definition TYPE_MAPPING : gmap string string :=
  list_to_map
    [("bug", "bug.md"); ("fix", "bug.md");
     ("feature", "feature.md"); ("enhancement", "feature.md");
     ("docs", "docs.md"); ("documentation", "docs.md");
     ("refactor", "refactor.md"); ("cleanup", "refactor.md");
     ("test", "test.md"); ("testing", "test.md");
     ("performance", "performance.md"); ("optimization", "performance.md");
     ("security", "security.md")].

Record template : Type := {
  filename : string;
  type : string;
  content : string
}.

(** The templates directory: it is missing and cannot be made, or it is
    there (perhaps just made) with the files that can be read. *)
Inductive templates_dir : Type :=
| Unavailable
| Directory (files : gmap string string).

Inductive catalog_error : Type :=
| DirectoryNotCreated
| NoTemplatesLoaded.

Inductive templates_response : Type :=
| TemplatesError (e : catalog_error)
| TemplatesOk (templates : list template).

(** Lines 284-305: one entry per default file that exists and reads. *)
Definition load_templates (files : gmap string string) : list template :=
  omap (fun entry : string * string =>
          text ← files !! entry.1;
          Some {| filename := entry.1; type := entry.2; content := text |})
       DEFAULT_TEMPLATES.

(** Lines 260-334. *)
Definition get_pr_templates (dir : templates_dir) : templates_response :=
  match dir with
  | Unavailable => TemplatesError DirectoryNotCreated
  | Directory files =>
      match load_templates files with
      | [] => TemplatesError NoTemplatesLoaded
      | templates => TemplatesOk templates
      end
  end.

(** Line 360. *)
Definition select (change_type : string) : string :=
  default "feature.md" (TYPE_MAPPING !! lower change_type).

(** Lines 361-364: [next((t for t in templates if ...), first)]. *)
Definition resolve (template_file : string) (first : template) (templates : list template)
  : template :=
  default first (List.find (fun t => String.eqb (filename t) template_file) templates).

Record suggestion : Type := {
  recommended_template : template;
  reasoning : string;
  template_content : string;
  usage_hint : string
}.

Inductive suggestion_reply : Type :=
| CatalogFailed (e : catalog_error)
| NoTemplatesAvailable
| Suggested (s : suggestion).

(** Lines 338-373. *)
Definition suggest_template (changes_summary change_type : string) (dir : templates_dir)
  : suggestion_reply :=
  match get_pr_templates dir with
  | TemplatesError e => CatalogFailed e
  | TemplatesOk [] => NoTemplatesAvailable
  | TemplatesOk (first :: rest) =>
      let templates := first :: rest in
      let selected_template := resolve (select change_type) first templates in
      Suggested
        {| recommended_template := selected_template;
           reasoning := "Based on your analysis: '" +:+ changes_summary
             +:+ "', this appears to be a " +:+ change_type +:+ " change.";
           template_content := content selected_template;
           usage_hint :=
             "Claude can help you fill out this template based on the specific changes in your PR." |}
  end.

End Templates.

Import Templates.

(** ** Notions the properties are stated with *)

Module Props.

(** What the loop of [get_workflow_status] does to the entry of one
    name when it meets a run of that name. *)
Definition keep_latest (current : option workflow_status) (r : run)
  : option workflow_status :=
  match current with
  | None => Some (status_of_run r)
  | Some c =>
      if str_gt (updated_at r) (ws_updated_at c) then Some (status_of_run r) else Some c
  end.

(** A [workflows] dict as the loop builds it: every entry sits under
    its own name and no name occurs twice. *)
Fixpoint well_keyed (d : list (string * workflow_status)) : Prop :=
  match d with
  | [] => True
  | (k, v) :: d' => ws_name v = k /\ dict_get k d' = None /\ well_keyed d'
  end.

(** [r] is a run of the name [n] in the log that no run of that name in
    the log exceeds in [updated_at]. *)
Definition latest_of (n : string) (events : list event) (r : run) : Prop :=
  r ∈ omap workflow_run events
  /\ name r = n
  /\ forall r', r' ∈ omap workflow_run events -> name r' = n ->
       str_gt (updated_at r') (updated_at r) = false.

(** An operation that touches nothing but the events file itself. *)
Definition in_place (op : fs_op) : Prop :=
  match op with
  | OpenW p => p = EVENTS_FILE
  | Dump p _ => p = EVENTS_FILE
  | Rename _ _ => False
  end.

(** The save the specification asks for: write a temporary file, then
    put it in the place of the events file in one step. *)
Definition spec_atomic_replace_ops (tmp : string) (events : list event) : list fs_op :=
  [OpenW tmp; Dump tmp events; Rename tmp EVENTS_FILE].

(** The command is started and is still running after [limit] seconds. *)
Definition exceeds (w : world) (cmd : list string) (dir : string) (limit : Z) : bool :=
  match git w cmd dir with
  | Runs runtime _ _ _ => limit <? runtime
  | CannotStart _ => false
  end.

(** The command is started, is done within the limit if there is one,
    and exits with status 0. *)
Definition succeeds (w : world) (cmd : list string) (dir : string) (limit : option Z)
  : bool :=
  match git w cmd dir with
  | Runs runtime rc _ _ =>
      match limit with
      | Some t => negb (t <? runtime) && (rc =? 0)
      | None => rc =? 0
      end
  | CannotStart _ => false
  end.

(** The command is started and is done within the limit, whatever its
    exit status. *)
Definition finishes (w : world) (cmd : list string) (dir : string) (limit : Z) : bool :=
  match git w cmd dir with
  | Runs runtime _ _ _ => negb (limit <? runtime)
  | CannotStart _ => false
  end.

(** The command is started, is done within the limit, and exits with a
    status other than 0. *)
Definition exits_nonzero (w : world) (cmd : list string) (dir : string) (limit : Z)
  : bool :=
  match git w cmd dir with
  | Runs runtime rc _ _ => negb (limit <? runtime) && negb (rc =? 0)
  | CannotStart _ => false
  end.

(** What the command prints when left to finish. *)
Definition output_of (w : world) (cmd : list string) (dir : string) : string :=
  match git w cmd dir with
  | Runs _ _ out _ => out
  | CannotStart _ => EmptyString
  end.

(** The result of the handler of [TimeoutExpired] for a limit [t]. *)
Definition timeout_failure (t : Z) : failure :=
  {| error := "Git command timeout";
     details := "Git command timed out after " +:+ str_of_int t
       +:+ " seconds. The repository might be too large or the diff too complex.";
     extra := Solution
       "Try with a higher timeout value using the 'command_timeout' parameter" |}.

(** The queries after the file listing all succeed. *)
Definition rest_succeeds (w : world) (base dir : string) (include_diff : bool) (t : Z)
  : bool :=
  succeeds w (stat_cmd base) dir (Some t)
  && (if include_diff then succeeds w (diff_cmd base) dir (Some t) else true)
  && succeeds w (log_cmd base) dir None.

(** The file listing runs into [bad]: the query for the names does, or
    it succeeds and the query for the status of the names does. *)
Definition listing_hits (bad : world -> list string -> string -> Z -> bool)
    (w : world) (base dir : string) (t : Z) : bool :=
  bad w (name_only_cmd base) dir t
  || (succeeds w (name_only_cmd base) dir (Some t)
      && bad w (name_status_cmd base
                  (changed_files_of (output_of w (name_only_cmd base) dir))) dir t).

(** A call of the file listing: it carries the time limit and is not
    the query for the full diff. *)
Definition listing_call (base : string) (t : Z) (c : call) : Prop :=
  timeout c = Some t /\ args c <> diff_cmd base /\ args c <> stat_cmd base.

(** A call as [analyze_file_changes] issues it: the commit list, or a
    query under the time limit, the full diff only on request. *)
Definition issued (base : string) (t : Z) (include_diff : bool) (c : call) : Prop :=
  args c = log_cmd base
  \/ (timeout c = Some t /\ (args c = diff_cmd base -> include_diff = true)).

(** Two worlds that differ at most in what the full diff query does. *)
Definition same_but_diff (base : string) (w w' : world) : Prop :=
  (forall cmd dir, cmd <> diff_cmd base -> git w' cmd dir = git w cmd dir)
  /\ mcp_root w' = mcp_root w
  /\ getcwd w' = getcwd w.

(** A text without a line feed. *)
Fixpoint one_line (s : string) : bool :=
  match s with
  | EmptyString => true
  | String c s' => negb (Ascii.eqb c LF) && one_line s'
  end.

(** The text of the given lines, each ended by a line feed, as [git]
    prints them. *)
Definition unlines (ls : list string) : string :=
  fold_right (fun l rest => l +:+ nl +:+ rest) EmptyString ls.

(** The two lines that close a cut diff. *)
Definition notice (shown total : Z) : string :=
  nl +:+ nl +:+ "... Output truncated. Showing " +:+ str_of_int shown
    +:+ " of " +:+ str_of_int total +:+ " lines ..."
    +:+ nl +:+ "... Use max_diff_lines parameter to see more ...".

Definition is_timeout_report (r : report) : Prop :=
  match r with
  | Failure f => error f = "Git command timeout"
  | Analysis _ => False
  end.

Definition is_analysis (r : report) : Prop :=
  match r with
  | Analysis _ => True
  | Failure _ => False
  end.

End Props.

Import Props.

(** ** Sample data *)

Module Samples.

Definition build_run (number : Z) (state updated : string) : run :=
  {| name := "build";
     status := state;
     conclusion := None;
     run_number := number;
     updated_at := updated;
     html_url := "https://github.com/o/r/actions/runs/1" |}.

Definition run_event (now : string) (r : run) : event :=
  {| timestamp := now;
     event_type := "workflow_run";
     action := Some "completed";
     workflow_run := Some r;
     check_run := None;
     repository := Some "o/r";
     sender := Some "octocat" |}.

Definition first_run : run := build_run 1 "in_progress" "2024-01-01T00:00:00Z".
Definition second_run : run := build_run 2 "completed" "2024-01-02T00:00:00Z".

Definition first_event : event := run_event "2024-01-01T00:00:01" first_run.
Definition second_event : event := run_event "2024-01-02T00:00:01" second_run.

(** The [i]-th event of a long series. *)
Definition numbered (i : nat) : event :=
  run_event "2024-01-03T00:00:00" (build_run (Z.of_nat i) "completed" "2024-01-03T00:00:00Z").

(** A delivery of [second_run]. *)
Definition delivery : request :=
  {| json_body := Object {| p_action := Some "completed";
                            p_workflow_run := Some second_run;
                            p_check_run := None;
                            p_repository := Some {| full_name := Some "o/r" |};
                            p_sender := Some {| login := Some "octocat" |} |};
     x_github_event := Some "workflow_run" |}.

(** A repository in the directory [/repo] where every command but those
    listed in [special] prints [M file.py] after a second and exits
    with status 0. *)
Definition repo (special : list (list string * behaviour)) : world :=
  {| git := fun cmd _ =>
       default (Runs 1 0 ("M" +:+ String (ascii_of_nat 9) ("file.py" +:+ nl)) EmptyString)
               (snd <$> List.find (fun entry => bool_decide (entry.1 = cmd)) special);
     mcp_root := None;
     getcwd := "/repo" |}.

(** Listing the changed files takes 181 seconds. *)
Definition slow_listing : world :=
  repo [(name_only_cmd "main", Runs 181 0 ("file.py" +:+ nl) EmptyString)].

(** Computing the statistics takes 181 seconds. *)
Definition slow_stat : world :=
  repo [(stat_cmd "main", Runs 181 0 EmptyString EmptyString)].

(** The statistics come at once but with exit status 1; the full diff
    takes 181 seconds. *)
Definition slow_diff : world :=
  repo [(stat_cmd "main", Runs 1 1 EmptyString "warning: something is off");
        (diff_cmd "main", Runs 181 0 EmptyString EmptyString)].

(** The base branch does not exist: every query exits with status 128. *)
Definition bad_revision : world :=
  let fatal := Runs 1 128 EmptyString "fatal: bad revision" in
  repo [(name_only_cmd "nope", fatal); (stat_cmd "nope", fatal);
        (diff_cmd "nope", fatal); (log_cmd "nope", fatal)].

(** Only the file listing fails. *)
Definition listing_fails : world :=
  repo [(name_only_cmd "main", Runs 1 128 EmptyString "fatal: bad revision")].

(** The seven lines git prints for a one-line change of a file [f]. *)
Definition small_diff : list string :=
  ["diff --git a/f b/f"; "index 7898192..6178079 100644"; "--- a/f"; "+++ b/f";
   "@@ -1 +1 @@"; "-a"; "+b"].

Definition seven_line_diff : world :=
  repo [(diff_cmd "main", Runs 1 0 (unlines small_diff) EmptyString)].

(** A templates directory that lacks [feature.md]. *)
Definition no_feature_template : templates_dir :=
  Directory (list_to_map [("docs.md", "## Documentation"); ("bug.md", "## Bug Fix")]).

End Samples.

Import Samples.

(** ** logger.py *)

Module Logging.

(** The handlers [setup_logger] creates. The rotating file handler is
    made with [maxBytes = LOG_MAX_BYTES] and [backupCount =
    LOG_BACKUP_COUNT]; a handler carries its level and its format. *)
Inductive handler : Type :=
| RotatingFileHandler (filename : string) (level : Z) (fmt : string)
| StreamHandler (level : Z) (fmt : string)
| NullHandler.

Record logger : Type := {
  handlers : list handler;
  level : Z;
  propagate : bool
}.

(** A logger as [logging.getLogger] makes it the first time. *)
Definition new_logger : logger :=
  {| handlers := []; level := 0; propagate := true |}.

(** The state of the [logging] module, the calls of [logger.debug] and
    [logger.info] made so far (logger, level, message) and the lines
    printed to [sys.stderr]. *)
Record logging : Type := {
  root : logger;
  loggers : gmap string logger;
  records : list (string * Z * string);
  stderr_lines : list string
}.

(** What the file system answers: the absolute form of a path, and the
    error, if any, of making the directory of a log file and opening it. *)
Record log_files : Type := {
  absolute : string -> string;
  open_error : string -> option string
}.

Definition DEFAULT_LOG_FORMAT : string :=
  "%(asctime)s - %(name)s - %(levelname)s - %(message)s".
Definition DEFAULT_LEVEL : Z := 10.
Definition LOG_FILE : string := "logs/github_mcp.log".

(** [logging.getLogger(name)] hands out the root logger for an empty
    name and for the name of the root logger. *)
Definition is_root (name : string) : bool :=
  String.eqb name EmptyString || String.eqb name "root".

Definition getLogger (name : string) (st : logging) : logger :=
  if is_root name then root st else default new_logger (loggers st !! name).

Definition set_logger (name : string) (lg : logger) (st : logging) : logging :=
  if is_root name
  then {| root := lg; loggers := loggers st; records := records st;
          stderr_lines := stderr_lines st |}
  else {| root := root st; loggers := <[name := lg]> (loggers st);
          records := records st; stderr_lines := stderr_lines st |}.

(** [logging.getLevelName] on an integer. *)
Definition getLevelName (lvl : Z) : string :=
  if lvl =? 50 then "CRITICAL"
  else if lvl =? 40 then "ERROR"
  else if lvl =? 30 then "WARNING"
  else if lvl =? 20 then "INFO"
  else if lvl =? 10 then "DEBUG"
  else if lvl =? 0 then "NOTSET"
  else "Level " +:+ str_of_int lvl.

(** [logging.Formatter(fmt)] takes ["%(message)s"] for an empty format
    and raises [ValueError] unless the format holds a field: the pattern
    [%\(\w+\)[#0+ -]*(\*|\d+)?(\.(\*|\d+))?[diouxefgcrsa%]], letter
    case ignored, is searched for. The classes that follow one another
    in the pattern share no character that could end the match, so the
    longest run of each is taken. Within ASCII. *)
Definition in_range (lo hi : nat) (c : ascii) : bool :=
  let n := nat_of_ascii c in ((lo <=? n) && (n <=? hi))%nat.

Definition is_digit (c : ascii) : bool := in_range 48 57 c.

Definition is_word (c : ascii) : bool :=
  is_digit c || in_range 65 90 c || in_range 97 122 c || Ascii.eqb c "_".

Definition one_of (chars : string) (c : ascii) : bool :=
  existsb (Ascii.eqb c) (list_ascii_of_string chars).

Fixpoint skip (p : ascii -> bool) (s : string) : string :=
  match s with
  | String c r => if p c then skip p r else s
  | EmptyString => s
  end.

(** [(\*|\d+)?] *)
Definition skip_count (s : string) : string :=
  match s with
  | String c r => if Ascii.eqb c "*" then r else skip is_digit s
  | EmptyString => s
  end.

(** [(\.(\*|\d+))?] *)
Definition skip_precision (s : string) : string :=
  match s with
  | String c (String d r) =>
      if Ascii.eqb c "." && (Ascii.eqb d "*" || is_digit d)
      then skip_count (String d r) else s
  | _ => s
  end.

Definition field_here (s : string) : bool :=
  match s with
  | String p (String q (String c r)) =>
      Ascii.eqb p "%" && Ascii.eqb q "(" && is_word c
      && match skip is_word r with
         | String close r1 =>
             Ascii.eqb close ")"
             && match skip_precision (skip_count (skip (one_of "#0+ -") r1)) with
                | String k _ => one_of "diouxefgcrsa%" (lower_ascii k)
                | EmptyString => false
                end
         | EmptyString => false
         end
  | _ => false
  end.

Fixpoint has_field (s : string) : bool :=
  field_here s
  || match s with
     | String _ r => has_field r
     | EmptyString => false
     end.

Definition valid_format (fmt : string) : bool :=
  has_field (if String.eqb fmt EmptyString then "%(message)s" else fmt).

(** Lines 22-99. The first component is the logger returned, as it is
    when the function returns, or the exception raised; the second is
    the new state of the module. *)
Definition setup_logger (env : log_files) (name : string) (log_level : Z)
    (log_file : option string) (log_format : string) (console : bool) (st : logging)
  : result logger * logging :=
  (* lines 43-50 *)
  let st0 := set_logger name {| handlers := []; level := log_level; propagate := false |}
               st in
  (* line 53 *)
  if negb (valid_format log_format)
  then (Raise (OtherError "ValueError"
                 ("Invalid format '" +:+ log_format +:+ "' for '%' style")), st0)
  else
    let path := absolute env (default LOG_FILE log_file) in
    (* lines 61-85 *)
    let tried :=
      match open_error env path with
      | None =>
          ([RotatingFileHandler path log_level log_format],
           [(name, 10, "Debug message - this should appear in the log");
            (name, 20, "Initialized logger for " +:+ name +:+ ". Log level: "
                         +:+ getLevelName log_level)],
           [],
           console)
      | Some e =>
          ([], [],
           ["Failed to set up file logging to " +:+ path +:+ ": " +:+ e;
            "Falling back to console logging only."],
           true)
      end in
    (* lines 88-92 *)
    let lg := {| handlers := tried.1.1.1
                   ++ (if tried.2 then [StreamHandler log_level log_format] else []);
                 level := log_level;
                 propagate := false |} in
    let st1 := set_logger name lg st0 in
    (* lines 95-97 *)
    let st2 := {| root := {| handlers := [NullHandler]; level := level (root st1);
                             propagate := propagate (root st1) |};
                  loggers := loggers st1;
                  records := records st ++ tried.1.1.2;
                  stderr_lines := stderr_lines st ++ tried.1.2 |} in
    (Return (getLogger name st2), st2).

(** The module before anything was set up: the root logger at
    [WARNING], no other logger. *)
Definition fresh : logging :=
  {| root := {| handlers := []; level := 30; propagate := true |};
     loggers := ∅; records := []; stderr_lines := [] |}.

End Logging.

Import Logging.

(** ** Further notions and sample data *)

Module More.

(** A request that carries a JSON object. *)
Definition carries_object (arrival : string * request) : Prop :=
  is_Some (event_of arrival).

(** Runs of one name that share their [updated_at] carry the same six
    fields. *)
Definition ties_agree (events : list event) : Prop :=
  forall r1 r2,
    r1 ∈ omap workflow_run events -> r2 ∈ omap workflow_run events ->
    name r1 = name r2 -> updated_at r1 = updated_at r2 ->
    status_of_run r1 = status_of_run r2.

(** The names of the default templates, in their order. *)
Definition default_names : list string := map fst DEFAULT_TEMPLATES.

(** The default templates that are in the directory, in the order of
    [DEFAULT_TEMPLATES]. *)
Definition present (files : gmap string string) : list string :=
  filter (fun n => is_Some (files !! n)) default_names.

(** Every default template is in the directory. *)
Definition full_catalog : templates_dir :=
  Directory (list_to_map (map (fun entry : string * string =>
                                 (entry.1, "## " +:+ entry.2)) DEFAULT_TEMPLATES)).

(** A file system where paths are taken as they are and every log file
    can be opened, and one where none can. *)
Definition writable : log_files :=
  {| absolute := fun p => "/srv/" +:+ p; open_error := fun _ => None |}.

Definition read_only : log_files :=
  {| absolute := fun p => "/srv/" +:+ p;
     open_error := fun _ => Some "[Errno 30] Read-only file system" |}.

(** A repository whose file list is blank. *)
Definition nothing_changed : world :=
  repo [(name_only_cmd "main", Runs 1 0 (nl +:+ "  " +:+ nl) EmptyString)].

(** No [git] on the path. *)
Definition no_git : world :=
  {| git := fun _ _ => CannotStart NotFound; mcp_root := Some "/work"; getcwd := "/repo" |}.

(** What the test suite's mock does: every [subprocess.run] raises
    [Exception("Git not found")]. *)
Definition mock_raises : world :=
  {| git := fun _ _ => CannotStart (Failed "Exception" "Git not found");
     mcp_root := None; getcwd := "/repo" |}.

(** The queries that are run without [check=True]. *)
Definition unchecked (base : string) (cmd : list string) : Prop :=
  cmd = stat_cmd base \/ cmd = diff_cmd base \/ cmd = log_cmd base.

(** Two behaviours that differ at most in the exit status and in what
    is written to the error stream. *)
Definition same_run (b b' : behaviour) : Prop :=
  match b, b' with
  | Runs rt _ out _, Runs rt' _ out' _ => rt = rt' /\ out = out'
  | CannotStart e, CannotStart e' => e = e'
  | _, _ => False
  end.

(** Two worlds that differ at most in the exit status and the error
    stream of the unchecked queries. *)
Definition same_but_unchecked_status (base : string) (w w' : world) : Prop :=
  (forall cmd dir, unchecked base cmd -> same_run (git w cmd dir) (git w' cmd dir))
  /\ (forall cmd dir, ~ unchecked base cmd -> git w' cmd dir = git w cmd dir)
  /\ mcp_root w' = mcp_root w
  /\ getcwd w' = getcwd w.

(** The repository of [repo []] where the statistics, the diff and the
    commit list all exit with status 1 and a complaint. *)
Definition grumbling : world :=
  let complain := Runs 1 1 ("M" +:+ String (ascii_of_nat 9) ("file.py" +:+ nl))
                    "warning: something is off" in
  repo [(stat_cmd "main", complain); (diff_cmd "main", complain);
        (log_cmd "main", complain)].

End More.

Import More.

(** ** webhook_server.py: a delivery as it arrives *)

Module Raw.

(** What [data.get(key, {})] finds under a key whose value is then asked
    with [.get]: nothing, a JSON object, or another JSON value (null, a
    string, a number, a list), which has no [get]. *)
Inductive member (A : Type) : Type :=
| Absent
| AnObject (a : A)
| NoObject.
Arguments Absent {A}.
Arguments AnObject {A} a.
Arguments NoObject {A}.

Record payload : Type := {
  p_action : option string;
  p_workflow_run : option run;
  p_check_run : option json;
  p_repository : member repository_info;
  p_sender : member sender_info
}.

Inductive body : Type :=
| InvalidJson
| ReadError
| NotAnObject
| Object (data : payload).

Record request : Type := {
  json_body : body;
  x_github_event : option string
}.

(** [data.get(key, {}).get(...)] of lines 29 and 30 goes through, with
    the object found if any, or raises [AttributeError]. *)
Definition get_object {A : Type} (m : member A) : option (option A) :=
  match m with
  | Absent => Some None
  | AnObject a => Some (Some a)
  | NoObject => None
  end.

Definition read_payload (data : payload) : option Webhook.payload :=
  repository ← get_object (p_repository data);
  sender ← get_object (p_sender data);
  Some (Webhook.Build_payload (p_action data) (p_workflow_run data) (p_check_run data)
          repository sender).

(** Lines 14-73: an [AttributeError] of lines 29 and 30 is caught by
    the last handler, before the events file is read. *)
Definition handle_webhook (now : string) (req : request) (d : disk) (files : fs)
  : response * fs :=
  let internal_error := {| http_status := 500; status_field := "error";
                           message_field := Some "Internal server error" |} in
  match json_body req with
  | InvalidJson =>
      Webhook.handle_webhook now
        (Webhook.Build_request Webhook.InvalidJson (x_github_event req)) d files
  | ReadError =>
      Webhook.handle_webhook now
        (Webhook.Build_request Webhook.ReadError (x_github_event req)) d files
  | NotAnObject =>
      Webhook.handle_webhook now
        (Webhook.Build_request Webhook.NotAnObject (x_github_event req)) d files
  | Object data =>
      match read_payload data with
      | Some data' =>
          Webhook.handle_webhook now
            (Webhook.Build_request (Webhook.Object data') (x_github_event req)) d files
      | None => (internal_error, files)
      end
  end.

End Raw.

(* ===================================================================== *)
(** * Part II: theorems *)
(* ===================================================================== *)

(** ** Slices *)

Lemma slice_from_zero {A : Type} (l : list A) : slice_from 0 l = l.
Proof.
  unfold slice_from. simpl.
  replace (Z.to_nat (Z.min 0 (Z.of_nat (length l)))) with 0%nat by lia.
  reflexivity.
Qed.

Lemma slice_from_pos {A : Type} (n : nat) (l : list A) :
  slice_from (Z.of_nat n) l = drop n l.
Proof.
  unfold slice_from.
  destruct (Z.ltb_spec (Z.of_nat n) 0) as [Hneg | _]; [lia |].
  destruct (Nat.le_gt_cases n (length l)) as [Hle | Hgt].
  - f_equal. lia.
  - rewrite !drop_ge by lia. reflexivity.
Qed.

(** A negative start [-k] keeps the last [k] elements. *)
Lemma slice_from_neg {A : Type} (k : nat) (l : list A) :
  (0 < k)%nat -> slice_from (- Z.of_nat k) l = drop (length l - k) l.
Proof.
  intros Hk. unfold slice_from.
  destruct (Z.ltb_spec (- Z.of_nat k) 0) as [_ | Hge]; [| lia].
  f_equal. lia.
Qed.

Lemma slice_from_neg_length {A : Type} (k : nat) (l : list A) :
  (0 < k)%nat -> length (slice_from (- Z.of_nat k) l) = Nat.min k (length l).
Proof.
  intros Hk. rewrite slice_from_neg by exact Hk. rewrite length_drop. lia.
Qed.

(** Keeping the last [k] after each append is keeping the last [k] of
    everything appended. *)
Lemma last_after_append {A : Type} (k : nat) (l : list A) (x : A) :
  (0 < k)%nat ->
  slice_from (- Z.of_nat k) (slice_from (- Z.of_nat k) l ++ [x])
  = slice_from (- Z.of_nat k) (l ++ [x]).
Proof.
  intros Hk. rewrite !slice_from_neg by exact Hk.
  rewrite !length_app, length_drop. simpl.
  destruct (Nat.le_gt_cases (length l) k) as [Hle | Hgt].
  - replace (length l - k)%nat with 0%nat by lia. simpl.
    f_equal. lia.
  - rewrite (drop_app_le l [x] (length l + 1 - k)) by lia.
    rewrite drop_app_le by (rewrite length_drop; lia).
    rewrite drop_drop. do 2 f_equal. lia.
Qed.

(** ** The event log *)

Lemma exec_save_ops (events : list event) (files : fs) :
  exec_all (save_ops events) files !! EVENTS_FILE = Some (Stored events).
Proof.
  unfold exec_all, save_ops. simpl. apply lookup_insert_eq.
Qed.

Lemma read_existing_append (ev : event) (files : fs) :
  read_existing (append ev files) = add_event ev (read_existing files).
Proof.
  unfold append. unfold read_existing at 1. rewrite exec_save_ops. reflexivity.
Qed.

Lemma append_all_snoc (evs : list event) (ev : event) (files : fs) :
  append_all (evs ++ [ev]) files = append ev (append_all evs files).
Proof. unfold append_all. rewrite fold_left_app. reflexivity. Qed.

(** After at least one append the log is the last 100 of what the file
    held before followed by what was appended. *)
Lemma read_existing_append_all (evs : list event) (files : fs) :
  evs <> [] ->
  read_existing (append_all evs files)
  = slice_from (-100) (read_existing files ++ evs).
Proof.
  induction evs as [| ev evs IH] using rev_ind; [congruence |].
  intros _. rewrite append_all_snoc, read_existing_append. unfold add_event.
  destruct evs as [| e0 evs'].
  - reflexivity.
  - rewrite IH by discriminate.
    change (-100) with (- Z.of_nat 100).
    rewrite last_after_append by lia. rewrite <- app_assoc. reflexivity.
Qed.

Lemma append_all_stored (evs : list event) (files : fs) :
  evs <> [] ->
  append_all evs files !! EVENTS_FILE
  = Some (Stored (slice_from (-100) (read_existing files ++ evs))).
Proof.
  intros Hne. rewrite <- read_existing_append_all by exact Hne.
  destruct evs as [| ev evs] using rev_ind; [congruence |].
  rewrite append_all_snoc. unfold append at 1. rewrite exec_save_ops.
  rewrite read_existing_append. reflexivity.
Qed.

(** A delivery that the disk accepts is an append of the event built from
    the request. *)
Lemma handle_webhook_appends (now : string) (req : request) (data : payload) (files : fs) :
  json_body req = Object data ->
  handle_webhook now req WriteOk files
  = ({| http_status := 200; status_field := "success"; message_field := None |},
     append (make_event now req data) files).
Proof. intros Hbody. unfold handle_webhook. rewrite Hbody. reflexivity. Qed.

(** Handling requests is appending the events of those that carry a
    JSON object; the others leave the file alone. *)
Lemma deliveries_append_all (arrivals : list (string * request)) (files : fs) :
  deliveries arrivals files = append_all (omap event_of arrivals) files.
Proof.
  revert files. induction arrivals as [| [now req] arrivals IH]; intros files.
  - reflexivity.
  - unfold deliveries in *. simpl fold_left. rewrite IH. clear IH.
    unfold event_of at 2, handle_webhook. simpl.
    destruct (json_body req); reflexivity.
Qed.

(** C1. Starting without a log file and appending [evs] one after the
    other, the log holds the appended events oldest first and never more
    than 100 of them: all of them when there are at most 100, the last 100
    otherwise. A read that asks for at least 100 events returns just that
    log, whatever was appended before the last 100 has left no trace, and
    the same holds of the requests the receiver handles. *)
Theorem C1_event_log_keeps_last_100 (evs : list event) (files : fs) :
  files !! EVENTS_FILE = None ->
  let log := read_existing (append_all evs files) in
  log = drop (length evs - 100) evs
  /\ (length log <= 100)%nat
  /\ ((length evs <= 100)%nat -> log = evs)
  /\ ((100 < length evs)%nat -> length log = 100%nat)
  /\ (forall limit : Z, 100 <= limit ->
        get_recent_actions_events limit (append_all evs files) = Return log)
  /\ (forall earlier : list event, (100 <= length evs)%nat ->
        read_existing (append_all (earlier ++ evs) files) = log)
  /\ (forall arrivals, omap event_of arrivals = evs ->
        read_existing (deliveries arrivals files) = log).
Proof.
  intros Hfresh log.
  cut (log = drop (length evs - 100) evs
       /\ (length log <= 100)%nat
       /\ ((length evs <= 100)%nat -> log = evs)
       /\ ((100 < length evs)%nat -> length log = 100%nat)
       /\ (forall limit : Z, 100 <= limit ->
             get_recent_actions_events limit (append_all evs files) = Return log)
       /\ (forall earlier : list event, (100 <= length evs)%nat ->
             read_existing (append_all (earlier ++ evs) files) = log)).
  { intros (H1 & H2 & H3 & H4 & H5 & H6). repeat (split; [assumption |]).
    intros arrivals <-. rewrite deliveries_append_all. reflexivity. }
  assert (Hold : read_existing files = []).
  { unfold read_existing. rewrite Hfresh. reflexivity. }
  assert (Hlog : log = drop (length evs - 100) evs).
  { subst log. destruct evs as [| e evs'].
    - simpl. exact Hold.
    - rewrite read_existing_append_all by discriminate.
      rewrite Hold. simpl app.
      change (-100) with (- Z.of_nat 100). apply slice_from_neg. lia. }
  split; [exact Hlog |].
  assert (Hlen : (length log <= 100)%nat).
  { rewrite Hlog, length_drop. lia. }
  split; [exact Hlen |].
  split.
  { intros Hle. rewrite Hlog.
    replace (length evs - 100)%nat with 0%nat by lia. reflexivity. }
  split.
  { intros Hgt. rewrite Hlog, length_drop. lia. }
  split.
  - intros limit Hlimit. unfold get_recent_actions_events.
    destruct evs as [| e evs'].
    + simpl in *. rewrite Hfresh. subst log. simpl. rewrite Hold. reflexivity.
    + rewrite append_all_stored by discriminate.
      f_equal. subst log. rewrite read_existing_append_all by discriminate.
      set (stored := slice_from (-100) (read_existing files ++ e :: evs')).
      assert (Hs : (length stored <= 100)%nat).
      { subst stored. change (-100) with (- Z.of_nat 100).
        rewrite slice_from_neg_length by lia. lia. }
      unfold slice_from.
      destruct (Z.ltb_spec (- limit) 0) as [_ | Hge]; [| lia].
      replace (Z.to_nat (Z.max (- limit + Z.of_nat (length stored)) 0)) with 0%nat by lia.
      reflexivity.
  - intros earlier Hge. subst log.
    destruct evs as [| e evs']; [simpl in Hge; lia |].
    rewrite !read_existing_append_all by (try discriminate; destruct earlier; discriminate).
    rewrite Hold. simpl app at 1 3.
    change (-100) with (- Z.of_nat 100).
    rewrite !slice_from_neg by lia.
    rewrite length_app.
    rewrite drop_app_ge by lia. f_equal. lia.
Qed.

Lemma C1_event_log_keeps_last_100_witness :
  (∅ : fs) !! EVENTS_FILE = None
  /\ read_existing (append_all (map numbered (seq 0 102)) ∅) = map numbered (seq 2 100)
  /\ get_recent_actions_events 100 (append_all (map numbered (seq 0 102)) ∅)
     = Return (map numbered (seq 2 100)).
Proof.
  assert (Hfresh : (∅ : fs) !! EVENTS_FILE = None) by apply lookup_empty.
  destruct (C1_event_log_keeps_last_100 (map numbered (seq 0 102)) ∅ Hfresh)
    as (Hlog & _ & _ & _ & Hread & _ & _).
  split; [exact Hfresh |]. split.
  - rewrite Hlog. reflexivity.
  - rewrite (Hread 100) by lia. rewrite Hlog. reflexivity.
Defined.

(** C10. With a log of at least one event, a limit of 0 returns every
    event, and a negative limit [-n] returns all but the first [n]. *)
Theorem C10_limit_zero_returns_all (events : list event) (files : fs) :
  files !! EVENTS_FILE = Some (Stored events) ->
  (1 <= length events)%nat ->
  get_recent_actions_events 0 files = Return events
  /\ events <> []
  /\ (forall n : nat,
        get_recent_actions_events (- Z.of_nat n) files = Return (drop n events)).
Proof.
  intros Hlog Hk. unfold get_recent_actions_events. rewrite Hlog.
  split; [| split].
  - simpl. rewrite slice_from_zero. reflexivity.
  - destruct events; [simpl in Hk; lia | discriminate].
  - intros n. rewrite Z.opp_involutive, slice_from_pos. reflexivity.
Qed.

Lemma C10_limit_zero_returns_all_witness :
  let files : fs := {[ EVENTS_FILE := Stored [first_event; second_event] ]} in
  files !! EVENTS_FILE = Some (Stored [first_event; second_event])
  /\ (1 <= length [first_event; second_event])%nat
  /\ get_recent_actions_events 0 files = Return [first_event; second_event]
  /\ get_recent_actions_events (-1) files = Return [second_event].
Proof.
  intros files.
  assert (Hlog : files !! EVENTS_FILE = Some (Stored [first_event; second_event]))
    by apply lookup_singleton_eq.
  assert (Hk : (1 <= length [first_event; second_event])%nat) by (simpl; lia).
  destruct (C10_limit_zero_returns_all [first_event; second_event] files Hlog Hk)
    as (Hzero & _ & Hneg).
  split; [exact Hlog |]. split; [exact Hk |]. split; [exact Hzero |].
  exact (Hneg 1%nat).
Defined.

(** The sibling reader in the receiver takes a file that does not parse
    for an empty log. *)
Lemma read_existing_unparsable (files : fs) :
  files !! EVENTS_FILE = Some Unparsable -> read_existing files = [].
Proof. intros H. unfold read_existing. rewrite H. reflexivity. Qed.

Lemma tools_raise_on_unparsable (limit : Z) (workflow_name : option string) (files : fs) :
  files !! EVENTS_FILE = Some Unparsable ->
  get_recent_actions_events limit files = Raise JSONDecodeError
  /\ get_workflow_status workflow_name files = Raise JSONDecodeError.
Proof.
  intros H. unfold get_recent_actions_events, get_workflow_status. rewrite H.
  split; reflexivity.
Qed.

(** C4. With an events file that does not parse (here the one a failed
    save leaves behind), both event tools raise [JSONDecodeError] where
    the receiver's own read of the same file carries on with an empty
    log. *)
Theorem C4_unparsable_log_escapes_the_tools :
  let files := (handle_webhook "2024-01-02T00:00:01" delivery WriteFails ∅).2 in
  files !! EVENTS_FILE = Some Unparsable
  /\ get_recent_actions_events 3 files = Raise JSONDecodeError
  /\ get_workflow_status None files = Raise JSONDecodeError
  /\ read_existing files = [].
Proof.
  set (files := (handle_webhook _ _ _ _).2). simpl.
  assert (H : files !! EVENTS_FILE = Some Unparsable).
  { subst files. unfold handle_webhook. simpl. apply lookup_insert_eq. }
  split; [exact H |].
  destruct (tools_raise_on_unparsable 3 None files H) as [H1 H2].
  split; [exact H1 |]. split; [exact H2 |].
  apply read_existing_unparsable, H.
Qed.

(** ** Saving in place *)

Lemma visible_save_ops (events : list event) (files : fs) :
  visible (save_ops events) files
  = [files; <[EVENTS_FILE := Unparsable]> files;
     <[EVENTS_FILE := Stored events]> (<[EVENTS_FILE := Unparsable]> files)].
Proof. reflexivity. Qed.

(** C2, as the code has it. An append rewrites the events file in place:
    every operation of the save is on the events file itself and none is
    a rename. Another process finds the file as it was before, cut to
    nothing, or with the new log; the first state is the old one and the
    last the new one. *)
Theorem C2_append_rewrites_in_place (ev : event) (files seen : fs) :
  let ops := save_ops (add_event ev (read_existing files)) in
  seen ∈ visible ops files ->
  (seen !! EVENTS_FILE = files !! EVENTS_FILE
   \/ seen !! EVENTS_FILE = Some Unparsable
   \/ seen !! EVENTS_FILE = Some (Stored (add_event ev (read_existing files))))
  /\ Forall in_place ops
  /\ head (visible ops files) = Some files
  /\ last (visible ops files) = Some (append ev files).
Proof.
  intros ops Hseen. subst ops. rewrite visible_save_ops in *.
  split; [| split; [| split]].
  - apply elem_of_cons in Hseen as [-> | Hseen]; [left; reflexivity |].
    apply elem_of_cons in Hseen as [-> | Hseen].
    { right; left. apply lookup_insert_eq. }
    apply elem_of_cons in Hseen as [-> | Hseen].
    { right; right. apply lookup_insert_eq. }
    apply elem_of_nil in Hseen. contradiction.
  - unfold save_ops. repeat constructor.
  - reflexivity.
  - reflexivity.
Qed.

Lemma C2_append_rewrites_in_place_witness :
  let files : fs := {[ EVENTS_FILE := Stored [first_event] ]} in
  let ops := save_ops (add_event second_event (read_existing files)) in
  let seen : fs := <[EVENTS_FILE := Unparsable]> files in
  seen ∈ visible ops files
  /\ Forall in_place ops
  /\ last (visible ops files) = Some (append second_event files).
Proof.
  intros files ops seen.
  assert (Hseen : seen ∈ visible ops files).
  { subst ops. rewrite visible_save_ops.
    apply elem_of_cons. right. apply elem_of_cons. left. reflexivity. }
  destruct (C2_append_rewrites_in_place second_event files seen Hseen)
    as (_ & Hplace & _ & Hlast).
  split; [exact Hseen |]. split; [exact Hplace | exact Hlast].
Defined.

(** C2 as stated fails: while the second event is being saved over a log
    that holds the first, the events file can be found cut to nothing,
    which is neither the old log nor the new one and which the tool
    cannot read; and the save opens the events file itself for writing. *)
Lemma C2_counterexample :
  let files : fs := {[ EVENTS_FILE := Stored [first_event] ]} in
  let ops := save_ops (add_event second_event (read_existing files)) in
  let torn : fs := exec (OpenW EVENTS_FILE) files in
  torn ∈ visible ops files
  /\ torn !! EVENTS_FILE <> files !! EVENTS_FILE
  /\ torn !! EVENTS_FILE <> append second_event files !! EVENTS_FILE
  /\ get_recent_actions_events 3 torn = Raise JSONDecodeError
  /\ OpenW EVENTS_FILE ∈ ops
  /\ ~ (exists src, Rename src EVENTS_FILE ∈ ops).
Proof.
  intros files ops torn.
  assert (Htorn : torn !! EVENTS_FILE = Some Unparsable).
  { subst torn. simpl. apply lookup_insert_eq. }
  split; [| split; [| split; [| split; [| split]]]].
  - subst ops. rewrite visible_save_ops.
    apply elem_of_cons. right. apply elem_of_cons. left. reflexivity.
  - rewrite Htorn. subst files. rewrite lookup_singleton_eq. discriminate.
  - rewrite Htorn. unfold append. rewrite exec_save_ops. discriminate.
  - unfold get_recent_actions_events. rewrite Htorn. reflexivity.
  - subst ops. unfold save_ops. apply elem_of_cons. left. reflexivity.
  - intros [src Hin]. subst ops. unfold save_ops in Hin.
    apply elem_of_cons in Hin as [Heq | Hin]; [discriminate |].
    apply elem_of_cons in Hin as [Heq | Hin]; [discriminate |].
    apply elem_of_nil in Hin. exact Hin.
Qed.

(** The save the specification describes would keep the claim: with a
    temporary file of another name, the events file is only ever found
    as it was or with the new log. *)
Lemma spec_atomic_replace_never_torn (tmp : string) (events : list event) (files seen : fs) :
  tmp <> EVENTS_FILE ->
  seen ∈ visible (spec_atomic_replace_ops tmp events) files ->
  seen !! EVENTS_FILE = files !! EVENTS_FILE
  \/ seen !! EVENTS_FILE = Some (Stored events).
Proof.
  intros Hne Hseen. unfold spec_atomic_replace_ops in Hseen. simpl in Hseen.
  rewrite lookup_insert_eq in Hseen.
  apply elem_of_cons in Hseen as [-> | Hseen]; [left; reflexivity |].
  apply elem_of_cons in Hseen as [-> | Hseen].
  { left. apply lookup_insert_ne. exact Hne. }
  apply elem_of_cons in Hseen as [-> | Hseen].
  { left. rewrite lookup_insert_ne by exact Hne. apply lookup_insert_ne. exact Hne. }
  apply elem_of_cons in Hseen as [-> | Hseen].
  { right. apply lookup_insert_eq. }
  apply elem_of_nil in Hseen. contradiction.
Qed.

(** ** Workflow status: the latest run wins *)

Lemma str_gt_irrefl (a : string) : str_gt a a = false.
Proof.
  unfold str_gt. pose proof (String.compare_antisym a a) as H.
  destruct (String.compare a a); simpl in H; try discriminate; reflexivity.
Qed.

Lemma str_gt_connected (a b : string) :
  str_gt a b = false -> a <> b -> str_gt b a = true.
Proof.
  unfold str_gt. intros Hgt Hne.
  rewrite (String.compare_antisym b a).
  destruct (String.compare a b) eqn:Hc; simpl.
  - apply String.compare_eq_iff in Hc. contradiction.
  - reflexivity.
  - discriminate.
Qed.

Section DictFacts.
Context {V : Type}.
Implicit Types (d : list (string * V)) (k : string) (v : V).

Lemma dict_get_set_eq k v d : dict_get k (dict_set k v d) = Some v.
Proof.
  induction d as [| [k' v'] d IH]; simpl.
  - rewrite String.eqb_refl. reflexivity.
  - destruct (String.eqb_spec k k') as [-> | Hne]; simpl.
    + rewrite String.eqb_refl. reflexivity.
    + apply String.eqb_neq in Hne. rewrite Hne. exact IH.
Qed.

Lemma dict_get_set_ne k k' v d : k <> k' -> dict_get k' (dict_set k v d) = dict_get k' d.
Proof.
  intros Hne. induction d as [| [k0 v0] d IH]; simpl.
  - destruct (String.eqb_spec k' k) as [-> | _]; [contradiction | reflexivity].
  - destruct (String.eqb_spec k k0) as [-> | Hk]; simpl.
    + destruct (String.eqb_spec k' k0) as [-> | _]; [contradiction | reflexivity].
    + rewrite IH. reflexivity.
Qed.
End DictFacts.

Lemma dict_get_record_run (n : string) (d : list (string * workflow_status)) (r : run) :
  dict_get n (record_run d r)
  = if decide (name r = n) then keep_latest (dict_get n d) r else dict_get n d.
Proof.
  unfold record_run, keep_latest. destruct (decide (name r = n)) as [<- | Hne].
  - destruct (dict_get (name r) d) as [c |] eqn:Hget.
    + destruct (str_gt (updated_at r) (ws_updated_at c)).
      * apply dict_get_set_eq.
      * exact Hget.
    + apply dict_get_set_eq.
  - destruct (dict_get (name r) d) as [c |].
    + destruct (str_gt (updated_at r) (ws_updated_at c)).
      * apply dict_get_set_ne, Hne.
      * reflexivity.
    + apply dict_get_set_ne, Hne.
Qed.

(** The entry of a name is decided by the runs of that name alone, in
    the order they come. *)
Lemma dict_get_fold_record_run (n : string) (rs : list run)
    (d : list (string * workflow_status)) :
  dict_get n (fold_left record_run rs d)
  = fold_left keep_latest (filter (fun r => name r = n) rs) (dict_get n d).
Proof.
  revert d. induction rs as [| r rs IH]; intros d; simpl.
  - reflexivity.
  - rewrite IH, dict_get_record_run, filter_cons.
    destruct (decide (name r = n)); reflexivity.
Qed.

Lemma well_keyed_set (k : string) (v : workflow_status)
    (d : list (string * workflow_status)) :
  ws_name v = k -> well_keyed d -> well_keyed (dict_set k v d).
Proof.
  intros Hv. induction d as [| [k' v'] d IH]; simpl.
  - intros _. repeat split. exact Hv.
  - intros (Hk' & Hfresh & Hd).
    destruct (String.eqb_spec k k') as [-> | Hne]; simpl.
    + repeat split; assumption.
    + split; [exact Hk' |]. split; [| apply IH, Hd].
      rewrite dict_get_set_ne by exact Hne. exact Hfresh.
Qed.

Lemma well_keyed_record_run (d : list (string * workflow_status)) (r : run) :
  well_keyed d -> well_keyed (record_run d r).
Proof.
  intros Hd. unfold record_run.
  destruct (dict_get (name r) d) as [c |].
  - destruct (str_gt (updated_at r) (ws_updated_at c)); [| exact Hd].
    apply well_keyed_set; [reflexivity | exact Hd].
  - apply well_keyed_set; [reflexivity | exact Hd].
Qed.

Lemma well_keyed_reduce (rs : list run) : well_keyed (reduce rs).
Proof.
  unfold reduce. assert (H : well_keyed []) by exact I.
  revert H. generalize (@nil (string * workflow_status)).
  induction rs as [| r rs IH]; intros d Hd; simpl; [exact Hd |].
  apply IH, well_keyed_record_run, Hd.
Qed.

(** The values of a well keyed dict hold exactly one record of a name
    that has an entry, and none of a name that has not. *)
Lemma well_keyed_values (n : string) (d : list (string * workflow_status)) :
  well_keyed d ->
  filter (fun s => ws_name s = n) (dict_values d)
  = match dict_get n d with Some v => [v] | None => [] end.
Proof.
  induction d as [| [k v] d IH]; simpl; [reflexivity |].
  intros (Hk & Hfresh & Hd). specialize (IH Hd).
  unfold dict_values in *. simpl. rewrite filter_cons.
  destruct (String.eqb_spec n k) as [-> | Hne].
  - destruct (decide (ws_name v = k)) as [_ | Hbad]; [| contradiction].
    rewrite IH, Hfresh. reflexivity.
  - destruct (decide (ws_name v = n)) as [Heq | _]; [congruence |].
    exact IH.
Qed.

(** Once the entry holds the run with the greatest [updated_at], no run
    of the list displaces it. *)
Lemma keep_latest_settled (rs : list run) (r : run) :
  (forall r', r' ∈ rs -> str_gt (updated_at r') (updated_at r) = false) ->
  fold_left keep_latest rs (Some (status_of_run r)) = Some (status_of_run r).
Proof.
  induction rs as [| r0 rs IH]; intros Hle; simpl; [reflexivity |].
  rewrite (Hle r0) by (apply elem_of_cons; left; reflexivity).
  apply IH. intros r' Hin. apply Hle, elem_of_cons. right. exact Hin.
Qed.

Lemma keep_latest_greatest (rs : list run) (r : run) (current : option workflow_status) :
  (forall r', r' ∈ rs ->
     str_gt (updated_at r') (updated_at r) = false
     /\ (updated_at r' = updated_at r -> status_of_run r' = status_of_run r)) ->
  r ∈ rs ->
  (current = None
   \/ exists c, current = Some c /\ str_gt (updated_at r) (ws_updated_at c) = true) ->
  fold_left keep_latest rs current = Some (status_of_run r).
Proof.
  revert current. induction rs as [| r0 rs IH]; intros current Hmax Hin Hcur.
  - apply elem_of_nil in Hin. contradiction.
  - simpl.
    assert (Hrest : forall r', r' ∈ rs ->
              str_gt (updated_at r') (updated_at r) = false
              /\ (updated_at r' = updated_at r -> status_of_run r' = status_of_run r)).
    { intros r' Hr'. apply Hmax, elem_of_cons. right. exact Hr'. }
    destruct (Hmax r0) as [Hle Htie]; [apply elem_of_cons; left; reflexivity |].
    destruct (decide (updated_at r0 = updated_at r)) as [Heq | Hne].
    + assert (Hstep : keep_latest current r0 = Some (status_of_run r)).
      { rewrite <- (Htie Heq). unfold keep_latest.
        destruct Hcur as [-> | (c & -> & Hgt)]; [reflexivity |].
        rewrite Heq, Hgt. reflexivity. }
      rewrite Hstep. apply keep_latest_settled.
      intros r' Hr'. apply Hrest, Hr'.
    + apply IH; [exact Hrest | |].
      * apply elem_of_cons in Hin as [-> | Hin]; [contradiction | exact Hin].
      * right. pose proof (str_gt_connected _ _ Hle Hne) as Hgt.
        unfold keep_latest.
        destruct Hcur as [-> | (c & -> & Hc)].
        { eexists. split; [reflexivity | exact Hgt]. }
        destruct (str_gt (updated_at r0) (ws_updated_at c)).
        { eexists. split; [reflexivity | exact Hgt]. }
        { eexists. split; [reflexivity | exact Hc]. }
Qed.

Lemma workflow_events_named (workflow_name : option string) (events : list event) (n : string) :
  workflow_name = None \/ workflow_name = Some EmptyString \/ workflow_name = Some n ->
  filter (fun r => name r = n) (workflow_events workflow_name events)
  = filter (fun r => name r = n) (omap workflow_run events).
Proof.
  intros [-> | [-> | ->]]; unfold workflow_events; try reflexivity.
  destruct (truthy n); [| reflexivity].
  induction (omap workflow_run events) as [| r rs IH]; [reflexivity |].
  rewrite !filter_cons. destruct (decide (name r = n)) as [Hn | Hn].
  - rewrite filter_cons. destruct (decide (name r = n)); [| contradiction].
    rewrite IH. reflexivity.
  - exact IH.
Qed.

(** Take a run [r] of the log whose [updated_at] no run of the same
    name exceeds (runs that share it carrying the same six fields). Then
    for the log in any order, and with no filter or the filter on that
    name, [get_workflow_status] returns exactly one record of that name,
    and it holds the six fields of [r]. *)
Lemma latest_wins_when_unique (events appended : list event)
    (workflow_name : option string) (e : event) (r : run) (files : fs) :
  e ∈ events ->
  workflow_run e = Some r ->
  (workflow_name = None \/ workflow_name = Some EmptyString
   \/ workflow_name = Some (name r)) ->
  (forall e' r', e' ∈ events -> workflow_run e' = Some r' -> name r' = name r ->
     str_gt (updated_at r') (updated_at r) = false
     /\ (updated_at r' = updated_at r -> status_of_run r' = status_of_run r)) ->
  appended ≡ₚ events ->
  files !! EVENTS_FILE = Some (Stored appended) ->
  exists workflows,
    get_workflow_status workflow_name files = Return (Statuses workflows)
    /\ filter (fun s => ws_name s = name r) workflows = [status_of_run r].
Proof.
  intros He Hrun Hname Hmax Hperm Hfile.
  assert (He' : e ∈ appended) by (rewrite Hperm; exact He).
  unfold get_workflow_status. rewrite Hfile.
  destruct appended as [| e0 rest] eqn:Happ; [apply elem_of_nil in He'; contradiction |].
  rewrite <- Happ in *. clear Happ e0 rest.
  eexists. split; [reflexivity |].
  rewrite well_keyed_values by apply well_keyed_reduce.
  unfold reduce. rewrite dict_get_fold_record_run. simpl dict_get.
  rewrite workflow_events_named by exact Hname.
  rewrite (keep_latest_greatest _ r None); [reflexivity | | | left; reflexivity].
  - intros r' Hr'. apply list_elem_of_filter in Hr' as [Hn Hr'].
    apply list_elem_of_omap in Hr' as (e' & He'' & Hrun').
    apply (Hmax e' r'); [rewrite <- Hperm; exact He'' | exact Hrun' | exact Hn].
  - apply list_elem_of_filter. split; [reflexivity |].
    apply list_elem_of_omap. exists e. split; assumption.
Qed.

(** *** Whatever the ties, the record returned is one of the latest *)

Lemma compare_lt_trans (x y z : string) :
  String.compare x y = Lt -> String.compare y z = Lt -> String.compare x z = Lt.
Proof.
  revert y z. induction x as [| a x IH]; intros [| b y] [| c z]; simpl;
    try discriminate; try reflexivity.
  unfold Ascii.compare.
  destruct (N.compare_spec (N_of_ascii a) (N_of_ascii b));
    destruct (N.compare_spec (N_of_ascii b) (N_of_ascii c));
    destruct (N.compare_spec (N_of_ascii a) (N_of_ascii c));
    try discriminate; try reflexivity; try lia.
  apply IH.
Qed.

Lemma str_gt_asym (a b : string) : str_gt a b = true -> str_gt b a = false.
Proof.
  unfold str_gt. rewrite (String.compare_antisym b a).
  destruct (String.compare a b); simpl; intros H; try discriminate; reflexivity.
Qed.

(** "Not greater" is transitive. *)
Lemma str_le_trans (a b c : string) :
  str_gt a b = false -> str_gt b c = false -> str_gt a c = false.
Proof.
  unfold str_gt. intros Hab Hbc.
  destruct (String.compare a b) eqn:Eab; try discriminate.
  - apply String.compare_eq_iff in Eab. subst b. exact Hbc.
  - destruct (String.compare b c) eqn:Ebc; try discriminate.
    + apply String.compare_eq_iff in Ebc. subst c. rewrite Eab. reflexivity.
    + rewrite (compare_lt_trans a b c Eab Ebc). reflexivity.
Qed.

Lemma keep_latest_from (rs : list run) (m : run) :
  exists r,
    r ∈ m :: rs
    /\ fold_left keep_latest rs (Some (status_of_run m)) = Some (status_of_run r)
    /\ forall r', r' ∈ m :: rs -> str_gt (updated_at r') (updated_at r) = false.
Proof.
  revert m. induction rs as [| r0 rs IH]; intros m.
  - exists m. split; [apply elem_of_cons; left; reflexivity |].
    split; [reflexivity |].
    intros r' [-> | Hr']%elem_of_cons; [apply str_gt_irrefl |].
    apply elem_of_nil in Hr'. contradiction.
  - simpl. destruct (str_gt (updated_at r0) (updated_at m)) eqn:Hgt.
    + destruct (IH r0) as (r & Hin & Hfold & Hmax).
      exists r. split; [apply elem_of_cons; right; exact Hin |].
      split; [exact Hfold |].
      intros r' [-> | Hr']%elem_of_cons; [| apply Hmax, Hr'].
      apply (str_le_trans _ (updated_at r0)).
      * apply str_gt_asym, Hgt.
      * apply Hmax, elem_of_cons. left. reflexivity.
    + destruct (IH m) as (r & Hin & Hfold & Hmax).
      exists r. split.
      { apply elem_of_cons in Hin as [-> | Hin].
        - apply elem_of_cons. left. reflexivity.
        - do 2 (apply elem_of_cons; right). exact Hin. }
      split; [exact Hfold |].
      intros r' [-> | [-> | Hr']%elem_of_cons]%elem_of_cons.
      * apply Hmax, elem_of_cons. left. reflexivity.
      * apply (str_le_trans _ (updated_at m)); [exact Hgt |].
        apply Hmax, elem_of_cons. left. reflexivity.
      * apply Hmax, elem_of_cons. right. exact Hr'.
Qed.

(** The loop keeps the first of the runs that carry the greatest
    [updated_at]: every run before the one kept is strictly older, no
    run after it is newer. *)
Lemma keep_latest_split (before mid rs : list run) (c : run) :
  (forall r', r' ∈ before -> str_gt (updated_at c) (updated_at r') = true) ->
  (forall r', r' ∈ mid -> str_gt (updated_at r') (updated_at c) = false) ->
  exists earlier r later,
    before ++ c :: mid ++ rs = earlier ++ r :: later
    /\ fold_left keep_latest rs (Some (status_of_run c)) = Some (status_of_run r)
    /\ (forall r', r' ∈ earlier -> str_gt (updated_at r) (updated_at r') = true)
    /\ (forall r', r' ∈ later -> str_gt (updated_at r') (updated_at r) = false).
Proof.
  revert before mid c. induction rs as [| r0 rs IH]; intros before mid c Hbefore Hmid.
  - exists before, c, mid. rewrite app_nil_r. repeat split; assumption.
  - simpl. destruct (str_gt (updated_at r0) (updated_at c)) eqn:Hgt.
    + assert (Hup : forall x, str_gt (updated_at x) (updated_at c) = false ->
                      str_gt (updated_at r0) (updated_at x) = true).
      { intros x Hx. destruct (str_gt (updated_at r0) (updated_at x)) eqn:Hrx;
          [reflexivity |].
        rewrite (str_le_trans _ _ _ Hrx Hx) in Hgt. discriminate. }
      destruct (IH (before ++ c :: mid) [] r0) as (earlier & r & later & Heq & Hfold & He & Hl).
      * intros r' [Hr' | [-> | Hr']%elem_of_cons]%elem_of_app.
        -- apply Hup, str_gt_asym, Hbefore, Hr'.
        -- exact Hgt.
        -- apply Hup, Hmid, Hr'.
      * intros r' Hr'. apply elem_of_nil in Hr'. contradiction.
      * exists earlier, r, later. split; [| repeat split; assumption].
        rewrite <- Heq. rewrite <- !app_assoc. reflexivity.
    + destruct (IH before (mid ++ [r0]) c) as (earlier & r & later & Heq & Hfold & He & Hl).
      * exact Hbefore.
      * intros r' [Hr' | ->%list_elem_of_singleton]%elem_of_app;
          [apply Hmid, Hr' | exact Hgt].
      * exists earlier, r, later. split; [| repeat split; assumption].
        rewrite <- Heq. rewrite <- !app_assoc. reflexivity.
Qed.

(** C3, as the code has it. For every name that has a run in the log,
    [get_workflow_status] (unfiltered, or filtered on that name) returns
    exactly one record of that name. Its six fields are those of a run
    of that name whose [updated_at] no run of the name exceeds under
    string comparison, and among the runs that carry this greatest
    [updated_at] it is the one appended first. When the runs that carry
    it agree in the six fields, as they do when there is only one, the
    record is the same for the log in any order. *)
Theorem C3_latest_updated_at_wins (appended : list event)
    (workflow_name : option string) (n : string) (files : fs) :
  files !! EVENTS_FILE = Some (Stored appended) ->
  (workflow_name = None \/ workflow_name = Some EmptyString \/ workflow_name = Some n) ->
  (exists e r, e ∈ appended /\ workflow_run e = Some r /\ name r = n) ->
  exists workflows r earlier later,
    get_workflow_status workflow_name files = Return (Statuses workflows)
    /\ filter (fun s => ws_name s = n) workflows
       = [{| ws_name := name r; ws_status := status r; ws_conclusion := conclusion r;
             ws_run_number := run_number r; ws_updated_at := updated_at r;
             ws_html_url := html_url r |}]
    /\ filter (fun r' => name r' = n) (omap workflow_run appended) = earlier ++ r :: later
    /\ (forall r', r' ∈ earlier -> str_gt (updated_at r) (updated_at r') = true)
    /\ (forall r', r' ∈ later -> str_gt (updated_at r') (updated_at r) = false)
    /\ latest_of n appended r
    /\ (forall g, latest_of n appended g -> updated_at g = updated_at r)
    /\ (forall reordered files',
          reordered ≡ₚ appended ->
          files' !! EVENTS_FILE = Some (Stored reordered) ->
          (forall g, latest_of n appended g -> g = r) ->
          exists workflows',
            get_workflow_status workflow_name files' = Return (Statuses workflows')
            /\ filter (fun s => ws_name s = n) workflows'
               = [{| ws_name := name r; ws_status := status r;
                     ws_conclusion := conclusion r; ws_run_number := run_number r;
                     ws_updated_at := updated_at r; ws_html_url := html_url r |}]).
Proof.
  intros Hfile Hname (e & r0 & He & Hrun & Hn).
  assert (Hr0 : r0 ∈ filter (fun r => name r = n) (omap workflow_run appended)).
  { apply list_elem_of_filter. split; [exact Hn |].
    apply list_elem_of_omap. exists e. split; assumption. }
  destruct (filter (fun r => name r = n) (omap workflow_run appended))
    as [| m rs] eqn:Hruns; [apply elem_of_nil in Hr0; contradiction |].
  destruct (keep_latest_split [] [] rs m) as (earlier & r & later & Heq & Hfold & Hearlier & Hlater).
  { intros r' Hr'. apply elem_of_nil in Hr'. contradiction. }
  { intros r' Hr'. apply elem_of_nil in Hr'. contradiction. }
  simpl in Heq.
  assert (Hr : r ∈ filter (fun r => name r = n) (omap workflow_run appended)).
  { rewrite Hruns, Heq. apply elem_of_app. right. left. }
  apply list_elem_of_filter in Hr as [Hrn Hr].
  assert (Hlatest : latest_of n appended r).
  { split; [exact Hr |]. split; [exact Hrn |].
    intros r' Hr' Hn'.
    assert (Hin : r' ∈ earlier ++ r :: later).
    { rewrite <- Heq, <- Hruns. apply list_elem_of_filter. split; assumption. }
    apply elem_of_app in Hin as [Hin | [-> | Hin]%elem_of_cons].
    - apply str_gt_asym, Hearlier, Hin.
    - apply str_gt_irrefl.
    - apply Hlater, Hin. }
  assert (Hnonempty : appended <> []).
  { intros ->. apply elem_of_nil in He. contradiction. }
  exists (dict_values (reduce (workflow_events workflow_name appended))), r, earlier, later.
  split.
  { unfold get_workflow_status. rewrite Hfile.
    destruct appended; [congruence | reflexivity]. }
  split.
  { rewrite well_keyed_values by apply well_keyed_reduce.
    unfold reduce. rewrite dict_get_fold_record_run. simpl dict_get.
    rewrite workflow_events_named by exact Hname.
    rewrite Hruns. simpl. rewrite Hfold. reflexivity. }
  split; [rewrite <- Heq; reflexivity |].
  split; [exact Hearlier |]. split; [exact Hlater |]. split; [exact Hlatest |].
  split.
  - intros g (Hg & Hgn & Hgmax). destruct Hlatest as (Hr' & _ & Hrmax).
    destruct (decide (updated_at g = updated_at r)) as [Hsame | Hne]; [exact Hsame |].
    pose proof (Hrmax g Hg Hgn) as Hle.
    pose proof (str_gt_connected _ _ Hle Hne) as Hgt.
    rewrite (Hgmax r Hr' Hrn) in Hgt. discriminate.
  - intros reordered files' Hperm Hfile' Hunique.
    apply list_elem_of_omap in Hr as (er & Her & Hrunr).
    destruct (latest_wins_when_unique appended reordered workflow_name er r files' Her Hrunr)
      as (ws & Hget' & Hone).
    + rewrite Hrn. exact Hname.
    + intros e' r' He' Hrun' Hn'.
      assert (Hr' : r' ∈ omap workflow_run appended).
      { apply list_elem_of_omap. exists e'. split; assumption. }
      destruct Hlatest as (Hr & _ & Hrmax).
      split; [apply Hrmax; [exact Hr' | congruence] |].
      intros Hsame. f_equal. apply Hunique.
      split; [exact Hr' |]. split; [congruence |].
      intros r'' Hr'' Hn''. rewrite Hsame. apply Hrmax; assumption.
    + exact Hperm.
    + exact Hfile'.
    + exists ws. split; [exact Hget' |]. rewrite <- Hrn. exact Hone.
Qed.

Lemma C3_latest_updated_at_wins_witness :
  let second := {| ws_name := "build"; ws_status := "completed"; ws_conclusion := None;
                   ws_run_number := 2; ws_updated_at := "2024-01-02T00:00:00Z";
                   ws_html_url := "https://github.com/o/r/actions/runs/1" |} in
  (exists workflows,
     get_workflow_status None {[ EVENTS_FILE := Stored [first_event; second_event] ]}
       = Return (Statuses workflows)
     /\ filter (fun s => ws_name s = "build") workflows = [second])
  /\ (exists workflows,
        get_workflow_status None {[ EVENTS_FILE := Stored [second_event; first_event] ]}
          = Return (Statuses workflows)
        /\ filter (fun s => ws_name s = "build") workflows = [second]).
Proof.
  intros second.
  assert (Hpresent : exists e r, e ∈ [first_event; second_event]
                       /\ workflow_run e = Some r /\ name r = "build").
  { exists first_event, first_run. split; [| split; reflexivity].
    apply elem_of_cons. left. reflexivity. }
  assert (Hsecond : forall r, latest_of "build" [first_event; second_event] r ->
                      r = second_run).
  { intros r (Hr & _ & Hmax). simpl in Hr.
    apply elem_of_cons in Hr as [-> | Hr].
    - assert (Hin : second_run ∈ omap workflow_run [first_event; second_event]).
      { simpl. apply elem_of_cons. right. apply elem_of_cons. left. reflexivity. }
      specialize (Hmax second_run Hin eq_refl). discriminate.
    - apply elem_of_cons in Hr as [-> | Hr]; [reflexivity |].
      apply elem_of_nil in Hr. contradiction. }
  destruct (C3_latest_updated_at_wins [first_event; second_event] None "build"
              {[ EVENTS_FILE := Stored [first_event; second_event] ]})
    as (workflows & r & earlier & later & Hget & Hone & _ & _ & _ & Hlatest & _ & Horder);
    [apply lookup_singleton_eq | left; reflexivity | exact Hpresent |].
  pose proof (Hsecond r Hlatest) as ->.
  split; [exists workflows; split; [exact Hget | exact Hone] |].
  apply (Horder [second_event; first_event]
           {[ EVENTS_FILE := Stored [second_event; first_event] ]}).
  - apply Permutation_swap.
  - apply lookup_singleton_eq.
  - intros g Hg. apply Hsecond, Hg.
Defined.

(** C3 as stated fails: two runs of one name carry the same, greatest
    [updated_at], and which one's status is returned depends on the
    order in which their events were appended. *)
Lemma C3_counterexample :
  let queued := build_run 7 "queued" "2024-01-03T00:00:00Z" in
  let done := build_run 7 "completed" "2024-01-03T00:00:00Z" in
  let e1 := run_event "2024-01-03T00:00:01" queued in
  let e2 := run_event "2024-01-03T00:00:02" done in
  name queued = name done
  /\ updated_at queued = updated_at done
  /\ [e2; e1] ≡ₚ [e1; e2]
  /\ (exists s, get_workflow_status None {[ EVENTS_FILE := Stored [e1; e2] ]}
                = Return (Statuses [s]) /\ ws_status s = "queued")
  /\ (exists s, get_workflow_status None {[ EVENTS_FILE := Stored [e2; e1] ]}
                = Return (Statuses [s]) /\ ws_status s = "completed").
Proof.
  intros queued done e1 e2.
  split; [reflexivity |]. split; [reflexivity |]. split; [apply Permutation_swap |].
  split; eexists; split; reflexivity.
Qed.

(** Two runs of one name with the same [updated_at]: the one appended
    first is the one reported, in either order. *)
Example tie_keeps_the_first :
  let queued := build_run 7 "queued" "2024-01-03T00:00:00Z" in
  let done := build_run 7 "completed" "2024-01-03T00:00:00Z" in
  dict_values (reduce [queued; done]) = [status_of_run queued]
  /\ dict_values (reduce [done; queued]) = [status_of_run done].
Proof. split; reflexivity. Qed.

(** ** Change analysis: running git *)

Lemma subprocess_run_shape (w : world) (cmd : list string) (chk : bool) (dir : string)
    (limit : option Z) (log : list call) :
  exists r, subprocess_run w cmd chk dir limit log
            = (r, log ++ [{| args := cmd; cwd := dir; check := chk; timeout := limit |}]).
Proof.
  unfold subprocess_run. destruct (git w cmd dir) as [e | rt rc out err].
  - eexists. reflexivity.
  - destruct limit as [t |].
    + destruct (t <? rt); [eexists; reflexivity |].
      destruct (chk && negb (rc =? 0)); eexists; reflexivity.
    + destruct (chk && negb (rc =? 0)); eexists; reflexivity.
Qed.

Lemma subprocess_run_exceeds (w : world) (cmd : list string) (chk : bool) (dir : string)
    (t : Z) (log : list call) :
  exceeds w cmd dir t = true ->
  subprocess_run w cmd chk dir (Some t) log
  = (Raise (TimeoutExpired cmd t),
     log ++ [{| args := cmd; cwd := dir; check := chk; timeout := Some t |}]).
Proof.
  unfold exceeds, subprocess_run. destruct (git w cmd dir) as [e | rt rc out err].
  - discriminate.
  - intros ->. reflexivity.
Qed.

Lemma subprocess_run_succeeds (w : world) (cmd : list string) (chk : bool) (dir : string)
    (limit : option Z) (log : list call) :
  succeeds w cmd dir limit = true ->
  subprocess_run w cmd chk dir limit log
  = (Return {| returncode := 0; stdout := output_of w cmd dir;
               stderr := match git w cmd dir with
                         | Runs _ _ _ err => err
                         | CannotStart _ => EmptyString
                         end |},
     log ++ [{| args := cmd; cwd := dir; check := chk; timeout := limit |}]).
Proof.
  unfold succeeds, subprocess_run, output_of.
  destruct (git w cmd dir) as [e | rt rc out err]; [discriminate |].
  destruct limit as [t |].
  - intros [Ht Hrc]%andb_prop. apply negb_true_iff in Ht. rewrite Ht.
    apply Z.eqb_eq in Hrc. subst rc. rewrite andb_false_r. reflexivity.
  - intros Hrc. apply Z.eqb_eq in Hrc. subst rc. rewrite andb_false_r. reflexivity.
Qed.

(** A command run without [check=True] returns once it is done within
    the limit, and only then. *)
Lemma subprocess_run_finishes (w : world) (cmd : list string) (dir : string) (t : Z)
    (log : list call) :
  finishes w cmd dir t = true ->
  exists c, subprocess_run w cmd false dir (Some t) log
            = (Return c, log ++ [{| args := cmd; cwd := dir; check := false;
                                    timeout := Some t |}]).
Proof.
  unfold finishes, subprocess_run.
  destruct (git w cmd dir) as [e | rt rc out err]; [discriminate |].
  intros Ht. apply negb_true_iff in Ht. rewrite Ht. simpl. eexists. reflexivity.
Qed.

Lemma subprocess_run_returns (w : world) (cmd : list string) (chk : bool) (dir : string)
    (t : Z) (log : list call) (c : completed) (log' : list call) :
  subprocess_run w cmd chk dir (Some t) log = (Return c, log') ->
  finishes w cmd dir t = true.
Proof.
  unfold finishes, subprocess_run.
  destruct (git w cmd dir) as [e | rt rc out err]; [discriminate |].
  destruct (t <? rt); [discriminate | reflexivity].
Qed.

Lemma subprocess_run_exits_nonzero (w : world) (cmd : list string) (dir : string)
    (t : Z) (log : list call) :
  exits_nonzero w cmd dir t = true ->
  exists e, subprocess_run w cmd true dir (Some t) log
            = (Raise e, log ++ [{| args := cmd; cwd := dir; check := true;
                                   timeout := Some t |}]).
Proof.
  unfold exits_nonzero, subprocess_run.
  destruct (git w cmd dir) as [e | rt rc out err]; [discriminate |].
  intros [Ht Hrc]%andb_prop. apply negb_true_iff in Ht. rewrite Ht, Hrc.
  eexists. reflexivity.
Qed.

Lemma name_only_not_diff (base : string) : name_only_cmd base <> diff_cmd base.
Proof. unfold name_only_cmd, diff_cmd. intros H. inversion H. Qed.

Lemma name_only_not_stat (base : string) : name_only_cmd base <> stat_cmd base.
Proof. unfold name_only_cmd, stat_cmd. intros H. inversion H. Qed.

Lemma name_status_not_diff (base : string) (changed : list string) :
  name_status_cmd base changed <> diff_cmd base.
Proof. unfold name_status_cmd, diff_cmd. simpl. intros H. inversion H. Qed.

Lemma name_status_not_stat (base : string) (changed : list string) :
  name_status_cmd base changed <> stat_cmd base.
Proof. unfold name_status_cmd, stat_cmd. simpl. intros H. inversion H. Qed.

Lemma stat_not_diff (base : string) : stat_cmd base <> diff_cmd base.
Proof. unfold stat_cmd, diff_cmd. intros H. inversion H. Qed.

Lemma log_not_diff (base : string) : log_cmd base <> diff_cmd base.
Proof. unfold log_cmd, diff_cmd. intros H. inversion H. Qed.

Ltac step_run :=
  match goal with
  | |- context [subprocess_run ?w ?cmd ?chk ?dir ?limit ?log] =>
      let r := fresh "r" in
      let H := fresh "Hrun" in
      destruct (subprocess_run_shape w cmd chk dir limit log) as [r H];
      rewrite H; clear H; destruct r; simpl
  end.

(** The file listing never raises: whatever goes wrong inside is caught. *)
Lemma list_changed_files_returns (w : world) (base dir : string) (t : Z) (log : list call) :
  exists out calls,
    list_changed_files w base dir t log = (Return out, log ++ calls)
    /\ Forall (listing_call base t) calls.
Proof.
  assert (H1 : listing_call base t
                 {| args := name_only_cmd base; cwd := dir; check := true;
                    timeout := Some t |}).
  { split; [reflexivity |]. split; [apply name_only_not_diff | apply name_only_not_stat]. }
  assert (H2 : forall changed, listing_call base t
                 {| args := name_status_cmd base changed; cwd := dir; check := true;
                    timeout := Some t |}).
  { intros changed. split; [reflexivity |].
    split; [apply name_status_not_diff | apply name_status_not_stat]. }
  unfold list_changed_files, catch, bind. step_run.
  - destruct (changed_files_of (stdout a)) as [| f fs'] eqn:Hchanged.
    + unfold ret. simpl. do 2 eexists. split; [reflexivity |]. repeat constructor; apply H1.
    + step_run; unfold ret; simpl; rewrite <- app_assoc;
        (do 2 eexists; split; [reflexivity |]); repeat constructor; try apply H1; apply H2.
  - unfold ret. do 2 eexists. split; [reflexivity |]. repeat constructor; apply H1.
Qed.

(** A listing query that goes [bad], where going bad makes
    [subprocess.run] raise, leaves the empty listing. *)
Lemma list_changed_files_caught (bad : world -> list string -> string -> Z -> bool)
    (w : world) (base dir : string) (t : Z) (log : list call) :
  (forall cmd log', bad w cmd dir t = true ->
     exists e, subprocess_run w cmd true dir (Some t) log'
               = (Raise e, log' ++ [{| args := cmd; cwd := dir; check := true;
                                       timeout := Some t |}])) ->
  listing_hits bad w base dir t = true ->
  exists calls, list_changed_files w base dir t log = (Return EmptyString, log ++ calls).
Proof.
  intros Hbad Hhits. unfold listing_hits in Hhits.
  apply orb_prop in Hhits as [Hfirst | Hsecond].
  - destruct (Hbad _ log Hfirst) as [e He].
    unfold list_changed_files, catch, bind. rewrite He. unfold ret. eexists. reflexivity.
  - apply andb_prop in Hsecond as [Hok Hsecond].
    unfold list_changed_files, catch, bind.
    rewrite (subprocess_run_succeeds _ _ _ _ _ _ Hok). cbn [stdout].
    destruct (changed_files_of (output_of w (name_only_cmd base) dir)) as [| f fs'].
    + unfold ret. eexists. reflexivity.
    + destruct (Hbad _ (log ++ [{| args := name_only_cmd base; cwd := dir; check := true;
                                   timeout := Some t |}]) Hsecond) as [e' He'].
      rewrite He'. unfold ret. rewrite <- app_assoc. eexists. reflexivity.
Qed.

Lemma exceeds_raises (w : world) (dir : string) (t : Z) (cmd : list string)
    (log : list call) :
  exceeds w cmd dir t = true ->
  exists e, subprocess_run w cmd true dir (Some t) log
            = (Raise e, log ++ [{| args := cmd; cwd := dir; check := true;
                                   timeout := Some t |}]).
Proof. intros H. eexists. apply subprocess_run_exceeds, H. Qed.

Lemma exits_nonzero_raises (w : world) (dir : string) (t : Z) (cmd : list string)
    (log : list call) :
  exits_nonzero w cmd dir t = true ->
  exists e, subprocess_run w cmd true dir (Some t) log
            = (Raise e, log ++ [{| args := cmd; cwd := dir; check := true;
                                   timeout := Some t |}]).
Proof. apply subprocess_run_exits_nonzero. Qed.

(** ** Change analysis: the whole operation *)

Section Analyze.
Variables (w : world) (base : string) (include_diff : bool) (max_diff_lines : Z).
Variables (working_directory : option string) (command_timeout : Z).

Let dir : string := or_getcwd w (resolve_directory w working_directory).
Let out : report * list call :=
  analyze_file_changes w base include_diff max_diff_lines working_directory
    command_timeout.

(** Every call carries the time limit, the commit list apart, and the
    full diff is only asked for on request. *)
Lemma analyze_calls_issued : Forall (issued base command_timeout include_diff) out.2.
Proof.
  assert (Hl : forall calls, Forall (listing_call base command_timeout) calls ->
               Forall (issued base command_timeout include_diff) calls).
  { intros calls Hcalls. eapply Forall_impl; [exact Hcalls |].
    intros c (Ht & Hd & _).
    right. split; [exact Ht | intros Heq; contradiction]. }
  assert (Hstat : issued base command_timeout include_diff
                    {| args := stat_cmd base; cwd := dir; check := false;
                       timeout := Some command_timeout |}).
  { right. split; [reflexivity |]. simpl. intros Heq.
    exfalso. exact (stat_not_diff base Heq). }
  assert (Hlog : issued base command_timeout include_diff
                   {| args := log_cmd base; cwd := dir; check := false;
                      timeout := None |}).
  { left. reflexivity. }
  subst out. unfold analyze_file_changes, analyze, bind. fold dir.
  destruct (list_changed_files_returns w base dir command_timeout [])
    as (files & calls & Hfiles & Hcalls).
  rewrite Hfiles. simpl app. apply Hl in Hcalls.
  step_run; [| apply Forall_app; split; [exact Hcalls | apply Forall_singleton, Hstat]].
  destruct include_diff eqn:Hinc.
  - assert (Hdiff : issued base command_timeout true
                      {| args := diff_cmd base; cwd := dir; check := false;
                         timeout := Some command_timeout |}).
    { right. split; [reflexivity | reflexivity]. }
    step_run; [step_run |]; unfold ret; simpl;
      rewrite !Forall_app, !Forall_singleton; repeat split; assumption.
  - unfold ret. step_run; unfold ret; simpl;
      rewrite !Forall_app, !Forall_singleton; repeat split; assumption.
Qed.

(** When every query after the listing succeeds, the operation
    returns the analysis built from what the queries print. *)
Lemma analyze_rest_succeeds :
  rest_succeeds w base dir include_diff command_timeout = true ->
  exists files calls,
    list_changed_files w base dir command_timeout [] = (Return files, calls)
    /\ out.1 = Analysis
         {| base_branch := base;
            files_changed := files;
            statistics := output_of w (stat_cmd base) dir;
            commits := output_of w (log_cmd base) dir;
            diff := if include_diff
                    then (cut_diff max_diff_lines (output_of w (diff_cmd base) dir)).1.1
                    else NOT_INCLUDED;
            truncated := if include_diff
                         then (cut_diff max_diff_lines
                                 (output_of w (diff_cmd base) dir)).1.2
                         else false;
            total_diff_lines := if include_diff
                                then (cut_diff max_diff_lines
                                        (output_of w (diff_cmd base) dir)).2
                                else 0 |}.
Proof.
  unfold rest_succeeds. intros [[Hstat Hdiff]%andb_prop Hlog]%andb_prop.
  destruct (list_changed_files_returns w base dir command_timeout [])
    as (files & calls & Hfiles & _).
  exists files, calls. split; [exact Hfiles |].
  subst out. unfold analyze_file_changes, analyze, bind. fold dir.
  rewrite Hfiles. rewrite (subprocess_run_succeeds _ _ _ _ _ _ Hstat).
  destruct include_diff.
  - rewrite (subprocess_run_succeeds _ _ _ _ _ _ Hdiff). unfold ret.
    rewrite (subprocess_run_succeeds _ _ _ _ _ _ Hlog). reflexivity.
  - unfold ret. rewrite (subprocess_run_succeeds _ _ _ _ _ _ Hlog). reflexivity.
Qed.

Lemma analyze_stat_exceeds :
  exceeds w (stat_cmd base) dir command_timeout = true ->
  out.1 = Failure (timeout_failure command_timeout).
Proof.
  intros Hex. subst out. unfold analyze_file_changes, analyze, bind. fold dir.
  destruct (list_changed_files_returns w base dir command_timeout [])
    as (files & calls & Hfiles & _).
  rewrite Hfiles, (subprocess_run_exceeds _ _ _ _ _ _ Hex). reflexivity.
Qed.

Lemma analyze_diff_exceeds :
  finishes w (stat_cmd base) dir command_timeout = true ->
  include_diff = true ->
  exceeds w (diff_cmd base) dir command_timeout = true ->
  out.1 = Failure (timeout_failure command_timeout).
Proof.
  intros Hstat Hinc Hex. subst out. unfold analyze_file_changes, analyze, bind. fold dir.
  destruct (list_changed_files_returns w base dir command_timeout [])
    as (files & calls & Hfiles & _).
  destruct (subprocess_run_finishes w (stat_cmd base) dir command_timeout ([] ++ calls)
              Hstat) as [st Hrun].
  rewrite Hfiles, Hrun, Hinc.
  rewrite (subprocess_run_exceeds _ _ _ _ _ _ Hex). reflexivity.
Qed.

(** The full diff is asked for only on request, and only after the
    statistics came back within the limit. *)
Lemma analyze_diff_issued (c : call) :
  c ∈ out.2 ->
  args c = diff_cmd base ->
  include_diff = true /\ finishes w (stat_cmd base) dir command_timeout = true.
Proof.
  intros Hc Hargs. subst out. revert Hc.
  unfold analyze_file_changes, analyze, bind. fold dir.
  destruct (list_changed_files_returns w base dir command_timeout [])
    as (files & calls & Hfiles & Hcalls).
  rewrite Hfiles. simpl app.
  assert (Hlisting : c ∈ calls -> False).
  { intros Hin. rewrite Forall_forall in Hcalls.
    destruct (Hcalls c Hin) as (_ & Hne & _). contradiction. }
  assert (Hstat : c = {| args := stat_cmd base; cwd := dir; check := false;
                         timeout := Some command_timeout |} -> False).
  { intros ->. exact (stat_not_diff base Hargs). }
  assert (Hlog : c = {| args := log_cmd base; cwd := dir; check := false;
                        timeout := None |} -> False).
  { intros ->. exact (log_not_diff base Hargs). }
  destruct (subprocess_run_shape w (stat_cmd base) false dir (Some command_timeout) calls)
    as [r Hrun].
  pose proof (subprocess_run_returns w (stat_cmd base) false dir command_timeout calls)
    as Hret.
  rewrite Hrun in *. destruct r as [st | e]; simpl.
  - specialize (Hret st _ eq_refl).
    destruct include_diff; [intros _; split; [reflexivity | exact Hret] |].
    unfold ret. step_run; rewrite !elem_of_app, !list_elem_of_singleton;
      intros Hin; exfalso; tauto.
  - rewrite !elem_of_app, !list_elem_of_singleton. intros Hin. exfalso. tauto.
Qed.

(** What the listing step returns is what the analysis reports as
    [files_changed]. *)
Lemma analyze_files_changed (files : string) (calls : list call) (a : analysis) :
  list_changed_files w base dir command_timeout [] = (Return files, calls) ->
  out.1 = Analysis a ->
  files_changed a = files.
Proof.
  intros Hfiles. subst out. unfold analyze_file_changes, analyze, bind. fold dir.
  rewrite Hfiles. step_run; [| discriminate].
  destruct include_diff.
  - step_run; [| discriminate]. unfold ret. step_run; [| discriminate].
    intros [= <-]. reflexivity.
  - unfold ret. step_run; [| discriminate]. intros [= <-]. reflexivity.
Qed.

(** The statistics are asked for whatever the listing did. *)
Lemma analyze_asks_statistics : exists c, c ∈ out.2 /\ args c = stat_cmd base.
Proof.
  exists {| args := stat_cmd base; cwd := dir; check := false;
            timeout := Some command_timeout |}.
  split; [| reflexivity].
  subst out. unfold analyze_file_changes, analyze, bind. fold dir.
  destruct (list_changed_files_returns w base dir command_timeout [])
    as (files & calls & Hfiles & _).
  rewrite Hfiles. simpl app.
  step_run; [| apply elem_of_app; right; apply elem_of_cons; left; reflexivity].
  destruct include_diff.
  - step_run; [step_run |]; unfold ret; simpl;
      rewrite !elem_of_app; rewrite !elem_of_cons; tauto.
  - unfold ret. step_run; unfold ret; simpl;
      rewrite !elem_of_app; rewrite !elem_of_cons; tauto.
Qed.

End Analyze.

(** C5, as the code has it. The queries for the file list, the per-file
    status, the statistics and the full diff are each run with
    [command_timeout] as their time limit. A statistics query that
    exceeds it, and a full-diff query that is run and exceeds it, ends
    the operation with the timeout result, whose detail text carries the
    limit; the full diff is run when it was asked for and the statistics
    came back within the limit, whatever their exit status. A file-list
    or status query that exceeds the limit is caught inside the listing
    step: the listing is empty and the operation goes on. *)
Theorem C5_time_limits_and_timeouts (w : world) (base : string) (include_diff : bool)
    (max_diff_lines : Z) (working_directory : option string) (command_timeout : Z) :
  let dir := or_getcwd w (resolve_directory w working_directory) in
  let out := analyze_file_changes w base include_diff max_diff_lines working_directory
               command_timeout in
  (forall c, c ∈ out.2 -> args c <> log_cmd base -> timeout c = Some command_timeout)
  /\ details (timeout_failure command_timeout)
     = "Git command timed out after " +:+ str_of_int command_timeout
       +:+ " seconds. The repository might be too large or the diff too complex."
  /\ error (timeout_failure command_timeout) = "Git command timeout"
  /\ (exceeds w (stat_cmd base) dir command_timeout = true ->
      out.1 = Failure (timeout_failure command_timeout))
  /\ (finishes w (stat_cmd base) dir command_timeout = true ->
      include_diff = true ->
      exceeds w (diff_cmd base) dir command_timeout = true ->
      out.1 = Failure (timeout_failure command_timeout))
  /\ (forall c, c ∈ out.2 -> args c = diff_cmd base ->
      exceeds w (diff_cmd base) dir command_timeout = true ->
      out.1 = Failure (timeout_failure command_timeout))
  /\ (listing_hits exceeds w base dir command_timeout = true ->
      (forall a, out.1 = Analysis a -> files_changed a = EmptyString)
      /\ (rest_succeeds w base dir include_diff command_timeout = true ->
          is_analysis out.1)).
Proof.
  intros dir out. split; [| split; [| split; [| split; [| split; [| split]]]]].
  - intros c Hc Hnot.
    pose proof (analyze_calls_issued w base include_diff max_diff_lines
                  working_directory command_timeout) as Hall.
    rewrite Forall_forall in Hall. destruct (Hall c Hc) as [Hlog | [Ht _]].
    + contradiction.
    + exact Ht.
  - reflexivity.
  - reflexivity.
  - apply analyze_stat_exceeds.
  - apply analyze_diff_exceeds.
  - intros c Hc Hargs Hex.
    destruct (analyze_diff_issued w base include_diff max_diff_lines working_directory
                command_timeout c Hc Hargs) as [Hinc Hstat].
    exact (analyze_diff_exceeds w base include_diff max_diff_lines working_directory
             command_timeout Hstat Hinc Hex).
  - intros Hhits.
    destruct (list_changed_files_caught exceeds w base dir command_timeout []
                (exceeds_raises w dir command_timeout) Hhits) as [calls Hfiles].
    split.
    + intros a Ha. exact (analyze_files_changed _ _ _ _ _ _ _ _ _ Hfiles Ha).
    + intros Hrest.
      destruct (analyze_rest_succeeds w base include_diff max_diff_lines
                  working_directory command_timeout Hrest) as (f & cs & _ & Hout).
      subst out. rewrite Hout. exact I.
Qed.

Lemma C5_time_limits_and_timeouts_witness :
  exceeds slow_stat (stat_cmd "main") "/repo" 180 = true
  /\ (analyze_file_changes slow_stat "main" false 5000 None 180).1
     = Failure (timeout_failure 180)
  /\ succeeds slow_diff (stat_cmd "main") "/repo" (Some 180) = false
  /\ finishes slow_diff (stat_cmd "main") "/repo" 180 = true
  /\ exceeds slow_diff (diff_cmd "main") "/repo" 180 = true
  /\ (analyze_file_changes slow_diff "main" true 5000 None 180).1
     = Failure (timeout_failure 180).
Proof.
  split; [reflexivity |].
  destruct (C5_time_limits_and_timeouts slow_stat "main" false 5000 None 180)
    as (_ & _ & _ & Hstat & _).
  split; [apply Hstat; reflexivity |].
  split; [reflexivity |]. split; [reflexivity |]. split; [reflexivity |].
  destruct (C5_time_limits_and_timeouts slow_diff "main" true 5000 None 180)
    as (_ & _ & _ & _ & Hdiff & _).
  apply Hdiff; reflexivity.
Defined.

(** C5 as stated fails: the query for the file list runs past the limit
    of 180 seconds, yet the result is an analysis, not a timeout; and the
    commit list is asked for without any time limit. *)
Lemma C5_counterexample :
  let out := analyze_file_changes slow_listing "main" false 5000 None 180 in
  exceeds slow_listing (name_only_cmd "main") "/repo" 180 = true
  /\ ~ is_timeout_report out.1
  /\ is_analysis out.1
  /\ {| args := log_cmd "main"; cwd := "/repo"; check := false; timeout := None |} ∈ out.2.
Proof.
  vm_compute. split; [reflexivity |]. split; [tauto |]. split; [exact I |].
  do 2 (apply elem_of_cons; right). apply elem_of_cons. left. reflexivity.
Qed.

(** C6, as the code has it. When the query for the file list, or the one
    for the per-file status, exits with a status other than 0, the error
    is caught inside the listing step: the step yields the empty listing,
    the statistics are still asked for, and an analysis that is returned
    has an empty [files_changed]. *)
Theorem C6_listing_error_is_caught (w : world) (base : string) (include_diff : bool)
    (max_diff_lines : Z) (working_directory : option string) (command_timeout : Z) :
  let dir := or_getcwd w (resolve_directory w working_directory) in
  let out := analyze_file_changes w base include_diff max_diff_lines working_directory
               command_timeout in
  listing_hits exits_nonzero w base dir command_timeout = true ->
  (exists calls,
     list_changed_files w base dir command_timeout [] = (Return EmptyString, calls))
  /\ (exists c, c ∈ out.2 /\ args c = stat_cmd base)
  /\ (forall a, out.1 = Analysis a -> files_changed a = EmptyString)
  /\ (rest_succeeds w base dir include_diff command_timeout = true -> is_analysis out.1).
Proof.
  intros dir out Hhits.
  destruct (list_changed_files_caught exits_nonzero w base dir command_timeout []
              (exits_nonzero_raises w dir command_timeout) Hhits) as [calls Hfiles].
  split; [exists calls; exact Hfiles |].
  split; [apply analyze_asks_statistics |].
  split.
  - intros a Ha. exact (analyze_files_changed _ _ _ _ _ _ _ _ _ Hfiles Ha).
  - intros Hrest.
    destruct (analyze_rest_succeeds w base include_diff max_diff_lines
                working_directory command_timeout Hrest) as (f & cs & _ & Hout).
    subst out. rewrite Hout. exact I.
Qed.

Lemma C6_listing_error_is_caught_witness :
  listing_hits exits_nonzero listing_fails "main" "/repo" 180 = true
  /\ is_analysis (analyze_file_changes listing_fails "main" false 5000 None 180).1.
Proof.
  split; [reflexivity |].
  destruct (C6_listing_error_is_caught listing_fails "main" false 5000 None 180)
    as (_ & _ & _ & Hrest); [reflexivity |].
  apply Hrest. reflexivity.
Defined.

(** C6 as stated fails: the query for the file list exits with status
    128, and the operation returns an analysis with an empty file
    listing instead of a failure result. *)
Lemma C6_counterexample :
  let out := analyze_file_changes listing_fails "main" false 5000 None 180 in
  git listing_fails (name_only_cmd "main") "/repo"
    = Runs 1 128 EmptyString "fatal: bad revision"
  /\ out.1 = Analysis
       {| base_branch := "main";
          files_changed := EmptyString;
          statistics := output_of listing_fails (stat_cmd "main") "/repo";
          commits := output_of listing_fails (log_cmd "main") "/repo";
          diff := NOT_INCLUDED;
          truncated := false;
          total_diff_lines := 0 |}
  /\ ~ (exists f, out.1 = Failure f).
Proof.
  split; [reflexivity |]. split; [reflexivity |].
  intros [f Hf]. vm_compute in Hf. discriminate.
Qed.

(** The handler of [CalledProcessError] is never reached: no run of the
    operation returns its result. *)
Lemma analyze_never_reports_exit_status (w : world) (base : string) (include_diff : bool)
    (max_diff_lines : Z) (working_directory : option string) (command_timeout : Z)
    (f : failure) :
  (analyze_file_changes w base include_diff max_diff_lines working_directory
     command_timeout).1 = Failure f ->
  error f <> "Git command execution failed".
Proof.
  unfold analyze_file_changes, analyze, bind.
  set (dir := or_getcwd w (resolve_directory w working_directory)).
  destruct (list_changed_files_returns w base dir command_timeout [])
    as (files & calls & Hfiles & _).
  rewrite Hfiles.
  assert (Hrun : forall cmd limit log e log',
            subprocess_run w cmd false dir limit log = (Raise e, log') ->
            error (report_failure w base include_diff max_diff_lines
                     (resolve_directory w working_directory) e)
            <> "Git command execution failed").
  { intros cmd limit log e log'. unfold subprocess_run.
    destruct (git w cmd dir) as [se | rt rc so se].
    - intros [= <- _]. destruct se; simpl; discriminate.
    - destruct limit as [t |]; simpl.
      + destruct (t <? rt); [| discriminate]. intros [= <- _]. discriminate.
      + discriminate. }
  destruct (subprocess_run w (stat_cmd base) false dir (Some command_timeout) ([] ++ calls))
    as [[st | e] log1] eqn:H1.
  2:{ intros [= <-]. exact (Hrun _ _ _ _ _ H1). }
  destruct include_diff.
  - destruct (subprocess_run w (diff_cmd base) false dir (Some command_timeout) log1)
      as [[df | e] log2] eqn:H2.
    2:{ intros [= <-]. exact (Hrun _ _ _ _ _ H2). }
    unfold ret.
    destruct (subprocess_run w (log_cmd base) false dir None log2)
      as [[lg | e] log3] eqn:H3; [discriminate |].
    intros [= <-]. exact (Hrun _ _ _ _ _ H3).
  - unfold ret.
    destruct (subprocess_run w (log_cmd base) false dir None log1)
      as [[lg | e] log3] eqn:H3; [discriminate |].
    intros [= <-]. exact (Hrun _ _ _ _ _ H3).
Qed.

(** A base branch that does not exist makes every one of the queries
    exit with status 128; the operation still returns an analysis, all
    of whose texts are empty. *)
Example bad_revision_looks_like_success :
  (analyze_file_changes bad_revision "nope" false 5000 None 180).1
  = Analysis {| base_branch := "nope";
                files_changed := EmptyString;
                statistics := EmptyString;
                commits := EmptyString;
                diff := NOT_INCLUDED;
                truncated := false;
                total_diff_lines := 0 |}.
Proof. reflexivity. Qed.

(** ** Change analysis: cutting the diff *)

Lemma split_line (l rest : string) :
  one_line l = true -> split LF (l +:+ nl +:+ rest) = l :: split LF rest.
Proof.
  induction l as [| c l IH]; simpl.
  - intros _. reflexivity.
  - intros [Hc Hl]%andb_prop. apply negb_true_iff in Hc. rewrite Hc.
    rewrite (IH Hl). reflexivity.
Qed.

(** A text of [k] lines, each ended by a line feed, splits into [k + 1]
    pieces: the lines and an empty piece after the last line feed. *)
Lemma split_unlines (ls : list string) :
  Forall (fun l => one_line l = true) ls ->
  split LF (unlines ls) = ls ++ [EmptyString].
Proof.
  induction 1 as [| l ls Hl _ IH]; [reflexivity |].
  change (unlines (l :: ls)) with (l +:+ nl +:+ unlines ls).
  rewrite split_line by exact Hl. rewrite IH. reflexivity.
Qed.

(** Counted in pieces between line feeds, the cut is as the notice says. *)
Lemma cut_diff_pieces (max_diff_lines : Z) (text : string) :
  0 <= max_diff_lines ->
  let pieces := split LF text in
  let count := Z.of_nat (length pieces) in
  (max_diff_lines < count ->
   cut_diff max_diff_lines text
   = (join nl (take (Z.to_nat max_diff_lines) pieces) +:+ notice max_diff_lines count,
      true, count))
  /\ (count <= max_diff_lines -> cut_diff max_diff_lines text = (text, false, count)).
Proof.
  intros Hmax pieces count. unfold cut_diff. fold pieces. fold count. split.
  - intros Hlt. apply Z.ltb_lt in Hlt. rewrite Hlt. unfold slice_to.
    destruct (Z.ltb_spec max_diff_lines 0) as [Hneg | _]; [lia |].
    apply Z.ltb_lt in Hlt. fold count.
    replace (Z.min max_diff_lines count) with max_diff_lines by lia.
    reflexivity.
  - intros Hle. destruct (Z.ltb_spec max_diff_lines count) as [Hlt | _]; [lia |].
    reflexivity.
Qed.

(** A diff of [k] lines as git prints it is counted as [k + 1], and with
    [max_diff_lines = k] it is reported as truncated. *)
Lemma cut_diff_counts_last_line_feed (ls : list string) (max_diff_lines : Z) :
  Forall (fun l => one_line l = true) ls ->
  (cut_diff max_diff_lines (unlines ls)).2 = Z.of_nat (length ls) + 1
  /\ (max_diff_lines = Z.of_nat (length ls) ->
      (cut_diff max_diff_lines (unlines ls)).1.2 = true).
Proof.
  intros Hls. unfold cut_diff. rewrite (split_unlines ls Hls), length_app. simpl.
  split.
  - destruct (max_diff_lines <? _); simpl; lia.
  - intros ->. destruct (Z.ltb_spec (Z.of_nat (length ls)) (Z.of_nat (length ls + 1)));
      [reflexivity | lia].
Qed.

(** C7. A diff of seven lines, as git prints it, with
    [max_diff_lines = 7]: the operation reports it as truncated, counts
    eight lines and appends the notice, although the text has no more
    lines than the limit. *)
Theorem C7_seven_line_diff_is_truncated :
  let out := (analyze_file_changes seven_line_diff "main" true 7 None 180).1 in
  output_of seven_line_diff (diff_cmd "main") "/repo" = unlines small_diff
  /\ splitlines (unlines small_diff) = small_diff
  /\ length small_diff = 7%nat
  /\ exists a, out = Analysis a
       /\ truncated a = true
       /\ total_diff_lines a = 8
       /\ diff a = join nl small_diff +:+ notice 7 8.
Proof.
  split; [reflexivity |]. split; [reflexivity |]. split; [reflexivity |].
  eexists. split; [reflexivity |]. repeat split.
Qed.

(** ** Change analysis: without the diff *)

Lemma subprocess_run_same (base : string) (w w' : world) (cmd : list string) (chk : bool)
    (dir : string) (limit : option Z) (log : list call) :
  same_but_diff base w w' ->
  cmd <> diff_cmd base ->
  subprocess_run w' cmd chk dir limit log = subprocess_run w cmd chk dir limit log.
Proof.
  intros (Hgit & _ & _) Hcmd. unfold subprocess_run. rewrite (Hgit cmd dir Hcmd).
  reflexivity.
Qed.

Lemma list_changed_files_same (base : string) (w w' : world) (dir : string) (t : Z)
    (log : list call) :
  same_but_diff base w w' ->
  list_changed_files w' base dir t log = list_changed_files w base dir t log.
Proof.
  intros Hsame. unfold list_changed_files, catch, bind.
  rewrite (subprocess_run_same base w w') by (try exact Hsame; apply name_only_not_diff).
  destruct (subprocess_run w (name_only_cmd base) true dir (Some t) log)
    as [[files_result | e] log1]; [| reflexivity].
  destruct (changed_files_of (stdout files_result)) as [| f fs']; [reflexivity |].
  rewrite (subprocess_run_same base w w') by (try exact Hsame; apply name_status_not_diff).
  reflexivity.
Qed.

Lemma report_failure_same (base : string) (w w' : world) (include_diff : bool)
    (max_diff_lines : Z) (working_directory : option string) (e : exn) :
  getcwd w' = getcwd w ->
  report_failure w' base include_diff max_diff_lines working_directory e
  = report_failure w base include_diff max_diff_lines working_directory e.
Proof.
  intros Hcwd. destruct e; try reflexivity.
  unfold report_failure, or_getcwd. rewrite Hcwd. reflexivity.
Qed.

Lemma analyze_without_diff_same (base : string) (w w' : world) (max_diff_lines : Z)
    (working_directory : option string) (t : Z) :
  same_but_diff base w w' ->
  analyze_file_changes w' base false max_diff_lines working_directory t
  = analyze_file_changes w base false max_diff_lines working_directory t.
Proof.
  intros Hsame. pose proof Hsame as (_ & Hroot & Hcwd).
  assert (Hres : resolve_directory w' working_directory
                 = resolve_directory w working_directory).
  { unfold resolve_directory. rewrite Hroot. reflexivity. }
  assert (Hdir : or_getcwd w' (resolve_directory w' working_directory)
                 = or_getcwd w (resolve_directory w working_directory)).
  { rewrite Hres. unfold or_getcwd. rewrite Hcwd. reflexivity. }
  unfold analyze_file_changes, analyze, bind. rewrite Hdir, Hres.
  set (dir := or_getcwd w (resolve_directory w working_directory)).
  rewrite (list_changed_files_same base w w') by exact Hsame.
  destruct (list_changed_files w base dir t []) as [[files | e] log1];
    [| rewrite (report_failure_same base w w') by exact Hcwd; reflexivity].
  rewrite (subprocess_run_same base w w') by (try exact Hsame; apply stat_not_diff).
  destruct (subprocess_run w (stat_cmd base) false dir (Some t) log1)
    as [[st | e] log2];
    [| rewrite (report_failure_same base w w') by exact Hcwd; reflexivity].
  unfold ret.
  rewrite (subprocess_run_same base w w') by (try exact Hsame; apply log_not_diff).
  destruct (subprocess_run w (log_cmd base) false dir None log2) as [[lg | e] log3];
    [reflexivity | rewrite (report_failure_same base w w') by exact Hcwd; reflexivity].
Qed.

(** C8. Without [include_diff] the query for the full diff is not among
    the commands run, an analysis that is returned has the marker text as
    its diff and 0 as [total_diff_lines], the result is the same whatever
    the full diff would have been, and an analysis is returned whenever
    the statistics and commit list queries succeed. *)
Theorem C8_diff_not_included (w : world) (base : string) (max_diff_lines : Z)
    (working_directory : option string) (command_timeout : Z) :
  let dir := or_getcwd w (resolve_directory w working_directory) in
  let out := analyze_file_changes w base false max_diff_lines working_directory
               command_timeout in
  (forall c, c ∈ out.2 -> args c <> diff_cmd base)
  /\ (forall a, out.1 = Analysis a ->
        diff a = "Diff not included (set include_diff=true to see full diff)"
        /\ total_diff_lines a = 0)
  /\ (forall w', same_but_diff base w w' ->
        analyze_file_changes w' base false max_diff_lines working_directory
          command_timeout = out)
  /\ (rest_succeeds w base dir false command_timeout = true -> is_analysis out.1).
Proof.
  intros dir out. split; [| split; [| split]].
  - intros c Hc Heq.
    pose proof (analyze_calls_issued w base false max_diff_lines working_directory
                  command_timeout) as Hall.
    rewrite Forall_forall in Hall. destruct (Hall c Hc) as [Hlog | [_ Hdiff]].
    + rewrite Heq in Hlog. symmetry in Hlog. exact (log_not_diff base Hlog).
    + specialize (Hdiff Heq). discriminate.
  - intros a. subst out. unfold analyze_file_changes, analyze, bind. fold dir.
    destruct (list_changed_files_returns w base dir command_timeout [])
      as (files & calls & Hfiles & _).
    rewrite Hfiles. step_run; [| discriminate].
    unfold ret. step_run; [| discriminate].
    intros [= <-]. split; reflexivity.
  - intros w' Hsame. apply analyze_without_diff_same, Hsame.
  - intros Hrest.
    destruct (analyze_rest_succeeds w base false max_diff_lines working_directory
                command_timeout Hrest) as (f & cs & _ & Hout).
    subst out. rewrite Hout. exact I.
Qed.

Lemma C8_diff_not_included_witness :
  rest_succeeds seven_line_diff "main" "/repo" false 180 = true
  /\ is_analysis (analyze_file_changes seven_line_diff "main" false 5 None 180).1
  /\ (forall a, (analyze_file_changes seven_line_diff "main" false 5 None 180).1 = Analysis a ->
        diff a = NOT_INCLUDED /\ total_diff_lines a = 0).
Proof.
  destruct (C8_diff_not_included seven_line_diff "main" 5 None 180)
    as (_ & Hmarker & _ & Hrest).
  split; [reflexivity |]. split; [apply Hrest; reflexivity | exact Hmarker].
Defined.

(** ** Template selection *)

Lemma lower_ascii_idem (c : ascii) : lower_ascii (lower_ascii c) = lower_ascii c.
Proof. destruct c as [[] [] [] [] [] [] [] []]; reflexivity. Qed.

Lemma lower_idem (s : string) : lower (lower s) = lower s.
Proof.
  induction s as [| c s IH]; simpl; [reflexivity |].
  rewrite lower_ascii_idem, IH. reflexivity.
Qed.

Lemma resolve_found (template_file : string) (first : template) (templates : list template) :
  (exists t, t ∈ templates /\ filename t = template_file) ->
  resolve template_file first templates ∈ templates
  /\ filename (resolve template_file first templates) = template_file.
Proof.
  intros (t & Hin & Hname). unfold resolve.
  destruct (List.find _ templates) as [found |] eqn:Hfind; simpl.
  - apply List.find_some in Hfind as [Hfound Heq].
    split; [apply list_elem_of_In, Hfound | apply String.eqb_eq, Heq].
  - apply list_elem_of_In in Hin.
    pose proof (List.find_none _ _ Hfind t Hin) as Hno. simpl in Hno.
    rewrite Hname, String.eqb_refl in Hno. discriminate.
Qed.

Lemma resolve_missing (template_file : string) (first : template) (templates : list template) :
  (forall t, t ∈ templates -> filename t <> template_file) ->
  resolve template_file first templates = first.
Proof.
  intros Hnone. unfold resolve.
  destruct (List.find _ templates) as [found |] eqn:Hfind; simpl; [| reflexivity].
  apply List.find_some in Hfind as [Hfound Heq].
  apply String.eqb_eq in Heq. apply list_elem_of_In in Hfound.
  exfalso. exact (Hnone found Hfound Heq).
Qed.

(** C9. The label is lowercased before the lookup, so ["fix"] and
    ["bug"] select the same file; a label outside the mapping, ["chore"]
    for one, selects [feature.md]. Against a listing, the selected file
    resolves to the entry of that name when there is one and to the
    first entry otherwise. [suggest_template] answers with a suggestion
    built from that entry whenever the catalog lists a template, and
    fails only when it lists none. *)
Theorem C9_template_selection (changes_summary change_type : string) (dir : templates_dir) :
  select "fix" = select "bug"
  /\ select "chore" = "feature.md"
  /\ select (lower change_type) = select change_type
  /\ (TYPE_MAPPING !! lower change_type = None -> select change_type = "feature.md")
  /\ (forall first templates,
        (exists t, t ∈ templates /\ filename t = select change_type) ->
        resolve (select change_type) first templates ∈ templates
        /\ filename (resolve (select change_type) first templates) = select change_type)
  /\ (forall first templates,
        (forall t, t ∈ templates -> filename t <> select change_type) ->
        resolve (select change_type) first templates = first)
  /\ match suggest_template changes_summary change_type dir with
     | Suggested s =>
         exists files first rest,
           dir = Directory files
           /\ load_templates files = first :: rest
           /\ recommended_template s = resolve (select change_type) first (first :: rest)
           /\ template_content s = content (recommended_template s)
     | CatalogFailed _ | NoTemplatesAvailable =>
         dir = Unavailable \/ exists files, dir = Directory files /\ load_templates files = []
     end.
Proof.
  split; [reflexivity |]. split; [reflexivity |].
  split; [unfold select; rewrite lower_idem; reflexivity |].
  split; [intros Hnone; unfold select; rewrite Hnone; reflexivity |].
  split; [intros first templates; apply resolve_found |].
  split; [intros first templates; apply resolve_missing |].
  unfold suggest_template, get_pr_templates.
  destruct dir as [| files]; [left; reflexivity |].
  destruct (load_templates files) as [| first rest] eqn:Hload.
  - right. exists files. split; [reflexivity | exact Hload].
  - exists files, first, rest.
    split; [reflexivity |]. split; [exact Hload |]. split; reflexivity.
Qed.

Lemma C9_template_selection_witness :
  TYPE_MAPPING !! lower "Chore" = None
  /\ select "Chore" = "feature.md"
  /\ (exists s, suggest_template "tidy up" "Chore" no_feature_template = Suggested s
        /\ filename (recommended_template s) = "bug.md")
  /\ (exists s, suggest_template "typo" "Documentation" no_feature_template = Suggested s
        /\ filename (recommended_template s) = "docs.md").
Proof.
  destruct (C9_template_selection "tidy up" "Chore" no_feature_template)
    as (_ & _ & _ & Hdefault & _).
  split; [reflexivity |]. split; [apply Hdefault; reflexivity |].
  split; eexists; split; reflexivity.
Defined.

(* ===================================================================== *)
(** * Part II, continued: further properties of the code *)
(* ===================================================================== *)

(** ** The receiver *)

Lemma last_add_event (ev : event) (events : list event) :
  last (add_event ev events) = Some ev.
Proof.
  unfold add_event. change (-100) with (- Z.of_nat 100).
  rewrite slice_from_neg by lia. rewrite length_app. simpl.
  destruct (Nat.le_gt_cases (length events + 1) 100) as [Hle | Hgt].
  - replace (length events + 1 - 100)%nat with 0%nat by lia. apply last_snoc.
  - rewrite drop_app_le by lia. apply last_snoc.
Qed.

Lemma add_event_length (ev : event) (events : list event) :
  (1 <= length (add_event ev events) <= 100)%nat.
Proof.
  unfold add_event. change (-100) with (- Z.of_nat 100).
  rewrite slice_from_neg_length by lia. rewrite length_app.
  change (length [ev]) with 1%nat. lia.
Qed.

(** X1. The status code tells what happened to the file. For a request
    whose [repository] and [sender] are objects where present: the
    answer is 200 exactly when [request.json()] returns an object and
    the disk takes the save, and then the event of the request is the
    newest entry of the stored log, which holds between 1 and 100
    events. The answer is 400 exactly when [request.json()] raises
    [JSONDecodeError]; when it raises anything else (a body that cannot
    be read or decoded, or one over the size limit), or returns a value
    that is no object, the answer is 500 "Internal server error", as it
    is 500 "Failed to save event" when the disk refuses the save. Unless
    the answer is 200, the events file is as it was before or, when the
    save broke off, cut to something that does not parse. *)
Theorem X1_status_code_tells_what_was_stored (now : string) (req : request) (d : disk)
    (files : fs) :
  let out := handle_webhook now req d files in
  (http_status out.1 = 200 \/ http_status out.1 = 400 \/ http_status out.1 = 500)
  /\ (http_status out.1 = 200 <-> (exists data, json_body req = Object data) /\ d = WriteOk)
  /\ (http_status out.1 = 400 <-> json_body req = InvalidJson)
  /\ (out.1 = {| http_status := 500; status_field := "error";
                 message_field := Some "Internal server error" |}
      <-> json_body req = ReadError \/ json_body req = NotAnObject)
  /\ (out.1 = {| http_status := 500; status_field := "error";
                 message_field := Some "Failed to save event" |}
      <-> (exists data, json_body req = Object data) /\ d <> WriteOk)
  /\ (http_status out.1 = 200 <-> status_field out.1 = "success")
  /\ (http_status out.1 = 200 ->
      exists ev stored,
        event_of (now, req) = Some ev
        /\ out.2 !! EVENTS_FILE = Some (Stored stored)
        /\ last stored = Some ev
        /\ (1 <= length stored <= 100)%nat)
  /\ (http_status out.1 <> 200 ->
      out.2 = files
      \/ (d = WriteFails /\ out.2 = <[EVENTS_FILE := Unparsable]> files)).
Proof.
  unfold handle_webhook, event_of. simpl.
  destruct (json_body req) as [| | | data] eqn:Hbody; [| | | destruct d]; simpl.
  - split; [right; left; reflexivity |].
    split; [split; [discriminate | intros [[data Hd] _]; discriminate] |].
    split; [split; reflexivity |].
    split; [split; [discriminate | intros [Hb | Hb]; discriminate] |].
    split; [split; [discriminate | intros [[data Hd] _]; discriminate] |].
    split; [split; discriminate |].
    split; [discriminate | intros _; left; reflexivity].
  - split; [right; right; reflexivity |].
    split; [split; [discriminate | intros [[data Hd] _]; discriminate] |].
    split; [split; discriminate |].
    split; [split; [intros _; left; reflexivity | reflexivity] |].
    split; [split; [discriminate | intros [[data Hd] _]; discriminate] |].
    split; [split; discriminate |].
    split; [discriminate | intros _; left; reflexivity].
  - split; [right; right; reflexivity |].
    split; [split; [discriminate | intros [[data Hd] _]; discriminate] |].
    split; [split; discriminate |].
    split; [split; [intros _; right; reflexivity | reflexivity] |].
    split; [split; [discriminate | intros [[data Hd] _]; discriminate] |].
    split; [split; discriminate |].
    split; [discriminate | intros _; left; reflexivity].
  - split; [left; reflexivity |].
    split; [split; [intros _; split; [eexists |]; reflexivity | reflexivity] |].
    split; [split; discriminate |].
    split; [split; [discriminate | intros [Hb | Hb]; discriminate] |].
    split; [split; [discriminate | intros [_ Hd]; exfalso; apply Hd; reflexivity] |].
    split; [split; reflexivity |].
    split; [| intros Hne; exfalso; apply Hne; reflexivity].
    intros _. eexists _, _. split; [reflexivity |].
    split; [apply lookup_insert_eq |].
    split; [apply last_add_event | apply add_event_length].
  - split; [right; right; reflexivity |].
    split; [split; [discriminate | intros [_ Hd]; discriminate] |].
    split; [split; discriminate |].
    split; [split; [discriminate | intros [Hb | Hb]; discriminate] |].
    split; [split; [intros _; split; [eexists; reflexivity | discriminate] | reflexivity] |].
    split; [split; discriminate |].
    split; [discriminate | intros _; left; reflexivity].
  - split; [right; right; reflexivity |].
    split; [split; [discriminate | intros [_ Hd]; discriminate] |].
    split; [split; discriminate |].
    split; [split; [discriminate | intros [Hb | Hb]; discriminate] |].
    split; [split; [intros _; split; [eexists; reflexivity | discriminate] | reflexivity] |].
    split; [split; discriminate |].
    split; [discriminate | intros _; right; split; reflexivity].
Qed.

Lemma X1_status_code_tells_what_was_stored_witness :
  let out := handle_webhook "2024-01-02T00:00:01" delivery WriteOk
               {[ EVENTS_FILE := Stored [first_event] ]} in
  let oversized := handle_webhook "2024-01-02T00:00:02"
                     {| json_body := ReadError; x_github_event := Some "workflow_run" |}
                     WriteOk {[ EVENTS_FILE := Stored [first_event] ]} in
  http_status out.1 = 200
  /\ out.2 !! EVENTS_FILE = Some (Stored [first_event; second_event])
  /\ http_status oversized.1 = 500
  /\ oversized.2 = {[ EVENTS_FILE := Stored [first_event] ]}.
Proof.
  intros out oversized.
  destruct (X1_status_code_tells_what_was_stored "2024-01-02T00:00:01" delivery WriteOk
              {[ EVENTS_FILE := Stored [first_event] ]})
    as (_ & H200 & _ & _ & _ & _ & Hstored & _).
  assert (Hcode : http_status out.1 = 200).
  { apply H200. split; [eexists; reflexivity | reflexivity]. }
  split; [exact Hcode |].
  split; [subst out; unfold handle_webhook; simpl;
          etrans; [apply lookup_insert_eq | reflexivity] |].
  destruct (X1_status_code_tells_what_was_stored "2024-01-02T00:00:02"
              {| json_body := ReadError; x_github_event := Some "workflow_run" |} WriteOk
              {[ EVENTS_FILE := Stored [first_event] ]})
    as (_ & _ & _ & H500 & _ & _ & _ & Hfile).
  fold oversized in H500, Hfile.
  assert (Hanswer : oversized.1 = {| http_status := 500; status_field := "error";
                                     message_field := Some "Internal server error" |}).
  { apply H500. left. reflexivity. }
  split; [rewrite Hanswer; reflexivity |].
  destruct Hfile as [Hsame | [Hd _]]; [rewrite Hanswer; discriminate | exact Hsame |].
  discriminate.
Defined.

(** X2. A save that breaks off after the events file was opened for
    writing loses every event the log held: the receiver then reads the
    file as an empty log, the reading tool raises on it, and the next
    delivery that is saved leaves a log of exactly one event. *)
Theorem X2_broken_save_loses_the_log (now1 now2 : string) (req1 req2 : request)
    (data1 data2 : payload) (files : fs) :
  json_body req1 = Object data1 ->
  json_body req2 = Object data2 ->
  let broken := (handle_webhook now1 req1 WriteFails files).2 in
  read_existing broken = []
  /\ (forall limit, get_recent_actions_events limit broken = Raise JSONDecodeError)
  /\ read_existing (handle_webhook now2 req2 WriteOk broken).2
     = [make_event now2 req2 data2].
Proof.
  intros H1 H2 broken.
  assert (Hbroken : broken !! EVENTS_FILE = Some Unparsable).
  { subst broken. unfold handle_webhook. rewrite H1. simpl. apply lookup_insert_eq. }
  assert (Hread : read_existing broken = []) by (apply read_existing_unparsable, Hbroken).
  split; [exact Hread |]. split.
  - intros limit. apply (tools_raise_on_unparsable limit None), Hbroken.
  - rewrite (handle_webhook_appends now2 req2 data2 broken H2). simpl.
    rewrite read_existing_append, Hread. reflexivity.
Qed.

Lemma X2_broken_save_loses_the_log_witness :
  let files : fs := {[ EVENTS_FILE := Stored [first_event; first_event] ]} in
  let broken := (handle_webhook "2024-01-02T00:00:01" delivery WriteFails files).2 in
  read_existing files = [first_event; first_event]
  /\ read_existing (handle_webhook "2024-01-02T00:00:01" delivery WriteOk broken).2
     = [second_event].
Proof.
  intros files broken. split; [reflexivity |].
  destruct (X2_broken_save_loses_the_log "2024-01-02T00:00:01" "2024-01-02T00:00:01"
              delivery delivery _ _ files eq_refl eq_refl) as (_ & _ & Hnext).
  exact Hnext.
Defined.

(** X3. Requests whose body is not a JSON object leave no trace: after
    any series of requests the events file is what it would be had only
    those with a JSON object arrived. *)
Theorem X3_rejected_requests_leave_no_trace (arrivals : list (string * request))
    (files : fs) :
  deliveries arrivals files = deliveries (filter carries_object arrivals) files.
Proof.
  rewrite !deliveries_append_all. f_equal.
  induction arrivals as [| a arrivals IH]; [reflexivity |].
  rewrite filter_cons. unfold carries_object at 1.
  destruct (decide (is_Some (event_of a))) as [[ev Hev] | Hnone]; csimpl.
  - rewrite Hev. csimpl. rewrite IH. reflexivity.
  - destruct (event_of a) as [ev |] eqn:Hev; [exfalso; apply Hnone; eauto |].
    exact IH.
Qed.

(** ** Reading the log *)

Lemma slice_from_suffix {A : Type} (start : Z) (l : list A) :
  exists older, l = older ++ slice_from start l.
Proof.
  unfold slice_from. eexists. symmetry. apply take_drop.
Qed.

(** X4. For a limit of at least 1 the tool returns the last [limit]
    events of the log in their order: as many as the lesser of the limit
    and the length of the log, the whole log once the limit reaches its
    length, and what is left out is what came before. *)
Theorem X4_limit_returns_the_newest (limit : Z) (events : list event) (files : fs) :
  files !! EVENTS_FILE = Some (Stored events) ->
  1 <= limit ->
  exists recent older,
    get_recent_actions_events limit files = Return recent
    /\ events = older ++ recent
    /\ length recent = Nat.min (Z.to_nat limit) (length events)
    /\ (Z.of_nat (length events) <= limit -> recent = events)
    /\ (events <> [] -> last recent = last events).
Proof.
  intros Hfile Hlimit. unfold get_recent_actions_events. rewrite Hfile.
  assert (Hslice : slice_from (- limit) events
                   = drop (length events - Z.to_nat limit) events).
  { replace (- limit) with (- Z.of_nat (Z.to_nat limit)) by lia.
    apply slice_from_neg. lia. }
  exists (slice_from (- limit) events), (take (length events - Z.to_nat limit) events).
  split; [reflexivity |]. rewrite Hslice.
  split; [symmetry; apply take_drop |].
  split; [rewrite length_drop; lia |].
  split.
  - intros Hall. replace (length events - Z.to_nat limit)%nat with 0%nat by lia.
    reflexivity.
  - intros Hne. destruct events as [| e events'] using rev_ind; [congruence |].
    rewrite length_app. simpl. rewrite drop_app_le by lia. rewrite !last_snoc.
    reflexivity.
Qed.

Lemma X4_limit_returns_the_newest_witness :
  let files : fs := {[ EVENTS_FILE := Stored (map numbered (seq 0 5)) ]} in
  files !! EVENTS_FILE = Some (Stored (map numbered (seq 0 5)))
  /\ get_recent_actions_events 3 files = Return (map numbered (seq 2 3)).
Proof.
  intros files.
  assert (Hfile : files !! EVENTS_FILE = Some (Stored (map numbered (seq 0 5))))
    by apply lookup_singleton_eq.
  split; [exact Hfile |].
  destruct (X4_limit_returns_the_newest 3 (map numbered (seq 0 5)) files Hfile)
    as (recent & older & Hget & _); [lia |].
  rewrite Hget. unfold get_recent_actions_events in Hget. rewrite Hfile in Hget.
  injection Hget as <-. reflexivity.
Defined.

(** X5. What the receiver has just stored is what the tool reports as
    newest: after a delivery answered with 200, a read with a limit of
    at least 1 returns a list that ends with the event of that
    delivery. *)
Theorem X5_delivery_is_read_back (now : string) (req : request) (data : payload)
    (limit : Z) (files : fs) :
  json_body req = Object data ->
  1 <= limit ->
  exists recent,
    get_recent_actions_events limit (handle_webhook now req WriteOk files).2
      = Return recent
    /\ last recent = Some (make_event now req data).
Proof.
  intros Hbody Hlimit.
  rewrite (handle_webhook_appends now req data files Hbody). simpl.
  set (stored := add_event (make_event now req data) (read_existing files)).
  assert (Hfile : append (make_event now req data) files !! EVENTS_FILE
                  = Some (Stored stored)) by apply exec_save_ops.
  unfold get_recent_actions_events. rewrite Hfile.
  eexists. split; [reflexivity |].
  pose proof (last_add_event (make_event now req data) (read_existing files)) as Hlast.
  fold stored in Hlast.
  apply last_Some in Hlast as [front Hfront]. rewrite Hfront.
  replace (- limit) with (- Z.of_nat (Z.to_nat limit)) by lia.
  rewrite slice_from_neg by lia. rewrite length_app. simpl.
  rewrite drop_app_le by lia. apply last_snoc.
Qed.

Lemma X5_delivery_is_read_back_witness :
  json_body delivery = Object {| p_action := Some "completed";
                                 p_workflow_run := Some second_run;
                                 p_check_run := None;
                                 p_repository := Some {| full_name := Some "o/r" |};
                                 p_sender := Some {| login := Some "octocat" |} |}
  /\ get_recent_actions_events 1
       (handle_webhook "2024-01-02T00:00:01" delivery WriteOk
          {[ EVENTS_FILE := Stored [first_event] ]}).2
     = Return [second_event].
Proof.
  split; [reflexivity |].
  destruct (X5_delivery_is_read_back "2024-01-02T00:00:01" delivery _ 1
              {[ EVENTS_FILE := Stored [first_event] ]} eq_refl)
    as (recent & Hget & Hlast); [lia |].
  rewrite Hget. f_equal.
  unfold get_recent_actions_events, handle_webhook in Hget. simpl in Hget.
  rewrite lookup_insert_eq in Hget. injection Hget as <-. reflexivity.
Defined.

(** ** Workflow status: the shape of the answer *)

Lemma filter_all {A : Type} (P : A -> Prop) `{forall x, Decision (P x)} (l : list A) :
  Forall P l -> filter P l = l.
Proof.
  induction 1 as [| x l Hx _ IH]; [reflexivity |].
  rewrite filter_cons_True by exact Hx. rewrite IH. reflexivity.
Qed.

(** A list of runs reduces, name by name, to what [keep_latest] makes of
    the runs of that name. *)
Lemma reduce_record_of_name (rs : list run) (n : string) :
  filter (fun s => ws_name s = n) (dict_values (reduce rs))
  = match fold_left keep_latest (filter (fun r => name r = n) rs) None with
    | Some v => [v]
    | None => []
    end.
Proof.
  rewrite well_keyed_values by apply well_keyed_reduce.
  unfold reduce. rewrite dict_get_fold_record_run. reflexivity.
Qed.

Lemma fold_keep_latest_some (rs : list run) :
  rs <> [] ->
  exists r,
    r ∈ rs
    /\ fold_left keep_latest rs None = Some (status_of_run r)
    /\ forall r', r' ∈ rs -> str_gt (updated_at r') (updated_at r) = false.
Proof.
  destruct rs as [| m rs]; [congruence |]. intros _.
  exact (keep_latest_from rs m).
Qed.

(** Every record of the answer is the record of a run of the list. *)
Lemma reduce_sound (rs : list run) (s : workflow_status) :
  s ∈ dict_values (reduce rs) ->
  exists r, r ∈ rs /\ s = status_of_run r.
Proof.
  intros Hs.
  assert (Hin : s ∈ filter (fun s' => ws_name s' = ws_name s) (dict_values (reduce rs))).
  { apply list_elem_of_filter. split; [reflexivity | exact Hs]. }
  rewrite reduce_record_of_name in Hin.
  destruct (filter (fun r => name r = ws_name s) rs) as [| m rest] eqn:Hruns.
  - simpl in Hin. apply elem_of_nil in Hin. contradiction.
  - destruct (fold_keep_latest_some (m :: rest)) as (r & Hr & Hfold & _); [discriminate |].
    rewrite Hfold in Hin. apply list_elem_of_singleton in Hin. subst s.
    exists r. split; [| reflexivity].
    rewrite <- Hruns in Hr. apply list_elem_of_filter in Hr as [_ Hr]. exact Hr.
Qed.

Lemma reduce_complete (rs : list run) (r : run) :
  r ∈ rs -> name r ∈ map ws_name (dict_values (reduce rs)).
Proof.
  intros Hr.
  assert (Hne : filter (fun r' => name r' = name r) rs <> []).
  { intros Hnil. apply (filter_nil_not_elem_of _ _ r Hnil); [reflexivity | exact Hr]. }
  destruct (fold_keep_latest_some _ Hne) as (g & Hg & Hfold & _).
  pose proof (reduce_record_of_name rs (name r)) as Hrec. rewrite Hfold in Hrec.
  assert (Hin : status_of_run g
                  ∈ filter (fun s => ws_name s = name r) (dict_values (reduce rs))).
  { rewrite Hrec. apply list_elem_of_singleton. reflexivity. }
  apply list_elem_of_filter in Hin as [Hname Hin].
  apply list_elem_of_fmap. exists (status_of_run g). split; [symmetry; exact Hname | exact Hin].
Qed.

Lemma well_keyed_fresh (k : string) (d : list (string * workflow_status)) :
  well_keyed d -> dict_get k d = None -> k ∉ map ws_name (dict_values d).
Proof.
  induction d as [| [k' v] d IH]; simpl.
  - intros _ _ Hin. apply elem_of_nil in Hin. exact Hin.
  - intros (Hv & Hfresh & Hd). destruct (String.eqb_spec k k') as [-> | Hne]; [discriminate |].
    intros Hget Hin. apply elem_of_cons in Hin as [Heq | Hin].
    + apply Hne. rewrite Heq. exact Hv.
    + exact (IH Hd Hget Hin).
Qed.

Lemma well_keyed_NoDup (d : list (string * workflow_status)) :
  well_keyed d -> NoDup (map ws_name (dict_values d)).
Proof.
  induction d as [| [k v] d IH]; simpl; [intros _; constructor |].
  intros (Hv & Hfresh & Hd). apply NoDup_cons. split; [| apply IH, Hd].
  rewrite Hv. apply well_keyed_fresh; assumption.
Qed.

Lemma get_workflow_status_stored (workflow_name : option string) (events : list event)
    (files : fs) :
  files !! EVENTS_FILE = Some (Stored events) ->
  events <> [] ->
  get_workflow_status workflow_name files
  = Return (Statuses (dict_values (reduce (workflow_events workflow_name events)))).
Proof.
  intros Hfile Hne. unfold get_workflow_status. rewrite Hfile.
  destruct events; [congruence | reflexivity].
Qed.

(** X6. With a log that is not empty the answer is a list with one
    record for each name that has a run among the runs looked at (all
    runs, or those of the wanted name): no name occurs twice, every such
    name occurs, and every record has the name, the status, the
    conclusion, the run number, the [updated_at] and the [html_url] of
    one and the same of those runs. *)
Theorem X6_one_record_per_name (workflow_name : option string) (events : list event)
    (files : fs) :
  files !! EVENTS_FILE = Some (Stored events) ->
  events <> [] ->
  exists workflows,
    get_workflow_status workflow_name files = Return (Statuses workflows)
    /\ NoDup (map ws_name workflows)
    /\ (forall n, n ∈ map ws_name workflows
                  <-> exists r, r ∈ workflow_events workflow_name events /\ name r = n)
    /\ (forall s, s ∈ workflows ->
          exists r, r ∈ workflow_events workflow_name events
                    /\ ws_name s = name r
                    /\ ws_status s = status r
                    /\ ws_conclusion s = conclusion r
                    /\ ws_run_number s = run_number r
                    /\ ws_updated_at s = updated_at r
                    /\ ws_html_url s = html_url r).
Proof.
  intros Hfile Hne. eexists.
  split; [exact (get_workflow_status_stored workflow_name events files Hfile Hne) |].
  split; [apply well_keyed_NoDup, well_keyed_reduce |].
  split.
  - intros n. split.
    + intros (s & -> & Hs)%list_elem_of_fmap.
      destruct (reduce_sound _ s Hs) as (r & Hr & ->). exists r.
      split; [exact Hr | reflexivity].
    + intros (r & Hr & <-). apply reduce_complete, Hr.
  - intros s Hs. destruct (reduce_sound _ s Hs) as (r & Hr & ->). exists r.
    split; [exact Hr |]. repeat split; reflexivity.
Qed.

Lemma X6_one_record_per_name_witness :
  let files : fs := {[ EVENTS_FILE := Stored [first_event; second_event; first_event] ]} in
  files !! EVENTS_FILE = Some (Stored [first_event; second_event; first_event])
  /\ exists workflows,
       get_workflow_status None files = Return (Statuses workflows)
       /\ NoDup (map ws_name workflows)
       /\ "build" ∈ map ws_name workflows
       /\ (forall s, s ∈ workflows ->
             (ws_status s = "in_progress" /\ ws_run_number s = 1)
             \/ (ws_status s = "completed" /\ ws_run_number s = 2)).
Proof.
  intros files.
  assert (Hfile : files !! EVENTS_FILE
                  = Some (Stored [first_event; second_event; first_event]))
    by apply lookup_singleton_eq.
  split; [exact Hfile |].
  destruct (X6_one_record_per_name None _ files Hfile)
    as (ws & Hget & Hnodup & Hnames & Hfields); [discriminate |].
  exists ws. split; [exact Hget |]. split; [exact Hnodup |]. split.
  - apply Hnames. exists first_run. split; [| reflexivity].
    simpl. apply elem_of_cons. left. reflexivity.
  - intros s Hs.
    destruct (Hfields s Hs) as (r & Hr & _ & Hstatus & _ & Hnumber & _).
    rewrite Hstatus, Hnumber. simpl in Hr.
    repeat (apply elem_of_cons in Hr as [-> | Hr]; [first [left; split; reflexivity
                                                         | right; split; reflexivity] |]).
    apply elem_of_nil in Hr. contradiction.
Defined.

Lemma reduce_of_one_name (rs : list run) (n : string) :
  Forall (fun r => name r = n) rs ->
  dict_values (reduce rs)
  = filter (fun s => ws_name s = n) (dict_values (reduce rs)).
Proof.
  intros Hall. symmetry. apply filter_all. apply Forall_forall. intros s Hs.
  destruct (reduce_sound rs s Hs) as (r & Hr & ->).
  rewrite Forall_forall in Hall. exact (Hall r Hr).
Qed.

Lemma filter_name_twice (rs : list run) (n : string) :
  filter (fun r => name r = n) (filter (fun r => name r = n) rs)
  = filter (fun r => name r = n) rs.
Proof.
  apply filter_all. apply Forall_forall. intros r Hr.
  apply list_elem_of_filter in Hr as [Hn _]. exact Hn.
Qed.

(** Narrowing the runs to one name before the loop gives the record the
    loop over all runs has for that name. *)
Lemma reduce_filter_commute (rs : list run) (n : string) :
  dict_values (reduce (filter (fun r => name r = n) rs))
  = filter (fun s => ws_name s = n) (dict_values (reduce rs)).
Proof.
  rewrite (reduce_of_one_name (filter (fun r => name r = n) rs) n).
  - rewrite !reduce_record_of_name, filter_name_twice. reflexivity.
  - apply Forall_forall. intros r Hr. apply list_elem_of_filter in Hr as [Hn _]. exact Hn.
Qed.

(** X7. Asking for one workflow by name gives exactly the records of
    that name in the answer to the question without a name, so at most
    one record; an empty name counts as no name. *)
Theorem X7_name_filter_selects_from_the_whole (n : string) (events : list event)
    (files : fs) :
  files !! EVENTS_FILE = Some (Stored events) ->
  events <> [] ->
  n <> EmptyString ->
  exists all,
    get_workflow_status None files = Return (Statuses all)
    /\ get_workflow_status (Some n) files
       = Return (Statuses (filter (fun s => ws_name s = n) all))
    /\ (length (filter (fun s => ws_name s = n) all) <= 1)%nat
    /\ get_workflow_status (Some EmptyString) files = Return (Statuses all).
Proof.
  intros Hfile Hne Hn. eexists.
  split; [exact (get_workflow_status_stored None events files Hfile Hne) |].
  split; [| split].
  - rewrite (get_workflow_status_stored (Some n) events files Hfile Hne).
    unfold workflow_events. apply String.eqb_neq in Hn. unfold truthy. rewrite Hn. simpl.
    rewrite reduce_filter_commute. reflexivity.
  - simpl. rewrite reduce_record_of_name.
    destruct (fold_left keep_latest _ None); simpl; lia.
  - exact (get_workflow_status_stored (Some EmptyString) events files Hfile Hne).
Qed.

Lemma X7_name_filter_selects_from_the_whole_witness :
  let files : fs := {[ EVENTS_FILE := Stored [first_event; second_event] ]} in
  files !! EVENTS_FILE = Some (Stored [first_event; second_event])
  /\ get_workflow_status (Some "build") files = get_workflow_status None files
  /\ get_workflow_status (Some "deploy") files = Return (Statuses []).
Proof.
  intros files.
  assert (Hfile : files !! EVENTS_FILE = Some (Stored [first_event; second_event]))
    by apply lookup_singleton_eq.
  split; [exact Hfile |].
  destruct (X7_name_filter_selects_from_the_whole "build" _ files Hfile)
    as (all & Hall & Hbuild & _); [discriminate | discriminate |].
  destruct (X7_name_filter_selects_from_the_whole "deploy" _ files Hfile)
    as (all' & Hall' & Hdeploy & _); [discriminate | discriminate |].
  split.
  - rewrite Hbuild, Hall. unfold get_workflow_status in Hall. rewrite Hfile in Hall.
    injection Hall as <-. reflexivity.
  - rewrite Hdeploy. unfold get_workflow_status in Hall'. rewrite Hfile in Hall'.
    injection Hall' as <-. reflexivity.
Defined.

(** ** From the receiver to the status tool *)

Lemma elem_of_add_event (e ev : event) (events : list event) :
  e ∈ add_event ev events -> e ∈ events \/ e = ev.
Proof.
  unfold add_event. intros He.
  destruct (slice_from_suffix (-100) (events ++ [ev])) as [older Holder].
  assert (Hin : e ∈ events ++ [ev]).
  { rewrite Holder. apply elem_of_app. right. exact He. }
  apply elem_of_app in Hin as [Hin | Hin]; [left; exact Hin |].
  right. apply list_elem_of_singleton in Hin. exact Hin.
Qed.

(** X8. When a delivery carries a run whose [updated_at] is greater than
    that of every run of the same name in the log, then, once saved, the
    answer of the status tool holds for that name exactly the record
    with the name, the status, the conclusion, the run number, the
    [updated_at] and the [html_url] of that run. Asked for that name,
    the tool answers with just that record, unless the name is the empty
    string, which counts as no name and gets the records of all
    names. *)
Theorem X8_newer_run_is_reported (now : string) (req : request) (data : payload)
    (r : run) (files : fs) :
  json_body req = Object data ->
  p_workflow_run data = Some r ->
  (forall e' r', e' ∈ read_existing files -> workflow_run e' = Some r' ->
     name r' = name r -> str_gt (updated_at r) (updated_at r') = true) ->
  let saved := (handle_webhook now req WriteOk files).2 in
  let record := {| ws_name := name r; ws_status := status r;
                   ws_conclusion := conclusion r; ws_run_number := run_number r;
                   ws_updated_at := updated_at r; ws_html_url := html_url r |} in
  (forall workflow_name,
     workflow_name = None \/ workflow_name = Some (name r) ->
     exists workflows,
       get_workflow_status workflow_name saved = Return (Statuses workflows)
       /\ filter (fun s => ws_name s = name r) workflows = [record])
  /\ (name r <> EmptyString ->
      get_workflow_status (Some (name r)) saved = Return (Statuses [record]))
  /\ (name r = EmptyString ->
      get_workflow_status (Some (name r)) saved = get_workflow_status None saved).
Proof.
  intros Hbody Hrun Hnewer saved record. subst saved.
  rewrite (handle_webhook_appends now req data files Hbody). simpl.
  set (ev := make_event now req data).
  set (stored := add_event ev (read_existing files)).
  assert (Hfile : append ev files !! EVENTS_FILE = Some (Stored stored))
    by apply exec_save_ops.
  assert (Hlast : last stored = Some ev) by apply last_add_event.
  assert (Hev : ev ∈ stored).
  { apply last_Some in Hlast as [front ->]. apply elem_of_app. right.
    apply list_elem_of_singleton. reflexivity. }
  assert (Hne : stored <> []).
  { intros Hnil. rewrite Hnil in Hev. apply elem_of_nil in Hev. exact Hev. }
  assert (Hmax : forall r', r' ∈ filter (fun r' => name r' = name r) (omap workflow_run stored) ->
            str_gt (updated_at r') (updated_at r) = false
            /\ (updated_at r' = updated_at r -> status_of_run r' = status_of_run r)).
  { intros r' Hr'. apply list_elem_of_filter in Hr' as [Hn Hr'].
    apply list_elem_of_omap in Hr' as (e' & He' & Hrun').
    apply elem_of_add_event in He' as [Hold | ->].
    + pose proof (Hnewer e' r' Hold Hrun' Hn) as Hgt.
      split; [apply str_gt_asym, Hgt |].
      intros Heq. rewrite Heq, str_gt_irrefl in Hgt. discriminate.
    + subst ev. simpl in Hrun'. rewrite Hrun in Hrun'. injection Hrun' as <-.
      split; [apply str_gt_irrefl | reflexivity]. }
  assert (Hin : r ∈ filter (fun r' => name r' = name r) (omap workflow_run stored)).
  { apply list_elem_of_filter. split; [reflexivity |].
    apply list_elem_of_omap. exists ev. split; [exact Hev | exact Hrun]. }
  split; [| split].
  - intros workflow_name Hwanted. eexists.
    split; [exact (get_workflow_status_stored workflow_name stored _ Hfile Hne) |].
    rewrite reduce_record_of_name.
    rewrite workflow_events_named by (destruct Hwanted as [-> | ->]; tauto).
    rewrite (keep_latest_greatest _ r None Hmax Hin); [reflexivity | left; reflexivity].
  - intros Hname.
    rewrite (get_workflow_status_stored _ stored _ Hfile Hne).
    do 2 f_equal. unfold workflow_events, truthy.
    apply String.eqb_neq in Hname. rewrite Hname. simpl.
    rewrite reduce_filter_commute, reduce_record_of_name.
    rewrite (keep_latest_greatest _ r None Hmax Hin); [reflexivity | left; reflexivity].
  - intros Hname.
    rewrite !(get_workflow_status_stored _ stored _ Hfile Hne).
    unfold workflow_events, truthy. rewrite Hname. reflexivity.
Qed.

Lemma X8_newer_run_is_reported_witness :
  str_gt (updated_at second_run) (updated_at first_run) = true
  /\ get_workflow_status (Some "build")
       (handle_webhook "2024-01-02T00:00:01" delivery WriteOk
          {[ EVENTS_FILE := Stored [first_event] ]}).2
     = Return (Statuses [{| ws_name := "build"; ws_status := "completed";
                            ws_conclusion := None; ws_run_number := 2;
                            ws_updated_at := "2024-01-02T00:00:00Z";
                            ws_html_url := "https://github.com/o/r/actions/runs/1" |}]).
Proof.
  split; [reflexivity |].
  destruct (X8_newer_run_is_reported "2024-01-02T00:00:01" delivery _ second_run
              {[ EVENTS_FILE := Stored [first_event] ]} eq_refl eq_refl)
    as (_ & Hnamed & _).
  - intros e' r' He' Hrun' _. unfold read_existing in He'.
    rewrite lookup_singleton_eq in He'. apply list_elem_of_singleton in He'. subst e'.
    injection Hrun' as <-. reflexivity.
  - apply Hnamed. discriminate.
Defined.

(** ** Workflow status: the order of the log *)

Lemma workflow_events_subset (workflow_name : option string) (events : list event) (r : run) :
  r ∈ workflow_events workflow_name events -> r ∈ omap workflow_run events.
Proof.
  unfold workflow_events. destruct workflow_name as [wanted |]; [| trivial].
  destruct (truthy wanted); [| trivial].
  intros [_ Hr]%list_elem_of_filter. exact Hr.
Qed.

Lemma workflow_events_Permutation (workflow_name : option string)
    (events appended : list event) :
  appended ≡ₚ events ->
  workflow_events workflow_name appended ≡ₚ workflow_events workflow_name events.
Proof.
  intros Hperm. unfold workflow_events.
  assert (Hruns : omap workflow_run appended ≡ₚ omap workflow_run events)
    by (rewrite Hperm; reflexivity).
  destruct workflow_name as [wanted |]; [| exact Hruns].
  destruct (truthy wanted); [| exact Hruns].
  rewrite Hruns. reflexivity.
Qed.

(** A record of the answer for one order of the runs is a record of the
    answer for any other order, when runs that tie carry the same
    fields. *)
Lemma reduce_Permutation_elem (rs rs' : list run) (s : workflow_status) :
  rs' ≡ₚ rs ->
  (forall r1 r2, r1 ∈ rs -> r2 ∈ rs -> name r1 = name r2 ->
     updated_at r1 = updated_at r2 -> status_of_run r1 = status_of_run r2) ->
  s ∈ dict_values (reduce rs) -> s ∈ dict_values (reduce rs').
Proof.
  intros Hperm Hties Hs.
  set (n := ws_name s).
  assert (Hin : s ∈ filter (fun s' => ws_name s' = n) (dict_values (reduce rs))).
  { apply list_elem_of_filter. split; [reflexivity | exact Hs]. }
  rewrite reduce_record_of_name in Hin.
  assert (Hnames : filter (fun r => name r = n) rs' ≡ₚ filter (fun r => name r = n) rs)
    by (rewrite Hperm; reflexivity).
  destruct (filter (fun r => name r = n) rs) as [| m rest] eqn:Hruns.
  { simpl in Hin. apply elem_of_nil in Hin. contradiction. }
  destruct (fold_keep_latest_some (m :: rest)) as (r & Hr & Hfold & Hmax); [discriminate |].
  rewrite Hfold in Hin. apply list_elem_of_singleton in Hin.
  assert (Hne' : filter (fun r => name r = n) rs' <> []).
  { intros Hnil. rewrite Hnil in Hnames. apply Permutation_nil_l in Hnames. discriminate. }
  destruct (fold_keep_latest_some _ Hne') as (r' & Hr' & Hfold' & Hmax').
  assert (Hr'in : r' ∈ m :: rest) by (rewrite <- Hnames; exact Hr').
  assert (Hrin : r ∈ filter (fun r => name r = n) rs') by (rewrite Hnames; exact Hr).
  assert (Hsame : status_of_run r' = status_of_run r).
  { rewrite <- Hruns in Hr, Hr'in.
    apply list_elem_of_filter in Hr as [Hrn Hr].
    apply list_elem_of_filter in Hr'in as [Hr'n Hr'in].
    apply Hties; [exact Hr'in | exact Hr | congruence |].
    destruct (decide (updated_at r' = updated_at r)) as [Heq | Hneq]; [exact Heq |].
    assert (Hle : str_gt (updated_at r') (updated_at r) = false).
    { apply Hmax. rewrite <- Hruns. apply list_elem_of_filter. split; assumption. }
    pose proof (str_gt_connected _ _ Hle Hneq) as Hgt.
    rewrite (Hmax' r Hrin) in Hgt. discriminate. }
  assert (Hin' : s ∈ filter (fun s' => ws_name s' = n) (dict_values (reduce rs'))).
  { rewrite reduce_record_of_name, Hfold', Hsame, <- Hin.
    apply list_elem_of_singleton. reflexivity. }
  apply list_elem_of_filter in Hin' as [_ Hin']. exact Hin'.
Qed.

(** X9. The order in which the events were appended does not change
    which records are returned, as long as runs of one name that share
    their [updated_at] carry the same six fields: the answers for two
    orders of one log are the same records, in some order. *)
Theorem X9_order_of_the_log_does_not_matter (workflow_name : option string)
    (events appended : list event) (files files' : fs) :
  appended ≡ₚ events ->
  ties_agree events ->
  events <> [] ->
  files !! EVENTS_FILE = Some (Stored events) ->
  files' !! EVENTS_FILE = Some (Stored appended) ->
  exists workflows workflows',
    get_workflow_status workflow_name files = Return (Statuses workflows)
    /\ get_workflow_status workflow_name files' = Return (Statuses workflows')
    /\ workflows' ≡ₚ workflows.
Proof.
  intros Hperm Hties Hne Hfile Hfile'.
  assert (Hne' : appended <> []).
  { intros Hnil. rewrite Hnil in Hperm. apply Permutation_nil_l in Hperm. congruence. }
  do 2 eexists.
  split; [exact (get_workflow_status_stored workflow_name events files Hfile Hne) |].
  split; [exact (get_workflow_status_stored workflow_name appended files' Hfile' Hne') |].
  pose proof (workflow_events_Permutation workflow_name events appended Hperm) as Hruns.
  set (rs := workflow_events workflow_name events) in *.
  set (rs' := workflow_events workflow_name appended) in *.
  assert (Hties_rs : forall r1 r2, r1 ∈ rs -> r2 ∈ rs -> name r1 = name r2 ->
            updated_at r1 = updated_at r2 -> status_of_run r1 = status_of_run r2).
  { intros r1 r2 H1 H2. apply Hties; apply (workflow_events_subset workflow_name);
      assumption. }
  assert (Hties_rs' : forall r1 r2, r1 ∈ rs' -> r2 ∈ rs' -> name r1 = name r2 ->
            updated_at r1 = updated_at r2 -> status_of_run r1 = status_of_run r2).
  { intros r1 r2 H1 H2. apply Hties_rs; rewrite <- Hruns; assumption. }
  apply NoDup_Permutation.
  - apply (NoDup_fmap_1 ws_name), well_keyed_NoDup, well_keyed_reduce.
  - apply (NoDup_fmap_1 ws_name), well_keyed_NoDup, well_keyed_reduce.
  - intros s. split.
    + apply reduce_Permutation_elem; [symmetry; exact Hruns | exact Hties_rs'].
    + apply reduce_Permutation_elem; [exact Hruns | exact Hties_rs].
Qed.

Lemma X9_order_of_the_log_does_not_matter_witness :
  ties_agree [first_event; second_event]
  /\ exists workflows workflows',
       get_workflow_status None {[ EVENTS_FILE := Stored [first_event; second_event] ]}
         = Return (Statuses workflows)
       /\ get_workflow_status None {[ EVENTS_FILE := Stored [second_event; first_event] ]}
          = Return (Statuses workflows')
       /\ workflows' ≡ₚ workflows.
Proof.
  assert (Hties : ties_agree [first_event; second_event]).
  { intros r1 r2 H1 H2 _ Hsame. simpl in H1, H2.
    apply elem_of_cons in H1 as [-> | H1]; apply elem_of_cons in H2 as [-> | H2];
      try reflexivity; try discriminate;
      repeat match goal with
             | H : _ ∈ [_] |- _ => apply list_elem_of_singleton in H; subst
             end; try reflexivity; discriminate. }
  split; [exact Hties |].
  apply (X9_order_of_the_log_does_not_matter None [first_event; second_event]
           [second_event; first_event]);
    [apply Permutation_swap | exact Hties | discriminate
    | apply lookup_singleton_eq | apply lookup_singleton_eq].
Defined.

(** ** Change analysis: which commands are run, and where *)

Lemma slice_to_pos {A : Type} (k : nat) (l : list A) : slice_to (Z.of_nat k) l = take k l.
Proof.
  unfold slice_to. destruct (Z.ltb_spec (Z.of_nat k) 0) as [Hneg | _]; [lia |].
  destruct (Nat.le_gt_cases k (length l)) as [Hle | Hgt].
  - f_equal. lia.
  - rewrite !take_ge by lia. reflexivity.
Qed.

(** With [check=True] a command returns normally only if it succeeds. *)
Lemma subprocess_run_checked_fails (w : world) (cmd : list string) (dir : string) (t : Z)
    (log : list call) :
  succeeds w cmd dir (Some t) = false ->
  exists e, subprocess_run w cmd true dir (Some t) log
            = (Raise e, log ++ [{| args := cmd; cwd := dir; check := true;
                                   timeout := Some t |}]).
Proof.
  unfold succeeds, subprocess_run. destruct (git w cmd dir) as [e | rt rc out err].
  - intros _. eexists. reflexivity.
  - destruct (t <? rt); simpl; [intros _; eexists; reflexivity |].
    intros Hrc. rewrite Hrc. simpl. eexists. reflexivity.
Qed.

(** The listing step, spelled out: the query for the names is always
    run; the query for their status is run when the first succeeded and
    listed a name, and its output is the value of the step when it
    succeeded too. *)
Lemma list_changed_files_exact (w : world) (base dir : string) (t : Z) (log : list call) :
  let names := {| args := name_only_cmd base; cwd := dir; check := true;
                  timeout := Some t |} in
  let changed := changed_files_of (output_of w (name_only_cmd base) dir) in
  let status := {| args := name_status_cmd base changed; cwd := dir; check := true;
                   timeout := Some t |} in
  list_changed_files w base dir t log
  = if succeeds w (name_only_cmd base) dir (Some t)
    then match changed with
         | [] => (Return EmptyString, log ++ [names])
         | _ :: _ =>
             (Return (if succeeds w (name_status_cmd base changed) dir (Some t)
                      then output_of w (name_status_cmd base changed) dir
                      else EmptyString),
              log ++ [names; status])
         end
    else (Return EmptyString, log ++ [names]).
Proof.
  intros names changed status. subst status names.
  unfold list_changed_files, catch, bind.
  destruct (succeeds w (name_only_cmd base) dir (Some t)) eqn:Hnames.
  - rewrite (subprocess_run_succeeds _ _ _ _ _ _ Hnames). cbn [stdout]. fold changed.
    clearbody changed. destruct changed as [| f fs']; [reflexivity |].
    destruct (succeeds w (name_status_cmd base (f :: fs')) dir (Some t)) eqn:Hstatus.
    + rewrite (subprocess_run_succeeds _ _ _ _ _ _ Hstatus). unfold ret. cbn [stdout].
      rewrite <- app_assoc. reflexivity.
    + destruct (subprocess_run_checked_fails w _ dir t
                  (log ++ [{| args := name_only_cmd base; cwd := dir; check := true;
                              timeout := Some t |}]) Hstatus) as [e He].
      rewrite He. unfold ret. rewrite <- app_assoc. reflexivity.
  - destruct (subprocess_run_checked_fails w _ dir t log Hnames) as [e He].
    rewrite He. reflexivity.
Qed.

Ltac cases_in H :=
  match type of H with
  | _ \/ _ => destruct H as [H | H]; [cases_in H | cases_in H]
  | _ => idtac
  end.

Section Calls.
Variables (w : world) (base : string) (include_diff : bool) (max_diff_lines : Z).
Variables (working_directory : option string) (command_timeout : Z).

Let dir : string := or_getcwd w (resolve_directory w working_directory).
Let out : report * list call :=
  analyze_file_changes w base include_diff max_diff_lines working_directory
    command_timeout.
Let changed : list string := changed_files_of (output_of w (name_only_cmd base) dir).

(** Every command of a run is one of these five, in the one directory. *)
Lemma analyze_calls_from (c : call) :
  c ∈ out.2 ->
  c = {| args := name_only_cmd base; cwd := dir; check := true;
         timeout := Some command_timeout |}
  \/ (succeeds w (name_only_cmd base) dir (Some command_timeout) = true
      /\ changed <> []
      /\ c = {| args := name_status_cmd base changed; cwd := dir; check := true;
                timeout := Some command_timeout |})
  \/ c = {| args := stat_cmd base; cwd := dir; check := false;
            timeout := Some command_timeout |}
  \/ (include_diff = true
      /\ c = {| args := diff_cmd base; cwd := dir; check := false;
                timeout := Some command_timeout |})
  \/ c = {| args := log_cmd base; cwd := dir; check := false; timeout := None |}.
Proof.
  subst out. unfold analyze_file_changes, analyze, bind. fold dir.
  pose proof (list_changed_files_exact w base dir command_timeout []) as Hexact.
  cbv zeta in Hexact. fold changed in Hexact. simpl app in Hexact.
  destruct (list_changed_files w base dir command_timeout []) as [[files | e] calls].
  2:{ exfalso. destruct (succeeds w (name_only_cmd base) dir (Some command_timeout));
        [destruct changed |]; discriminate. }
  assert (Hcalls : c ∈ calls ->
            c = {| args := name_only_cmd base; cwd := dir; check := true;
                   timeout := Some command_timeout |}
            \/ (succeeds w (name_only_cmd base) dir (Some command_timeout) = true
                /\ changed <> []
                /\ c = {| args := name_status_cmd base changed; cwd := dir;
                          check := true; timeout := Some command_timeout |})).
  { destruct (succeeds w (name_only_cmd base) dir (Some command_timeout)).
    - destruct changed as [| f fs'] eqn:Hc.
      + injection Hexact as _ ->. intros Hin.
        apply list_elem_of_singleton in Hin. left. exact Hin.
      + injection Hexact as _ ->. intros Hin.
        apply elem_of_cons in Hin as [-> | Hin]; [left; reflexivity |].
        apply list_elem_of_singleton in Hin. right. split; [reflexivity |].
        split; [discriminate | exact Hin].
    - injection Hexact as _ ->. intros Hin.
      apply list_elem_of_singleton in Hin. left. exact Hin. }
  clear Hexact.
  step_run.
  2:{ rewrite elem_of_app, list_elem_of_singleton. intros [Hin | ->]; [| tauto].
      destruct (Hcalls Hin) as [H | H]; tauto. }
  destruct include_diff.
  - step_run; [step_run |]; unfold ret; simpl;
      rewrite !elem_of_app, !list_elem_of_singleton;
      intros Hin; cases_in Hin; try (subst c; tauto);
      destruct (Hcalls Hin) as [H | H]; tauto.
  - unfold ret. step_run; unfold ret; simpl;
      rewrite !elem_of_app, !list_elem_of_singleton;
      intros Hin; cases_in Hin; try (subst c; tauto);
      destruct (Hcalls Hin) as [H | H]; tauto.
Qed.

End Calls.

(** X10. All the commands of one run are started in one directory: the
    [working_directory] given when it is not empty; the first root of
    the MCP session when none is given and the session names one; the
    current directory of the process otherwise, and also when the one
    given is the empty string, in which case the session is not asked. *)
Theorem X10_one_working_directory (w : world) (base : string) (include_diff : bool)
    (max_diff_lines : Z) (working_directory : option string) (command_timeout : Z) :
  let dir := or_getcwd w (resolve_directory w working_directory) in
  let out := analyze_file_changes w base include_diff max_diff_lines working_directory
               command_timeout in
  (forall c, c ∈ out.2 -> cwd c = dir)
  /\ (forall d, working_directory = Some d -> d <> EmptyString -> dir = d)
  /\ (working_directory = Some EmptyString -> dir = getcwd w)
  /\ (forall root, working_directory = None -> mcp_root w = Some root ->
        root <> EmptyString -> dir = root)
  /\ (working_directory = None -> mcp_root w = None -> dir = getcwd w).
Proof.
  intros dir out. split; [| split; [| split; [| split]]].
  - intros c Hc.
    destruct (analyze_calls_from w base include_diff max_diff_lines working_directory
                command_timeout c Hc) as [-> | [(_ & _ & ->) | [-> | [(_ & ->) | ->]]]];
      reflexivity.
  - intros d -> Hd. subst dir. unfold or_getcwd, resolve_directory, truthy.
    apply String.eqb_neq in Hd. rewrite Hd. reflexivity.
  - intros ->. reflexivity.
  - intros root -> Hroot Hne. subst dir. unfold or_getcwd, resolve_directory, truthy.
    rewrite Hroot. apply String.eqb_neq in Hne. rewrite Hne. reflexivity.
  - intros -> Hroot. subst dir. unfold or_getcwd, resolve_directory.
    rewrite Hroot. reflexivity.
Qed.

Lemma X10_one_working_directory_witness :
  mcp_root no_git = Some "/work"
  /\ (forall c, c ∈ (analyze_file_changes no_git "main" true 5000 None 180).2 ->
        cwd c = "/work")
  /\ (forall c, c ∈ (analyze_file_changes no_git "main" true 5000 (Some "") 180).2 ->
        cwd c = "/repo").
Proof.
  split; [reflexivity |]. split.
  - destruct (X10_one_working_directory no_git "main" true 5000 None 180)
      as (Hall & _ & _ & Hroot & _).
    intros c Hc. rewrite (Hall c Hc). apply Hroot; [reflexivity | reflexivity | discriminate].
  - destruct (X10_one_working_directory no_git "main" true 5000 (Some "") 180)
      as (Hall & _ & Hempty & _).
    intros c Hc. rewrite (Hall c Hc). apply Hempty. reflexivity.
Defined.

(** X11. No command line grows with the number of changed files beyond
    a bound: the query for the per-file status names at most the first
    100 of the listed files, so no command has more than 106 arguments,
    and it is run only when the query for the names succeeded and listed
    a name. *)
Theorem X11_status_query_names_at_most_100_files (w : world) (base : string)
    (include_diff : bool) (max_diff_lines : Z) (working_directory : option string)
    (command_timeout : Z) (c : call) :
  let dir := or_getcwd w (resolve_directory w working_directory) in
  let changed := changed_files_of (output_of w (name_only_cmd base) dir) in
  c ∈ (analyze_file_changes w base include_diff max_diff_lines working_directory
         command_timeout).2 ->
  (length (args c) <= 106)%nat
  /\ ((4 < length (args c))%nat ->
      args c = ["git"; "diff"; "--name-status"; "--no-renames"; base +:+ "..HEAD"; "--"]
                 ++ take 100 changed
      /\ changed <> []
      /\ succeeds w (name_only_cmd base) dir (Some command_timeout) = true).
Proof.
  intros dir changed Hc.
  assert (Hargs : name_status_cmd base changed
                  = ["git"; "diff"; "--name-status"; "--no-renames"; base +:+ "..HEAD"; "--"]
                      ++ take 100 changed).
  { unfold name_status_cmd. change 100 with (Z.of_nat 100). rewrite slice_to_pos.
    reflexivity. }
  destruct (analyze_calls_from w base include_diff max_diff_lines working_directory
              command_timeout c Hc) as [-> | [(Hok & Hne & ->) | [-> | [(_ & ->) | ->]]]];
    cbn [args].
  - split; [simpl; lia | intros H; simpl in H; lia].
  - fold dir in Hok. fold dir changed in Hne. fold dir. fold changed. rewrite Hargs.
    split.
    + rewrite length_app, length_take. cbn [length]. lia.
    + intros _. split; [reflexivity |]. split; assumption.
  - split; [simpl; lia | intros H; simpl in H; lia].
  - split; [simpl; lia | intros H; simpl in H; lia].
  - split; [simpl; lia | intros H; simpl in H; lia].
Qed.

Lemma X11_status_query_names_at_most_100_files_witness :
  let c := {| args := name_status_cmd "main"
                        (changed_files_of (output_of (repo []) (name_only_cmd "main") "/repo"));
              cwd := "/repo"; check := true; timeout := Some 180 |} in
  c ∈ (analyze_file_changes (repo []) "main" false 5000 None 180).2
  /\ (length (args c) <= 106)%nat.
Proof.
  intros c.
  assert (Hc : c ∈ (analyze_file_changes (repo []) "main" false 5000 None 180).2).
  { vm_compute. apply elem_of_cons. right. apply elem_of_cons. left. reflexivity. }
  split; [exact Hc |].
  apply (X11_status_query_names_at_most_100_files (repo []) "main" false 5000 None 180 c Hc).
Defined.

Lemma subprocess_run_stdout (w : world) (cmd : list string) (chk : bool) (dir : string)
    (limit : option Z) (log log' : list call) (c : completed) :
  subprocess_run w cmd chk dir limit log = (Return c, log') ->
  stdout c = output_of w cmd dir.
Proof.
  unfold subprocess_run, output_of. destruct (git w cmd dir) as [e | rt rc out err];
    [discriminate |].
  destruct limit as [t |].
  - destruct (t <? rt); [discriminate |].
    destruct (chk && negb (rc =? 0)); [discriminate |]. intros [= <- _]. reflexivity.
  - destruct (chk && negb (rc =? 0)); [discriminate |]. intros [= <- _]. reflexivity.
Qed.

(** What an analysis holds, field by field. *)
Lemma analysis_fields (w : world) (base : string) (include_diff : bool)
    (max_diff_lines : Z) (working_directory : option string) (command_timeout : Z)
    (a : analysis) :
  let dir := or_getcwd w (resolve_directory w working_directory) in
  (analyze_file_changes w base include_diff max_diff_lines working_directory
     command_timeout).1 = Analysis a ->
  base_branch a = base
  /\ statistics a = output_of w (stat_cmd base) dir
  /\ commits a = output_of w (log_cmd base) dir
  /\ (include_diff = true ->
      (diff a, truncated a, total_diff_lines a)
      = cut_diff max_diff_lines (output_of w (diff_cmd base) dir)).
Proof.
  intros dir. unfold analyze_file_changes, analyze, bind. fold dir.
  destruct (list_changed_files_returns w base dir command_timeout [])
    as (files & calls & Hfiles & _).
  rewrite Hfiles.
  destruct (subprocess_run w (stat_cmd base) false dir (Some command_timeout) ([] ++ calls))
    as [[st | e] log1] eqn:H1; [| discriminate].
  apply subprocess_run_stdout in H1.
  destruct include_diff.
  - destruct (subprocess_run w (diff_cmd base) false dir (Some command_timeout) log1)
      as [[df | e] log2] eqn:H2; [| discriminate].
    apply subprocess_run_stdout in H2. unfold ret.
    destruct (subprocess_run w (log_cmd base) false dir None log2)
      as [[lg | e] log3] eqn:H3; [| discriminate].
    apply subprocess_run_stdout in H3.
    intros [= <-]. simpl. rewrite H1, H2, H3.
    repeat split. intros _.
    destruct (cut_diff max_diff_lines (output_of w (diff_cmd base) dir)) as [[x y] z].
    reflexivity.
  - unfold ret.
    destruct (subprocess_run w (log_cmd base) false dir None log1)
      as [[lg | e] log3] eqn:H3; [| discriminate].
    apply subprocess_run_stdout in H3.
    intros [= <-]. simpl. rewrite H1, H3. repeat split. discriminate.
Qed.

(** X12. What the names query prints never reaches the result. In an
    analysis [files_changed] is what the status query printed when both
    listing queries succeeded and a name was listed; it is empty when
    the names query lists no name (blank lines count for nothing), and
    empty whenever one of the two did not succeed. *)
Theorem X12_files_changed_is_the_status_output (w : world) (base : string)
    (include_diff : bool) (max_diff_lines : Z) (working_directory : option string)
    (command_timeout : Z) (a : analysis) :
  let dir := or_getcwd w (resolve_directory w working_directory) in
  let changed := changed_files_of (output_of w (name_only_cmd base) dir) in
  (analyze_file_changes w base include_diff max_diff_lines working_directory
     command_timeout).1 = Analysis a ->
  (succeeds w (name_only_cmd base) dir (Some command_timeout) = true ->
   changed <> [] ->
   succeeds w (name_status_cmd base changed) dir (Some command_timeout) = true ->
   files_changed a = output_of w (name_status_cmd base changed) dir)
  /\ (changed = [] -> files_changed a = EmptyString)
  /\ (succeeds w (name_only_cmd base) dir (Some command_timeout) = false ->
      files_changed a = EmptyString)
  /\ (succeeds w (name_status_cmd base changed) dir (Some command_timeout) = false ->
      files_changed a = EmptyString).
Proof.
  intros dir changed Ha.
  pose proof (list_changed_files_exact w base dir command_timeout []) as Hexact.
  cbv zeta in Hexact. fold changed in Hexact.
  assert (Hfiles : forall files calls,
            list_changed_files w base dir command_timeout [] = (Return files, calls) ->
            files_changed a = files).
  { intros files calls Hstep.
    exact (analyze_files_changed w base include_diff max_diff_lines working_directory
             command_timeout files calls a Hstep Ha). }
  destruct (succeeds w (name_only_cmd base) dir (Some command_timeout)) eqn:Hnames.
  - destruct changed as [| f fs'] eqn:Hchanged.
    + pose proof (Hfiles _ _ Hexact) as ->.
      repeat split; intros; first [reflexivity | congruence].
    + rewrite <- Hchanged in *.
      destruct (succeeds w (name_status_cmd base changed) dir (Some command_timeout))
        eqn:Hstatus; pose proof (Hfiles _ _ Hexact) as ->;
        repeat split; intros; first [reflexivity | congruence].
  - pose proof (Hfiles _ _ Hexact) as ->.
    repeat split; intros; first [reflexivity | congruence].
Qed.

Lemma X12_files_changed_is_the_status_output_witness :
  changed_files_of (output_of nothing_changed (name_only_cmd "main") "/repo") = []
  /\ exists a,
       (analyze_file_changes nothing_changed "main" false 5000 None 180).1 = Analysis a
       /\ files_changed a = EmptyString.
Proof.
  split; [reflexivity |].
  assert (Ha : exists a,
            (analyze_file_changes nothing_changed "main" false 5000 None 180).1
            = Analysis a) by (eexists; reflexivity).
  destruct Ha as [a Ha]. exists a. split; [exact Ha |].
  destruct (X12_files_changed_is_the_status_output nothing_changed "main" false 5000
              None 180 a Ha) as (_ & Hempty & _).
  apply Hempty. reflexivity.
Defined.

(** ** Change analysis: failures *)

(** X13. When the statistics query cannot be started the operation
    ends there with the failure result of its kind: "Git not found" for
    a missing program, "Permission denied" with the file name (or
    [None]) in the detail, and for anything else "Unexpected" followed
    by the type of the exception, its text as detail and the call's
    branch, directory and options as context. Neither the full diff nor
    the commit list is asked for afterwards. *)
Theorem X13_failure_to_start_is_classified (w : world) (base : string)
    (include_diff : bool) (max_diff_lines : Z) (working_directory : option string)
    (command_timeout : Z) (e : spawn_error) :
  let dir := or_getcwd w (resolve_directory w working_directory) in
  let out := analyze_file_changes w base include_diff max_diff_lines working_directory
               command_timeout in
  git w (stat_cmd base) dir = CannotStart e ->
  (exists f,
     out.1 = Failure f
     /\ match e with
        | NotFound => error f = "Git not found"
        | Denied filename =>
            error f = "Permission denied"
            /\ details f = "Permission denied when accessing " +:+ default "None" filename
        | Failed type_name msg =>
            error f = "Unexpected " +:+ type_name
            /\ details f = msg
            /\ extra f = Context base dir include_diff max_diff_lines
        end)
  /\ (forall c, c ∈ out.2 -> args c <> diff_cmd base /\ args c <> log_cmd base).
Proof.
  intros dir out Hstat.
  destruct (list_changed_files_returns w base dir command_timeout [])
    as (files & calls & Hfiles & Hcalls).
  assert (Hrun : forall log,
            subprocess_run w (stat_cmd base) false dir (Some command_timeout) log
            = (Raise (exn_of_spawn_error e),
               log ++ [{| args := stat_cmd base; cwd := dir; check := false;
                          timeout := Some command_timeout |}])).
  { intros log. unfold subprocess_run. rewrite Hstat. reflexivity. }
  assert (Hout : out
                 = (Failure (report_failure w base include_diff max_diff_lines
                               (resolve_directory w working_directory)
                               (exn_of_spawn_error e)),
                    ([] ++ calls)
                      ++ [{| args := stat_cmd base; cwd := dir; check := false;
                             timeout := Some command_timeout |}])).
  { subst out. unfold analyze_file_changes, analyze, bind. fold dir.
    rewrite Hfiles, Hrun. reflexivity. }
  split.
  - rewrite Hout. eexists. split; [reflexivity |].
    destruct e; simpl; repeat split; reflexivity.
  - intros c Hc. pose proof Hc as Hc'. rewrite Hout in Hc'. simpl in Hc'.
    apply elem_of_app in Hc' as [Hl | Hs].
    + rewrite Forall_forall in Hcalls. destruct (Hcalls c Hl) as (Ht & Hd & _).
      split; [exact Hd |]. intros Heq.
      destruct (analyze_calls_from w base include_diff max_diff_lines working_directory
                  command_timeout c Hc) as [-> | [(_ & _ & ->) | [-> | [(_ & ->) | ->]]]];
        simpl in Heq, Ht; try (inversion Heq; fail); discriminate.
    + apply list_elem_of_singleton in Hs. subst c. simpl.
      split; intros H; inversion H.
Qed.

Lemma X13_failure_to_start_is_classified_witness :
  git mock_raises (stat_cmd "main") "/repo" = CannotStart (Failed "Exception" "Git not found")
  /\ exists f,
       (analyze_file_changes mock_raises "main" true 5000 None 180).1 = Failure f
       /\ error f = "Unexpected Exception"
       /\ details f = "Git not found".
Proof.
  split; [reflexivity |].
  destruct (X13_failure_to_start_is_classified mock_raises "main" true 5000 None 180
              (Failed "Exception" "Git not found") eq_refl)
    as ((f & Hf & Herror & Hdetails & _) & _).
  exists f. split; [exact Hf |]. split; [exact Herror | exact Hdetails].
Defined.

Lemma not_unchecked_name_only (base : string) : ~ unchecked base (name_only_cmd base).
Proof. intros [H | [H | H]]; inversion H. Qed.

Lemma not_unchecked_name_status (base : string) (changed : list string) :
  ~ unchecked base (name_status_cmd base changed).
Proof. intros [H | [H | H]]; inversion H. Qed.

Lemma list_changed_files_unchecked (base : string) (w w' : world) (dir : string) (t : Z)
    (log : list call) :
  same_but_unchecked_status base w w' ->
  list_changed_files w' base dir t log = list_changed_files w base dir t log.
Proof.
  intros (_ & Hgit & _ & _). unfold list_changed_files, catch, bind.
  unfold subprocess_run at 1 3.
  rewrite (Hgit _ dir (not_unchecked_name_only base)).
  destruct (git w (name_only_cmd base) dir) as [e | rt rc out err]; [reflexivity |].
  destruct (t <? rt); [reflexivity |].
  destruct (true && negb (rc =? 0)); [reflexivity |]. cbn [stdout].
  destruct (changed_files_of out) as [| f fs']; [reflexivity |].
  unfold subprocess_run. rewrite (Hgit _ dir (not_unchecked_name_status base _)).
  reflexivity.
Qed.

(** An unchecked command gives the same outcome in both worlds, up to
    the exit status and the error text of the completed process. *)
Lemma subprocess_run_unchecked (base : string) (w w' : world) (cmd : list string)
    (dir : string) (limit : option Z) (log : list call) :
  same_but_unchecked_status base w w' ->
  unchecked base cmd ->
  match subprocess_run w cmd false dir limit log,
        subprocess_run w' cmd false dir limit log with
  | (Return c, l), (Return c', l') => stdout c = stdout c' /\ l = l'
  | (Raise e, l), (Raise e', l') => e = e' /\ l = l'
  | _, _ => False
  end.
Proof.
  intros (Hrun & _ & _ & _) Hcmd. specialize (Hrun cmd dir Hcmd).
  unfold subprocess_run, same_run in *.
  destruct (git w cmd dir) as [e | rt rc out err];
    destruct (git w' cmd dir) as [e' | rt' rc' out' err']; try contradiction.
  - subst e'. split; reflexivity.
  - destruct Hrun as [<- <-]. simpl.
    destruct limit as [t |]; [destruct (t <? rt) |]; split; reflexivity.
Qed.

(** X14. The exit status of the statistics, full-diff and commit-list
    queries, and what they write to their error stream, never reach the
    result: two runs that differ in nothing else return the same result
    after the same commands. In particular no run returns the failure
    "Git command execution failed". *)
Theorem X14_unchecked_exit_status_is_ignored (w w' : world) (base : string)
    (include_diff : bool) (max_diff_lines : Z) (working_directory : option string)
    (command_timeout : Z) :
  same_but_unchecked_status base w w' ->
  analyze_file_changes w' base include_diff max_diff_lines working_directory command_timeout
  = analyze_file_changes w base include_diff max_diff_lines working_directory
      command_timeout
  /\ (forall f,
        (analyze_file_changes w base include_diff max_diff_lines working_directory
           command_timeout).1 = Failure f ->
        error f <> "Git command execution failed").
Proof.
  intros Hsame. split; [| apply analyze_never_reports_exit_status].
  pose proof Hsame as (_ & _ & Hroot & Hcwd).
  assert (Hres : resolve_directory w' working_directory
                 = resolve_directory w working_directory).
  { unfold resolve_directory. rewrite Hroot. reflexivity. }
  assert (Hdir : or_getcwd w' (resolve_directory w' working_directory)
                 = or_getcwd w (resolve_directory w working_directory)).
  { rewrite Hres. unfold or_getcwd. rewrite Hcwd. reflexivity. }
  unfold analyze_file_changes, analyze, bind. rewrite Hdir, Hres.
  set (dir := or_getcwd w (resolve_directory w working_directory)).
  rewrite (list_changed_files_unchecked base w w') by exact Hsame.
  destruct (list_changed_files w base dir command_timeout []) as [[files | e] log1];
    [| rewrite (report_failure_same base w w') by exact Hcwd; reflexivity].
  pose proof (subprocess_run_unchecked base w w' (stat_cmd base) dir
                (Some command_timeout) log1 Hsame (or_introl eq_refl)) as Hstat.
  destruct (subprocess_run w (stat_cmd base) false dir (Some command_timeout) log1)
    as [[st | e] log2];
    destruct (subprocess_run w' (stat_cmd base) false dir (Some command_timeout) log1)
    as [[st' | e'] log2']; try contradiction; destruct Hstat as [Hst <-].
  2:{ subst e'. rewrite (report_failure_same base w w') by exact Hcwd. reflexivity. }
  rewrite <- Hst. clear Hst st'.
  destruct include_diff.
  - pose proof (subprocess_run_unchecked base w w' (diff_cmd base) dir
                  (Some command_timeout) log2 Hsame (or_intror (or_introl eq_refl)))
      as Hdiff.
    destruct (subprocess_run w (diff_cmd base) false dir (Some command_timeout) log2)
      as [[df | e] log3];
      destruct (subprocess_run w' (diff_cmd base) false dir (Some command_timeout) log2)
      as [[df' | e'] log3']; try contradiction; destruct Hdiff as [Hdf <-].
    2:{ subst e'. rewrite (report_failure_same base w w') by exact Hcwd. reflexivity. }
    unfold ret. rewrite <- Hdf. clear Hdf df'.
    pose proof (subprocess_run_unchecked base w w' (log_cmd base) dir None log3 Hsame
                  (or_intror (or_intror eq_refl))) as Hlog.
    destruct (subprocess_run w (log_cmd base) false dir None log3) as [[lg | e] log4];
      destruct (subprocess_run w' (log_cmd base) false dir None log3)
      as [[lg' | e'] log4']; try contradiction; destruct Hlog as [Hlg <-].
    + rewrite <- Hlg. reflexivity.
    + subst e'. rewrite (report_failure_same base w w') by exact Hcwd. reflexivity.
  - unfold ret.
    pose proof (subprocess_run_unchecked base w w' (log_cmd base) dir None log2 Hsame
                  (or_intror (or_intror eq_refl))) as Hlog.
    destruct (subprocess_run w (log_cmd base) false dir None log2) as [[lg | e] log4];
      destruct (subprocess_run w' (log_cmd base) false dir None log2)
      as [[lg' | e'] log4']; try contradiction; destruct Hlog as [Hlg <-].
    + rewrite <- Hlg. reflexivity.
    + subst e'. rewrite (report_failure_same base w w') by exact Hcwd. reflexivity.
Qed.

Lemma X14_unchecked_exit_status_is_ignored_witness :
  same_but_unchecked_status "main" (repo []) grumbling
  /\ analyze_file_changes grumbling "main" true 5000 None 180
     = analyze_file_changes (repo []) "main" true 5000 None 180.
Proof.
  assert (Hsame : same_but_unchecked_status "main" (repo []) grumbling).
  { split; [| split; [| split; reflexivity]].
    - intros cmd dir [-> | [-> | ->]]; split; reflexivity.
    - intros cmd dir Hcmd. unfold grumbling, repo. simpl.
      repeat case_bool_decide; try reflexivity;
        exfalso; apply Hcmd; unfold unchecked; subst cmd; tauto. }
  split; [exact Hsame |].
  apply (X14_unchecked_exit_status_is_ignored (repo []) grumbling "main" true 5000 None 180),
    Hsame.
Defined.

(** ** Change analysis: the diff text *)

Lemma split_not_nil (sep : ascii) (s : string) : split sep s <> [].
Proof.
  destruct s as [| c s]; simpl; [discriminate |].
  destruct (Ascii.eqb c sep); [discriminate |].
  destruct (split sep s); discriminate.
Qed.

Lemma join_cons_char (sep : string) (c : ascii) (p : string) (ps : list string) :
  join sep (String c p :: ps) = String c (join sep (p :: ps)).
Proof. destruct ps; reflexivity. Qed.

(** Joining the pieces of a split with the separator gives the text
    back. *)
Lemma join_split (s : string) : join nl (split LF s) = s.
Proof.
  induction s as [| c s IH]; [reflexivity |]. simpl.
  destruct (Ascii.eqb_spec c LF) as [-> | Hc].
  - pose proof (split_not_nil LF s) as Hne.
    destruct (split LF s) as [| p ps] eqn:Hsplit; [congruence |].
    change (join nl (EmptyString :: p :: ps)) with (nl +:+ join nl (p :: ps)).
    rewrite IH. reflexivity.
  - pose proof (split_not_nil LF s) as Hne.
    destruct (split LF s) as [| p ps] eqn:Hsplit; [congruence |].
    rewrite join_cons_char, IH. reflexivity.
Qed.

Lemma split_one_line_pieces (s : string) :
  Forall (fun p => one_line p = true) (split LF s).
Proof.
  induction s as [| c s IH]; simpl; [repeat constructor |].
  destruct (Ascii.eqb c LF) eqn:Hc.
  - constructor; [reflexivity | exact IH].
  - destruct (split LF s) as [| p ps]; [repeat constructor; simpl; rewrite Hc; reflexivity |].
    apply Forall_cons in IH as [Hp Hps]. constructor; [| exact Hps].
    simpl. rewrite Hc, Hp. reflexivity.
Qed.

Lemma split_one_line (p : string) : one_line p = true -> split LF p = [p].
Proof.
  induction p as [| c p IH]; simpl; [reflexivity |].
  intros [Hc Hp]%andb_prop. apply negb_true_iff in Hc. rewrite Hc, (IH Hp). reflexivity.
Qed.

(** Splitting what was joined gives the pieces back, when no piece
    holds a line feed. *)
Lemma split_join (ps : list string) :
  ps <> [] ->
  Forall (fun p => one_line p = true) ps ->
  split LF (join nl ps) = ps.
Proof.
  induction ps as [| p ps IH]; [congruence |]. intros _ Hall.
  apply Forall_cons in Hall as [Hp Hps].
  destruct ps as [| q ps].
  - simpl. apply split_one_line, Hp.
  - change (join nl (p :: q :: ps)) with (p +:+ nl +:+ join nl (q :: ps)).
    rewrite split_line by exact Hp. rewrite IH by (try discriminate; exact Hps).
    reflexivity.
Qed.

Lemma string_app_assoc (a b c : string) : (a +:+ b) +:+ c = a +:+ b +:+ c.
Proof.
  induction a as [| x a IH]; [reflexivity |].
  change (String x ((a +:+ b) +:+ c) = String x (a +:+ b +:+ c)).
  rewrite IH. reflexivity.
Qed.

Lemma join_app (a b : list string) :
  a <> [] -> b <> [] -> join nl (a ++ b) = join nl a +:+ nl +:+ join nl b.
Proof.
  intros Ha Hb. induction a as [| p a IH]; [congruence |].
  destruct a as [| q a].
  - destruct b as [| r b]; [congruence |]. reflexivity.
  - change (join nl ((p :: q :: a) ++ b)) with (p +:+ nl +:+ join nl ((q :: a) ++ b)).
    rewrite IH by discriminate.
    change (join nl (p :: q :: a)) with (p +:+ nl +:+ join nl (q :: a)).
    rewrite !string_app_assoc. reflexivity.
Qed.

(** X15. When the diff is asked for and an analysis comes back,
    [total_diff_lines] is at least 1, and it is 1 for an empty diff;
    [truncated] says exactly that [total_diff_lines] exceeds
    [max_diff_lines]; and a diff that is not truncated is, character for
    character, what the full-diff query printed. *)
Theorem X15_untruncated_diff_is_verbatim (w : world) (base : string)
    (max_diff_lines : Z) (working_directory : option string) (command_timeout : Z)
    (a : analysis) :
  let dir := or_getcwd w (resolve_directory w working_directory) in
  (analyze_file_changes w base true max_diff_lines working_directory command_timeout).1
  = Analysis a ->
  1 <= total_diff_lines a
  /\ (truncated a = true <-> max_diff_lines < total_diff_lines a)
  /\ (truncated a = false -> diff a = output_of w (diff_cmd base) dir)
  /\ (output_of w (diff_cmd base) dir = EmptyString -> total_diff_lines a = 1).
Proof.
  intros dir Ha.
  destruct (analysis_fields w base true max_diff_lines working_directory command_timeout
              a Ha) as (_ & _ & _ & Hcut).
  specialize (Hcut eq_refl). fold dir in Hcut. unfold cut_diff in Hcut.
  pose proof (split_not_nil LF (output_of w (diff_cmd base) dir)) as Hne.
  set (pieces := split LF (output_of w (diff_cmd base) dir)) in *.
  assert (Hcount : 1 <= Z.of_nat (length pieces)).
  { destruct pieces; [congruence | simpl; lia]. }
  destruct (Z.ltb_spec max_diff_lines (Z.of_nat (length pieces))) as [Hlt | Hge];
    injection Hcut as Hdiff Htrunc Htotal; rewrite Htrunc, Htotal.
  - split; [exact Hcount |]. split; [tauto |]. split; [discriminate |].
    intros Hempty. subst pieces. rewrite Hempty. reflexivity.
  - split; [exact Hcount |]. split; [split; [discriminate | lia] |].
    split; [intros _; exact Hdiff |].
    intros Hempty. subst pieces. rewrite Hempty. reflexivity.
Qed.

Lemma X15_untruncated_diff_is_verbatim_witness :
  exists a,
    (analyze_file_changes seven_line_diff "main" true 8 None 180).1 = Analysis a
    /\ truncated a = false
    /\ diff a = unlines small_diff.
Proof.
  assert (Ha : exists a,
            (analyze_file_changes seven_line_diff "main" true 8 None 180).1 = Analysis a)
    by (eexists; reflexivity).
  destruct Ha as [a Ha]. exists a. split; [exact Ha |].
  destruct (X15_untruncated_diff_is_verbatim seven_line_diff "main" 8 None 180 a Ha)
    as (_ & Htrunc & Hwhole & _).
  assert (Hfalse : truncated a = false).
  { injection Ha as <-. reflexivity. }
  split; [exact Hfalse |]. rewrite (Hwhole Hfalse). reflexivity.
Defined.

(** X16. A cut diff starts with a beginning of the original text: for
    [0 <= max_diff_lines] below the number of pieces, the text returned
    is a prefix of the original followed by the notice, and (for a limit
    of at least 1) that prefix splits into exactly the first
    [max_diff_lines] pieces of the original. *)
Theorem X16_cut_diff_keeps_a_prefix (max_diff_lines : Z) (text : string) :
  0 <= max_diff_lines ->
  max_diff_lines < Z.of_nat (length (split LF text)) ->
  exists kept rest,
    cut_diff max_diff_lines text
    = (kept +:+ notice max_diff_lines (Z.of_nat (length (split LF text))),
       true, Z.of_nat (length (split LF text)))
    /\ text = kept +:+ rest
    /\ (1 <= max_diff_lines ->
        split LF kept = take (Z.to_nat max_diff_lines) (split LF text))
    /\ (max_diff_lines = 0 -> kept = EmptyString).
Proof.
  intros Hmax Hlt.
  destruct (cut_diff_pieces max_diff_lines text Hmax) as [Hcut _].
  specialize (Hcut Hlt).
  set (pieces := split LF text) in *. set (k := Z.to_nat max_diff_lines).
  exists (join nl (take k pieces)).
  destruct (decide (k = 0%nat)) as [Hk | Hk].
  - exists text. split; [exact Hcut |]. rewrite Hk. simpl.
    split; [reflexivity |]. split; [lia | reflexivity].
  - exists (nl +:+ join nl (drop k pieces)).
    split; [exact Hcut |].
    assert (Htake : take k pieces <> []).
    { intros Hnil. apply (f_equal length) in Hnil. rewrite length_take in Hnil.
      simpl in Hnil. lia. }
    assert (Hdrop : drop k pieces <> []).
    { intros Hnil. apply (f_equal length) in Hnil. rewrite length_drop in Hnil.
      simpl in Hnil. lia. }
    split; [| split; [| lia]].
    + rewrite <- (join_app _ _ Htake Hdrop), take_drop. subst pieces.
      symmetry. apply join_split.
    + intros _. apply split_join; [exact Htake |].
      apply Forall_take. subst pieces. apply split_one_line_pieces.
Qed.

Lemma X16_cut_diff_keeps_a_prefix_witness :
  exists kept rest,
    cut_diff 2 (unlines small_diff) = (kept +:+ notice 2 8, true, 8)
    /\ unlines small_diff = kept +:+ rest
    /\ split LF kept = ["diff --git a/f b/f"; "index 7898192..6178079 100644"].
Proof.
  destruct (X16_cut_diff_keeps_a_prefix 2 (unlines small_diff))
    as (kept & rest & Hcut & Htext & Hsplit & _); [lia | vm_compute; reflexivity |].
  exists kept, rest. split; [exact Hcut |]. split; [exact Htext |].
  rewrite Hsplit by lia. reflexivity.
Defined.

(** X17. A [max_diff_lines] below 1 never lets the diff through whole.
    With 0 every diff, the empty one too, is reported as truncated and
    only the notice is returned; with a negative number the diff is
    reported as truncated and the text returned is the original without
    its last [- max_diff_lines] pieces, followed by the notice. *)
Theorem X17_limit_below_one_always_truncates (max_diff_lines : Z) (text : string) :
  max_diff_lines <= 0 ->
  let pieces := split LF text in
  let count := Z.of_nat (length pieces) in
  (cut_diff max_diff_lines text).1.2 = true
  /\ (cut_diff max_diff_lines text).2 = count
  /\ (max_diff_lines = 0 ->
      (cut_diff max_diff_lines text).1.1 = notice 0 count)
  /\ (max_diff_lines < 0 ->
      (cut_diff max_diff_lines text).1.1
      = join nl (take (length pieces - Z.to_nat (- max_diff_lines)) pieces)
          +:+ notice max_diff_lines count).
Proof.
  intros Hmax pieces count.
  pose proof (split_not_nil LF text) as Hne.
  assert (Hcount : 1 <= count).
  { subst count pieces. destruct (split LF text); [congruence | simpl; lia]. }
  unfold cut_diff. fold pieces. fold count.
  destruct (Z.ltb_spec max_diff_lines count) as [_ | Hge]; [| lia]. simpl.
  split; [reflexivity |]. split; [reflexivity |]. split.
  - intros ->. unfold slice_to. simpl. fold count.
    replace (Z.to_nat (Z.min 0 count)) with 0%nat by lia. reflexivity.
  - intros Hneg. unfold slice_to. fold count.
    destruct (Z.ltb_spec max_diff_lines 0) as [_ | Hnn]; [| lia].
    replace (Z.to_nat (Z.max (max_diff_lines + count) 0))
      with (length pieces - Z.to_nat (- max_diff_lines))%nat by (subst count; lia).
    reflexivity.
Qed.

Lemma X17_limit_below_one_always_truncates_witness :
  cut_diff 0 EmptyString = (notice 0 1, true, 1)
  /\ (cut_diff (-6) (unlines small_diff)).1.1
     = join nl ["diff --git a/f b/f"; "index 7898192..6178079 100644"] +:+ notice (-6) 8.
Proof.
  destruct (X17_limit_below_one_always_truncates 0 EmptyString) as (_ & _ & Hzero & _);
    [lia |].
  destruct (X17_limit_below_one_always_truncates (-6) (unlines small_diff))
    as (_ & _ & _ & Hneg); [lia |].
  split; [reflexivity |]. rewrite Hneg by lia. reflexivity.
Defined.

(** X18. The line feed that ends the last line is counted as a line: when
    the full-diff query prints [k] lines, each ended by a line feed, an
    analysis reports [k + 1] as [total_diff_lines], and reports the diff
    as truncated when [max_diff_lines] is [k]. *)
Theorem X18_last_line_feed_is_counted (w : world) (base : string) (max_diff_lines : Z)
    (working_directory : option string) (command_timeout : Z) (ls : list string)
    (a : analysis) :
  let dir := or_getcwd w (resolve_directory w working_directory) in
  Forall (fun l => one_line l = true) ls ->
  output_of w (diff_cmd base) dir = unlines ls ->
  (analyze_file_changes w base true max_diff_lines working_directory command_timeout).1
  = Analysis a ->
  total_diff_lines a = Z.of_nat (length ls) + 1
  /\ (max_diff_lines = Z.of_nat (length ls) -> truncated a = true).
Proof.
  intros dir Hls Hout Ha.
  destruct (analysis_fields w base true max_diff_lines working_directory command_timeout
              a Ha) as (_ & _ & _ & Hcut).
  specialize (Hcut eq_refl). fold dir in Hcut. rewrite Hout in Hcut.
  destruct (cut_diff_counts_last_line_feed ls max_diff_lines Hls) as [Hcount Htrunc].
  rewrite <- Hcut in Hcount, Htrunc. simpl in Hcount, Htrunc. split; assumption.
Qed.

Lemma X18_last_line_feed_is_counted_witness :
  Forall (fun l => one_line l = true) small_diff
  /\ exists a,
       (analyze_file_changes seven_line_diff "main" true 5000 None 180).1 = Analysis a
       /\ total_diff_lines a = 8.
Proof.
  assert (Hls : Forall (fun l => one_line l = true) small_diff)
    by (repeat constructor).
  split; [exact Hls |].
  assert (Ha : exists a,
            (analyze_file_changes seven_line_diff "main" true 5000 None 180).1
            = Analysis a) by (eexists; reflexivity).
  destruct Ha as [a Ha]. exists a. split; [exact Ha |].
  destruct (X18_last_line_feed_is_counted seven_line_diff "main" 5000 None 180 small_diff
              a Hls eq_refl Ha) as [Hcount _].
  exact Hcount.
Defined.

(** ** The template catalog *)

Lemma load_names (files : gmap string string) :
  map filename (load_templates files) = present files.
Proof.
  unfold load_templates, present, default_names.
  induction DEFAULT_TEMPLATES as [| [n ty] l IH]; [reflexivity |].
  csimpl. rewrite filter_cons. simpl.
  destruct (files !! n) as [text |] eqn:Hn; simpl.
  - destruct (decide (is_Some (Some text))) as [_ | Hno];
      [| exfalso; apply Hno; eexists; reflexivity].
    simpl. rewrite IH. reflexivity.
  - destruct (decide (is_Some (@None string))) as [[x Hx] | _]; [discriminate |].
    exact IH.
Qed.

Lemma load_entries (files : gmap string string) :
  Forall (fun t => files !! filename t = Some (content t)
                   /\ (filename t, type t) ∈ DEFAULT_TEMPLATES)
         (load_templates files).
Proof.
  apply Forall_forall. intros t Ht. unfold load_templates in Ht.
  apply list_elem_of_omap in Ht as ([n ty] & Hin & Hsome). simpl in Hsome.
  destruct (files !! n) as [text |] eqn:Hn; simpl in Hsome; [| discriminate].
  injection Hsome as <-. simpl. split; [exact Hn | exact Hin].
Qed.

Lemma NoDup_default_names : NoDup default_names.
Proof. apply (bool_decide_unpack _). vm_compute. exact I. Qed.

Lemma present_nil (files : gmap string string) :
  present files = [] <-> forall n, n ∈ default_names -> files !! n = None.
Proof.
  unfold present. split.
  - intros Hnil n Hn. destruct (files !! n) as [text |] eqn:Hlook; [| reflexivity].
    assert (Hin : n ∈ filter (fun n => is_Some (files !! n)) default_names).
    { apply list_elem_of_filter. split; [rewrite Hlook; eexists; reflexivity | exact Hn]. }
    rewrite Hnil in Hin. apply elem_of_nil in Hin. contradiction.
  - intros Hnone. induction default_names as [| n l IH]; [reflexivity |].
    rewrite filter_cons.
    destruct (decide (is_Some (files !! n))) as [[x Hx] | _].
    + rewrite Hnone in Hx by left. discriminate.
    + apply IH. intros m Hm. apply Hnone. right. exact Hm.
Qed.

Lemma load_templates_agree (files files' : gmap string string) :
  (forall n, n ∈ default_names -> files' !! n = files !! n) ->
  load_templates files' = load_templates files.
Proof.
  unfold load_templates, default_names.
  induction DEFAULT_TEMPLATES as [| [n ty] l IH]; intros Hsame; [reflexivity |].
  csimpl. rewrite (Hsame n) by left.
  rewrite IH; [reflexivity |]. intros m Hm. apply Hsame. right. exact Hm.
Qed.

(** X19. What [get_pr_templates] lists is decided by the default file
    names alone. When it answers with templates, the listing is not
    empty, its file names are the default names present and readable in
    the directory, once each and in the order of [DEFAULT_TEMPLATES], and
    each entry carries the text of its file and the type the table gives
    its name. It answers "No templates could be loaded" exactly when
    none of the default names is in the directory. Files of other names
    change nothing. *)
Theorem X19_catalog_lists_the_default_files (files files' : gmap string string) :
  match get_pr_templates (Directory files) with
  | TemplatesOk templates =>
      templates <> []
      /\ map filename templates = present files
      /\ NoDup (map filename templates)
      /\ Forall (fun t => files !! filename t = Some (content t)
                          /\ (filename t, type t) ∈ DEFAULT_TEMPLATES) templates
  | TemplatesError e =>
      e = NoTemplatesLoaded /\ forall n, n ∈ default_names -> files !! n = None
  end
  /\ ((forall n, n ∈ default_names -> files' !! n = files !! n) ->
      get_pr_templates (Directory files') = get_pr_templates (Directory files)).
Proof.
  split.
  - unfold get_pr_templates.
    pose proof (load_names files) as Hnames. pose proof (load_entries files) as Hentries.
    destruct (load_templates files) as [| first rest] eqn:Hload.
    + split; [reflexivity |]. apply present_nil. symmetry. exact Hnames.
    + split; [discriminate |]. split; [exact Hnames |]. split; [| exact Hentries].
      rewrite Hnames. unfold present. apply NoDup_filter, NoDup_default_names.
  - intros Hsame. unfold get_pr_templates.
    rewrite (load_templates_agree files files' Hsame). reflexivity.
Qed.

Lemma X19_catalog_lists_the_default_files_witness :
  get_pr_templates
    (Directory (list_to_map [("notes.md", "## Notes"); ("docs.md", "## Documentation");
                             ("bug.md", "## Bug Fix")]))
  = get_pr_templates no_feature_template
  /\ exists templates,
       get_pr_templates no_feature_template = TemplatesOk templates
       /\ map filename templates = ["bug.md"; "docs.md"].
Proof.
  destruct (X19_catalog_lists_the_default_files
              (list_to_map [("docs.md", "## Documentation"); ("bug.md", "## Bug Fix")])
              (list_to_map [("notes.md", "## Notes"); ("docs.md", "## Documentation");
                            ("bug.md", "## Bug Fix")])) as [_ Hsame].
  split.
  - apply Hsame. intros n Hn. unfold default_names in Hn. simpl in Hn.
    repeat (apply elem_of_cons in Hn as [-> | Hn]; [reflexivity |]).
    apply elem_of_nil in Hn. contradiction.
  - eexists. split; reflexivity.
Defined.

Lemma select_default (change_type : string) : select change_type ∈ default_names.
Proof.
  unfold select.
  destruct (TYPE_MAPPING !! lower change_type) as [file |] eqn:Hlook; simpl.
  - unfold TYPE_MAPPING in Hlook. apply elem_of_list_to_map_2 in Hlook.
    repeat (apply elem_of_cons in Hlook as [Heq | Hlook];
            [injection Heq as _ ->; apply (bool_decide_unpack _); vm_compute; exact I |]).
    apply elem_of_nil in Hlook. contradiction.
  - apply (bool_decide_unpack _). vm_compute. exact I.
Qed.

(** X20. [suggest_template] never answers "No templates available": a
    catalog without templates is already answered with the catalog's
    own error. It answers with a suggestion exactly when one of the
    default files is in the directory, and the template it recommends is
    then one of the default templates, with the type of the table and
    with the text of its file in the directory as [template_content]. *)
Theorem X20_suggestion_comes_from_the_directory (changes_summary change_type : string)
    (dir : templates_dir) :
  suggest_template changes_summary change_type dir <> NoTemplatesAvailable
  /\ ((exists s, suggest_template changes_summary change_type dir = Suggested s)
      <-> exists files, dir = Directory files /\ present files <> [])
  /\ (forall s, suggest_template changes_summary change_type dir = Suggested s ->
        exists files,
          dir = Directory files
          /\ files !! filename (recommended_template s) = Some (template_content s)
          /\ (filename (recommended_template s), type (recommended_template s))
             ∈ DEFAULT_TEMPLATES).
Proof.
  unfold suggest_template, get_pr_templates.
  destruct dir as [| files].
  - split; [discriminate |]. split.
    + split; [intros [s Hs]; discriminate | intros (files & Hdir & _); discriminate].
    + intros s Hs. discriminate.
  - pose proof (load_names files) as Hnames. pose proof (load_entries files) as Hentries.
    destruct (load_templates files) as [| first rest] eqn:Hload.
    + split; [discriminate |]. split.
      * split; [intros [s Hs]; discriminate |].
        intros (files0 & Hdir & Hne). injection Hdir as <-.
        exfalso. apply Hne. symmetry. exact Hnames.
      * intros s Hs. discriminate.
    + split; [discriminate |]. split.
      * split; [| intros _; eexists; reflexivity].
        intros _. exists files. split; [reflexivity |]. rewrite <- Hnames. discriminate.
      * intros s Hs. injection Hs as <-. simpl. exists files. split; [reflexivity |].
        assert (Hin : resolve (select change_type) first (first :: rest) ∈ first :: rest).
        { unfold resolve. destruct (List.find _ (first :: rest)) as [found |] eqn:Hfind.
          - apply List.find_some in Hfind as [Hfound _]. apply list_elem_of_In, Hfound.
          - left. }
        exact (proj1 (Forall_forall _ _) Hentries _ Hin).
Qed.

Lemma X20_suggestion_comes_from_the_directory_witness :
  exists s,
    suggest_template "tidy up" "Chore" no_feature_template = Suggested s
    /\ template_content s = "## Bug Fix"
    /\ type (recommended_template s) = "Bug Fix".
Proof.
  destruct (X20_suggestion_comes_from_the_directory "tidy up" "Chore" no_feature_template)
    as (_ & [_ Hsome] & _).
  destruct Hsome as [s Hs].
  { eexists. split; [reflexivity |]. vm_compute. discriminate. }
  exists s. split; [exact Hs |].
  injection Hs as <-. split; reflexivity.
Defined.

(** X21. Read against the directory: when the file selected for the
    change type is in the directory, it is the one recommended, with its
    text; when it is not, the recommendation falls back to the first of
    the default templates, in the order of [DEFAULT_TEMPLATES], that is
    in the directory. *)
Theorem X21_fallback_is_the_first_default_present (changes_summary change_type : string)
    (files : gmap string string) (n : string) (others : list string) :
  present files = n :: others ->
  exists s,
    suggest_template changes_summary change_type (Directory files) = Suggested s
    /\ filename (recommended_template s)
       = (if decide (is_Some (files !! select change_type)) then select change_type else n)
    /\ files !! filename (recommended_template s) = Some (template_content s).
Proof.
  intros Hpresent.
  unfold suggest_template, get_pr_templates.
  pose proof (load_names files) as Hnames. pose proof (load_entries files) as Hentries.
  rewrite Hpresent in Hnames.
  destruct (load_templates files) as [| first rest] eqn:Hload; [discriminate |].
  eexists. split; [reflexivity |]. simpl.
  injection Hnames as Hfirst Hrest.
  assert (Hin : resolve (select change_type) first (first :: rest) ∈ first :: rest).
  { unfold resolve. destruct (List.find _ (first :: rest)) as [found |] eqn:Hfind.
    - apply List.find_some in Hfind as [Hfound _]. apply list_elem_of_In, Hfound.
    - left. }
  split; [| exact (proj1 (proj1 (Forall_forall _ _) Hentries _ Hin))].
  destruct (decide (is_Some (files !! select change_type))) as [Hsome | Hnone].
  - apply resolve_found.
    assert (Hsel : select change_type ∈ map filename (first :: rest)).
    { simpl. rewrite Hfirst, Hrest, <- Hpresent. unfold present.
      apply list_elem_of_filter. split; [exact Hsome | apply select_default]. }
    apply list_elem_of_fmap in Hsel as (t & Hname & Ht). exists t. split; [exact Ht |].
    symmetry. exact Hname.
  - rewrite resolve_missing; [exact Hfirst |].
    intros t Ht Hname. apply Hnone.
    destruct (proj1 (Forall_forall _ _) Hentries t Ht) as [Hfile _].
    rewrite <- Hname, Hfile. eexists. reflexivity.
Qed.

Lemma X21_fallback_is_the_first_default_present_witness :
  exists s,
    suggest_template "faster parsing" "optimization"
      (Directory (list_to_map [("test.md", "## Test"); ("docs.md", "## Documentation")]))
    = Suggested s
    /\ filename (recommended_template s) = "docs.md"
    /\ template_content s = "## Documentation".
Proof.
  destruct (X21_fallback_is_the_first_default_present "faster parsing" "optimization"
              (list_to_map [("test.md", "## Test"); ("docs.md", "## Documentation")])
              "docs.md" ["test.md"]) as (s & Hs & Hname & Htext);
    [vm_compute; reflexivity |].
  exists s. split; [exact Hs |]. split; [exact Hname |].
  injection Hs as <-. reflexivity.
Defined.

(** ** The logger *)

Lemma getLogger_set_logger (name : string) (lg : logger) (st : logging) :
  getLogger name (set_logger name lg st) = lg.
Proof.
  unfold getLogger, set_logger. destruct (is_root name); simpl; [reflexivity |].
  rewrite lookup_insert_eq. reflexivity.
Qed.

Lemma getLogger_set_logger_other (name other : string) (lg : logger) (st : logging) :
  is_root other = false -> other <> name ->
  getLogger other (set_logger name lg st) = getLogger other st.
Proof.
  intros Hother Hne. unfold getLogger, set_logger. rewrite Hother.
  destruct (is_root name); simpl; [reflexivity |].
  rewrite lookup_insert_ne by congruence. reflexivity.
Qed.

(** X22. Handlers do not pile up. With a format the formatter accepts,
    [setup_logger] on a name other than the root's returns a logger that
    is decided by the arguments alone, whatever was set up before and
    however often: it has the level asked for, does not propagate, and
    has one or two handlers, the file handler exactly when the log file
    could be opened, and the console handler exactly when it was asked
    for or the log file could not be opened. *)
Theorem X22_handlers_do_not_accumulate (env : log_files) (name : string) (log_level : Z)
    (log_file : option string) (log_format : string) (console : bool) (st : logging) :
  valid_format log_format = true ->
  is_root name = false ->
  let path := absolute env (default LOG_FILE log_file) in
  exists lg st',
    setup_logger env name log_level log_file log_format console st = (Return lg, st')
    /\ getLogger name st' = lg
    /\ level lg = log_level
    /\ propagate lg = false
    /\ (1 <= length (handlers lg) <= 2)%nat
    /\ (RotatingFileHandler path log_level log_format ∈ handlers lg
        <-> open_error env path = None)
    /\ (StreamHandler log_level log_format ∈ handlers lg
        <-> console = true \/ is_Some (open_error env path))
    /\ (forall earlier,
          (setup_logger env name log_level log_file log_format console earlier).1
          = Return lg).
Proof.
  intros Hvalid Hroot path.
  assert (Hget : forall lg s rs es,
            getLogger name
              {| root := {| handlers := [NullHandler];
                            level := level (root (set_logger name lg s));
                            propagate := propagate (root (set_logger name lg s)) |};
                 loggers := loggers (set_logger name lg s);
                 records := rs; stderr_lines := es |} = lg).
  { intros lg s rs es. unfold getLogger, set_logger. rewrite Hroot. simpl.
    rewrite lookup_insert_eq. reflexivity. }
  unfold setup_logger. rewrite Hvalid. simpl. fold path.
  eexists. eexists. split; [reflexivity |].
  rewrite Hget. split; [reflexivity |].
  split; [reflexivity |]. split; [reflexivity |].
  destruct (open_error env path) as [e |] eqn:Hopen; simpl.
  - split; [lia |]. split.
    + split; [intros Hin | discriminate].
      apply list_elem_of_singleton in Hin. discriminate.
    + split; [| intros earlier; rewrite Hget; reflexivity].
      split; [intros _; right; eexists; reflexivity | intros _; left].
  - destruct console; simpl.
    + split; [lia |]. split; [split; [reflexivity | intros _; left] |].
      split; [| intros earlier; rewrite Hget; reflexivity].
      split; [intros _; left; reflexivity | intros _; right; left].
    + split; [lia |]. split; [split; [reflexivity | intros _; left] |].
      split; [| intros earlier; rewrite Hget; reflexivity].
      split.
      * intros Hin. apply list_elem_of_singleton in Hin. discriminate.
      * intros [Hc | [x Hx]]; discriminate.
Qed.

Lemma X22_handlers_do_not_accumulate_witness :
  exists lg st',
    setup_logger read_only "server" 10 None DEFAULT_LOG_FORMAT false fresh
    = (Return lg, st')
    /\ handlers lg = [StreamHandler 10 DEFAULT_LOG_FORMAT]
    /\ (setup_logger read_only "server" 10 None DEFAULT_LOG_FORMAT false st').1
       = Return lg.
Proof.
  destruct (X22_handlers_do_not_accumulate read_only "server" 10 None DEFAULT_LOG_FORMAT
              false fresh) as (lg & st' & Hout & _ & _ & _ & _ & _ & _ & Hagain);
    [reflexivity | reflexivity |].
  exists lg, st'. split; [exact Hout |]. split; [| apply Hagain].
  injection Hout as <- _. reflexivity.
Defined.

(** X23. Every call that returns leaves the root logger with a
    [NullHandler] and nothing else, so handlers installed on the root
    logger before are gone. When the logger asked for is the root logger
    itself, the logger returned is therefore without the file handler
    and the console handler that the call has just added. A logger of
    another name than the one asked for keeps what it had. *)
Theorem X23_root_logger_is_left_silent (env : log_files) (name : string) (log_level : Z)
    (log_file : option string) (log_format : string) (console : bool) (st : logging) :
  valid_format log_format = true ->
  let out := setup_logger env name log_level log_file log_format console st in
  handlers (root out.2) = [NullHandler]
  /\ (is_root name = true ->
      out.1 = Return {| handlers := [NullHandler]; level := log_level;
                        propagate := false |})
  /\ (is_root name = false ->
      level (root out.2) = level (root st)
      /\ propagate (root out.2) = propagate (root st))
  /\ (forall other, is_root other = false -> other <> name ->
        getLogger other out.2 = getLogger other st).
Proof.
  intros Hvalid out. subst out. unfold setup_logger. rewrite Hvalid. simpl.
  split; [reflexivity |]. split; [| split].
  - intros Hroot. unfold getLogger, set_logger. rewrite Hroot. simpl. reflexivity.
  - intros Hroot. unfold set_logger. rewrite Hroot. simpl. split; reflexivity.
  - intros other Hother Hne. unfold getLogger, set_logger. rewrite Hother. simpl.
    destruct (is_root name); simpl; [reflexivity |].
    rewrite !lookup_insert_ne by congruence. reflexivity.
Qed.

Lemma X23_root_logger_is_left_silent_witness :
  (setup_logger writable EmptyString 10 None DEFAULT_LOG_FORMAT true fresh).1
  = Return {| handlers := [NullHandler]; level := 10; propagate := false |}.
Proof.
  destruct (X23_root_logger_is_left_silent writable EmptyString 10 None DEFAULT_LOG_FORMAT
              true fresh) as (_ & Hroot & _); [reflexivity |].
  apply Hroot. reflexivity.
Defined.

(** X24. A format the formatter refuses makes [setup_logger] raise
    [ValueError] after it has already changed the logger: the logger of
    that name is left without any handler, at the level asked for and
    not propagating, nothing is printed, and a root logger that was not
    the one asked for is not touched. *)
Theorem X24_refused_format_strips_the_logger (env : log_files) (name : string)
    (log_level : Z) (log_file : option string) (log_format : string) (console : bool)
    (st : logging) :
  valid_format log_format = false ->
  let out := setup_logger env name log_level log_file log_format console st in
  out.1 = Raise (OtherError "ValueError"
                   ("Invalid format '" +:+ log_format +:+ "' for '%' style"))
  /\ getLogger name out.2
     = {| handlers := []; level := log_level; propagate := false |}
  /\ records out.2 = records st
  /\ stderr_lines out.2 = stderr_lines st
  /\ (is_root name = false -> root out.2 = root st)
  /\ (forall other, is_root other = false -> other <> name ->
        getLogger other out.2 = getLogger other st).
Proof.
  intros Hvalid out. subst out. unfold setup_logger. rewrite Hvalid. simpl.
  split; [reflexivity |]. split; [apply getLogger_set_logger |].
  split; [unfold set_logger; destruct (is_root name); reflexivity |].
  split; [unfold set_logger; destruct (is_root name); reflexivity |].
  split; [intros Hroot; unfold set_logger; rewrite Hroot; reflexivity |].
  intros other Hother Hne. apply getLogger_set_logger_other; assumption.
Qed.

Lemma X24_refused_format_strips_the_logger_witness :
  length
    (handlers
       (getLogger "server"
          (setup_logger writable "server" 10 None DEFAULT_LOG_FORMAT true fresh).2))
  = 2%nat
  /\ handlers
       (getLogger "server"
          (setup_logger writable "server" 10 None "%(message)" true
             (setup_logger writable "server" 10 None DEFAULT_LOG_FORMAT true fresh).2).2)
     = [].
Proof.
  split; [reflexivity |].
  destruct (X24_refused_format_strips_the_logger writable "server" 10 None "%(message)" true
              (setup_logger writable "server" 10 None DEFAULT_LOG_FORMAT true fresh).2)
    as (_ & Hlogger & _); [reflexivity |].
  rewrite Hlogger. reflexivity.
Defined.

(** ** Change analysis: with and without the diff *)

Lemma subprocess_run_result (w : world) (cmd : list string) (chk : bool) (dir : string)
    (limit : option Z) (log log' : list call) :
  (subprocess_run w cmd chk dir limit log).1 = (subprocess_run w cmd chk dir limit log').1.
Proof.
  unfold subprocess_run. destruct (git w cmd dir) as [e | rt rc out err]; [reflexivity |].
  destruct limit as [t |].
  - destruct (t <? rt); [reflexivity |]. destruct (chk && negb (rc =? 0)); reflexivity.
  - destruct (chk && negb (rc =? 0)); reflexivity.
Qed.

Lemma subprocess_run_log (w : world) (cmd : list string) (chk : bool) (dir : string)
    (limit : option Z) (log : list call) :
  (subprocess_run w cmd chk dir limit log).2
  = log ++ [{| args := cmd; cwd := dir; check := chk; timeout := limit |}].
Proof.
  destruct (subprocess_run_shape w cmd chk dir limit log) as [r Hr]. rewrite Hr.
  reflexivity.
Qed.

(** X25. Asking for the diff changes nothing else. When the analysis
    with the diff succeeds, the analysis without it succeeds with the
    same [base_branch], [files_changed], [statistics] and [commits], and
    runs the same commands in the same order less the full-diff query.
    When the analysis without the diff fails, the one with the diff
    fails as well. *)
Theorem X25_asking_for_the_diff_changes_nothing_else (w : world) (base : string)
    (max_diff_lines : Z) (working_directory : option string) (command_timeout : Z) :
  let with_diff :=
    analyze_file_changes w base true max_diff_lines working_directory command_timeout in
  let without :=
    analyze_file_changes w base false max_diff_lines working_directory command_timeout in
  (forall a, with_diff.1 = Analysis a ->
     without.1 = Analysis {| base_branch := base_branch a;
                             files_changed := files_changed a;
                             statistics := statistics a;
                             commits := commits a;
                             diff := NOT_INCLUDED;
                             truncated := false;
                             total_diff_lines := 0 |}
     /\ without.2 = filter (fun c => args c <> diff_cmd base) with_diff.2)
  /\ (forall f, without.1 = Failure f -> exists f', with_diff.1 = Failure f').
Proof.
  intros with_diff without. subst with_diff without.
  unfold analyze_file_changes, analyze, bind.
  set (dir := or_getcwd w (resolve_directory w working_directory)).
  destruct (list_changed_files_returns w base dir command_timeout [])
    as (files & calls & Hfiles & Hcalls).
  rewrite Hfiles. simpl app.
  assert (Hkeep : filter (fun c => args c <> diff_cmd base) calls = calls).
  { clear Hfiles. induction Hcalls as [| c calls (_ & Hc & _) _ IH]; [reflexivity |].
    rewrite filter_cons. destruct (decide (args c <> diff_cmd base)) as [_ | Hno];
      [rewrite IH; reflexivity | contradiction]. }
  pose proof (subprocess_run_log w (stat_cmd base) false dir (Some command_timeout) calls)
    as Hlog1.
  destruct (subprocess_run w (stat_cmd base) false dir (Some command_timeout) calls)
    as [[st | e] log1] eqn:H1; simpl in Hlog1.
  2:{ split; [intros a Ha; discriminate | intros f _; eexists; reflexivity]. }
  pose proof (subprocess_run_log w (diff_cmd base) false dir (Some command_timeout) log1)
    as Hlog2.
  pose proof (subprocess_run_result w (log_cmd base) false dir None log1) as Hsame.
  pose proof (subprocess_run_log w (log_cmd base) false dir None log1) as Hlog3'.
  destruct (subprocess_run w (diff_cmd base) false dir (Some command_timeout) log1)
    as [[df | e] log2] eqn:H2; simpl in Hlog2.
  2:{ split; [intros a Ha; discriminate | intros f _; eexists; reflexivity]. }
  unfold ret.
  specialize (Hsame log2).
  pose proof (subprocess_run_log w (log_cmd base) false dir None log2) as Hlog3.
  destruct (subprocess_run w (log_cmd base) false dir None log2) as [[lg | e] log3];
    destruct (subprocess_run w (log_cmd base) false dir None log1) as [[lg' | e'] log3'];
    simpl in Hsame, Hlog3, Hlog3'; try discriminate.
  - injection Hsame as <-. split; [| intros f Hf; discriminate].
    intros a [= <-]. simpl. split; [reflexivity |].
    subst log3 log3' log2 log1.
    rewrite !filter_app, Hkeep. rewrite <- !app_assoc. f_equal.
    rewrite !filter_cons, filter_nil. simpl.
    destruct (decide (stat_cmd base <> diff_cmd base)) as [_ | Hno];
      [| exfalso; apply Hno, stat_not_diff].
    destruct (decide (diff_cmd base <> diff_cmd base)) as [Hne | _]; [congruence |].
    destruct (decide (log_cmd base <> diff_cmd base)) as [_ | Hno];
      [| exfalso; apply Hno, log_not_diff].
    reflexivity.
  - split; [intros a Ha; discriminate | intros f _; eexists; reflexivity].
Qed.

Lemma X25_asking_for_the_diff_changes_nothing_else_witness :
  exists a b,
    (analyze_file_changes seven_line_diff "main" true 7 None 180).1 = Analysis a
    /\ (analyze_file_changes seven_line_diff "main" false 7 None 180).1 = Analysis b
    /\ files_changed b = files_changed a
    /\ length (analyze_file_changes seven_line_diff "main" false 7 None 180).2 = 4%nat.
Proof.
  assert (Ha : exists a,
            (analyze_file_changes seven_line_diff "main" true 7 None 180).1 = Analysis a)
    by (eexists; reflexivity).
  destruct Ha as [a Ha]. exists a.
  destruct (X25_asking_for_the_diff_changes_nothing_else seven_line_diff "main" 7 None 180)
    as [Hwith _].
  destruct (Hwith a Ha) as [Hb Hcalls].
  eexists. split; [exact Ha |]. split; [exact Hb |]. split; reflexivity.
Defined.

(** ** The receiver: members that are no objects *)

(** X26. A delivery whose [repository] or [sender] is present without
    being an object (null, for one) is answered 500 "Internal server
    error" and leaves the events file as it was, whatever else the
    delivery carries and whatever the disk would do; the log the tools
    read is then unchanged. With these members absent or objects, the
    answer is 200 exactly when the disk takes the save. *)
Theorem X26_member_that_is_no_object_is_refused (now : string) (event_header : option string)
    (data : Raw.payload) (d : disk) (files : fs) :
  let req := {| Raw.json_body := Raw.Object data; Raw.x_github_event := event_header |} in
  let out := Raw.handle_webhook now req d files in
  (Raw.p_repository data = Raw.NoObject \/ Raw.p_sender data = Raw.NoObject ->
   out.1 = {| http_status := 500; status_field := "error";
              message_field := Some "Internal server error" |}
   /\ out.2 = files
   /\ (forall limit, get_recent_actions_events limit out.2
                     = get_recent_actions_events limit files)
   /\ (forall workflow_name, get_workflow_status workflow_name out.2
                             = get_workflow_status workflow_name files))
  /\ (http_status out.1 = 200
      <-> Raw.p_repository data <> Raw.NoObject
          /\ Raw.p_sender data <> Raw.NoObject
          /\ d = WriteOk)
  /\ (http_status out.1 = 200 ->
      exists stored ev,
        out.2 !! EVENTS_FILE = Some (Stored stored)
        /\ last stored = Some ev
        /\ workflow_run ev = Raw.p_workflow_run data
        /\ event_type ev = default "unknown" event_header).
Proof.
  intros req out. subst out req. unfold Raw.handle_webhook, Raw.read_payload. simpl.
  destruct (Raw.p_repository data) as [| repository |] eqn:Hr; simpl;
    destruct (Raw.p_sender data) as [| sender |] eqn:Hs; simpl;
    try (split; [intros _; repeat split; reflexivity |];
         split; [split; [discriminate | intros (Hr' & Hs' & _); congruence] |];
         discriminate);
    (split; [intros [Hno | Hno]; discriminate |]);
    unfold Webhook.handle_webhook; simpl;
    (destruct d; simpl;
     [ split; [split; [intros _; repeat split; discriminate | reflexivity] |];
       intros _; eexists _, _; split; [apply lookup_insert_eq |];
       split; [apply last_add_event |]; split; reflexivity
     | split; [split; [discriminate | intros (_ & _ & Hd); discriminate] | discriminate]
     | split; [split; [discriminate | intros (_ & _ & Hd); discriminate] | discriminate] ]).
Qed.

Lemma X26_member_that_is_no_object_is_refused_witness :
  let data := {| Raw.p_action := Some "completed"; Raw.p_workflow_run := Some second_run;
                 Raw.p_check_run := None; Raw.p_repository := Raw.NoObject;
                 Raw.p_sender := Raw.Absent |} in
  let out := Raw.handle_webhook "2024-01-02T00:00:01"
               {| Raw.json_body := Raw.Object data;
                  Raw.x_github_event := Some "workflow_run" |}
               WriteOk {[ EVENTS_FILE := Stored [first_event] ]} in
  http_status out.1 = 500
  /\ out.2 = {[ EVENTS_FILE := Stored [first_event] ]}.
Proof.
  intros data out.
  destruct (X26_member_that_is_no_object_is_refused "2024-01-02T00:00:01"
              (Some "workflow_run") data WriteOk {[ EVENTS_FILE := Stored [first_event] ]})
    as [Hrefused _].
  destruct Hrefused as (Hanswer & Hfile & _); [left; reflexivity |].
  fold out in Hanswer, Hfile. rewrite Hanswer. split; [reflexivity | exact Hfile].
Defined.
